(** * The Origami Thought Protocol: session store and chat loop

    A shallow embedding of [main.py]: the [ChatHistory] class, the history
    browser, the file selector and [chat_loop].  Everything outside the
    process (keyboard, clock, disk, the remote model) is an explicit part of
    the state or an oracle of the environment, so that each statement below
    holds for every behaviour of the outside world. *)

From Stdlib Require Import ZArith String Ascii List Bool Lia.
From stdpp Require Import base option list gmap strings sorting.
From stdpp Require Import pretty.
Import ListNotations.

#[local] Set Warnings "-abstract-large-number,-register-all".
Local Open Scope string_scope.

(** ** Python string methods (on ASCII text) *)

Module Py.

(** [str.isspace] on the ASCII range: tab, line feed, vertical tab, form
    feed, carriage return, the four separators 0x1c-0x1f and the space. *)
Definition isspace (c : ascii) : bool :=
  let n := nat_of_ascii c in
  (((9 <=? n) && (n <=? 13)) || ((28 <=? n) && (n <=? 32)))%nat.

Fixpoint lstrip_by (p : ascii -> bool) (s : string) : string :=
  match s with
  | String c s' => if p c then lstrip_by p s' else s
  | EmptyString => EmptyString
  end.

Fixpoint rstrip_by (p : ascii -> bool) (s : string) : string :=
  match s with
  | String c s' =>
      match rstrip_by p s' with
      | EmptyString => if p c then EmptyString else String c EmptyString
      | r => String c r
      end
  | EmptyString => EmptyString
  end.

Definition strip_by (p : ascii -> bool) (s : string) : string :=
  rstrip_by p (lstrip_by p s).

(** [s.strip()] *)
Definition strip (s : string) : string := strip_by isspace s.

Fixpoint mem_char (c : ascii) (chars : string) : bool :=
  match chars with
  | String d r => if Ascii.eqb c d then true else mem_char c r
  | EmptyString => false
  end.

(** [s.strip(chars)] *)
Definition strip_chars (chars s : string) : string :=
  strip_by (fun c => mem_char c chars) s.

Definition lower_char (c : ascii) : ascii :=
  let n := nat_of_ascii c in
  if ((65 <=? n) && (n <=? 90))%nat then ascii_of_nat (n + 32) else c.

Definition upper_char (c : ascii) : ascii :=
  let n := nat_of_ascii c in
  if ((97 <=? n) && (n <=? 122))%nat then ascii_of_nat (n - 32) else c.

Fixpoint map_chars (f : ascii -> ascii) (s : string) : string :=
  match s with
  | String c s' => String (f c) (map_chars f s')
  | EmptyString => EmptyString
  end.

(** [s.lower()] and [s.upper()] *)
Definition lower : string -> string := map_chars lower_char.
Definition upper : string -> string := map_chars upper_char.

(** [s[:n]] *)
Fixpoint take (n : nat) (s : string) : string :=
  match n, s with
  | S n', String c s' => String c (take n' s')
  | _, _ => EmptyString
  end.

(** [s.replace(a, b)] for one-character [a] and [b] *)
Definition replace (a b : ascii) : string -> string :=
  map_chars (fun c => if Ascii.eqb c a then b else c).

(** [s.split(sep)[0]] for a one-character [sep] *)
Fixpoint before (sep : ascii) (s : string) : string :=
  match s with
  | String c s' => if Ascii.eqb c sep then EmptyString else String c (before sep s')
  | EmptyString => EmptyString
  end.

(** [s.capitalize()] *)
Definition capitalize (s : string) : string :=
  match s with
  | String c s' => String (upper_char c) (lower s')
  | EmptyString => EmptyString
  end.

(** [not s] *)
Definition is_empty (s : string) : bool :=
  match s with EmptyString => true | _ => false end.

Fixpoint startswith (p s : string) : bool :=
  match p, s with
  | EmptyString, _ => true
  | String a p', String b s' => Ascii.eqb a b && startswith p' s'
  | String _ _, EmptyString => false
  end.

Fixpoint endswith (p s : string) : bool :=
  match s with
  | EmptyString => is_empty p
  | String _ s' => String.eqb p s || endswith p s'
  end.

Definition digit_of (c : ascii) : option Z :=
  let n := nat_of_ascii c in
  if ((48 <=? n) && (n <=? 57))%nat then Some (Z.of_nat (n - 48)) else None.

(** The white space [int()] skips at both ends of ASCII text: the six
    characters of C's [isspace]. *)
Definition c_isspace (c : ascii) : bool :=
  let n := nat_of_ascii c in
  (((9 <=? n) && (n <=? 13)) || (n =? 32))%nat.

(** The digits of a decimal literal, where a single underscore may stand
    between two digits: the number of digits read and their value.
    [after_digit] tells whether the character before was a digit. *)
Fixpoint digits (after_digit : bool) (count acc : Z) (s : string) : option (Z * Z) :=
  match s with
  | EmptyString => if after_digit then Some (count, acc) else None
  | String c s' =>
      if Ascii.eqb c "_" then
        if after_digit then digits false count acc s' else None
      else
        match digit_of c with
        | Some d => digits true (count + 1) (10 * acc + d) s'
        | None => None
        end
  end.

(** [sys.int_info.default_max_str_digits] *)
Definition max_str_digits : Z := 4300.

(** [int(s)] on ASCII text; [None] stands for [ValueError].  White space
    around the literal is skipped, one sign may come first, single
    underscores may group the digits, and a literal of more than
    [max_str_digits] digits is refused. *)
Definition int (s : string) : option Z :=
  let literal := strip_by c_isspace s in
  let '(negative, body) :=
    match literal with
    | String "-" r => (true, r)
    | String "+" r => (false, r)
    | _ => (false, literal)
    end in
  match digits false 0 0 body with
  | Some (count, n) =>
      if (count <=? max_str_digits)%Z then Some (if negative then - n else n)%Z else None
  | None => None
  end.

(** Decimal digit and zero-padded fields, as [strftime] and [isoformat]
    print them. *)
Definition digit (n : nat) : ascii := ascii_of_nat (48 + n).

Definition pad2 (n : nat) : string :=
  String (digit (n / 10)) (String (digit (n mod 10)) EmptyString).

Definition pad4 (n : nat) : string := pad2 (n / 100) ++ pad2 (n mod 100).

Definition pad6 (n : nat) : string := pad2 (n / 10000) ++ pad4 (n mod 10000).

End Py.

(** ** [datetime] *)

Record datetime := {
  year : nat; month : nat; day : nat;
  hour : nat; minute : nat; second : nat;
  microsecond : nat
}.

(** [d.strftime("%Y%m%d_%H%M%S")] *)
Definition strftime_id (d : datetime) : string :=
  Py.pad4 (year d) ++ Py.pad2 (month d) ++ Py.pad2 (day d) ++ "_" ++
  Py.pad2 (hour d) ++ Py.pad2 (minute d) ++ Py.pad2 (second d).

(** [d.isoformat()] *)
Definition isoformat (d : datetime) : string :=
  Py.pad4 (year d) ++ "-" ++ Py.pad2 (month d) ++ "-" ++ Py.pad2 (day d) ++ "T" ++
  Py.pad2 (hour d) ++ ":" ++ Py.pad2 (minute d) ++ ":" ++ Py.pad2 (second d) ++
  (if Nat.eqb (microsecond d) 0 then "" else "." ++ Py.pad6 (microsecond d)).

(** ** JSON values, as [json.load] returns them and [json.dump] takes them *)

Inductive json :=
| JNull
| JBool (b : bool)
| JInt (n : Z)
| JStr (s : string)
| JArr (items : list json)
| JObj (fields : list (string * json)).

(** Truth value of a loaded value ([if data:]). *)
Definition truthy (v : json) : bool :=
  match v with
  | JNull => false
  | JBool b => b
  | JInt n => negb (n =? 0)%Z
  | JStr s => negb (Py.is_empty s)
  | JArr l => match l with [] => false | _ => true end
  | JObj kv => match kv with [] => false | _ => true end
  end.

Fixpoint assoc (k : string) (kv : list (string * json)) : option json :=
  match kv with
  | [] => None
  | (k', v) :: r => if String.eqb k k' then Some v else assoc k r
  end.

(** ** Exceptions and the state-and-exception monad *)

Inductive exn :=
| KeyboardInterrupt
| Exception (msg : string).

Inductive Res (A : Type) :=
| Ok (a : A)
| Raise (e : exn).
Arguments Ok {A} a.
Arguments Raise {A} e.

Definition M (S A : Type) : Type := S -> Res A * S.

Definition ret {S A} (a : A) : M S A := fun s => (Ok a, s).

Definition raise {S A} (e : exn) : M S A := fun s => (Raise e, s).

Definition bind {S A B} (c : M S A) (k : A -> M S B) : M S B :=
  fun s =>
    match c s with
    | (Ok a, s') => k a s'
    | (Raise e, s') => (Raise e, s')
    end.

(** [try: body  except ... as e: handler e]; what the body did to the state
    before it raised stays done. *)
Definition try_except {S A} (body : M S A) (handler : exn -> M S A) : M S A :=
  fun s =>
    match body s with
    | (Ok a, s') => (Ok a, s')
    | (Raise e, s') => handler e s'
    end.

Definition get {S} : M S S := fun s => (Ok s, s).
Definition modify {S} (f : S -> S) : M S unit := fun s => (Ok tt, f s).

Declare Scope py_scope.
Delimit Scope py_scope with py.
Notation "x <- c ;; k" := (bind c (fun x => k))
  (at level 100, c at next level, right associativity) : py_scope.
Notation "c ;; k" := (bind c (fun _ => k))
  (at level 100, right associativity) : py_scope.

(** ** The outside world *)

(** A file of the history directory: text that [json.load] parses to [v],
    text that it rejects, or a file that cannot be opened for reading. *)
Inductive FileData :=
| Json (v : json)
| Garbage (text : string)
| Unreadable.

(** One [input()] call reads a line (without its newline) or is interrupted. *)
Inductive InputEvent :=
| Line (s : string)
| CtrlC.

(** What is printed.  [Summary] is the line
    [print(f"  {i}. [{created}] {model} ({count} messages)")] with its
    interpolated values, [Show] any other line that interpolates loaded
    values; layout characters are left out of the texts. *)
Inductive Output :=
| Print (s : string)
| Prompt (s : string)
| Summary (i : nat) (created : string) (model count : json)
| Show (label : string) (values : list json)
| Clear.

(** The handle [client.files.upload] returns. *)
Definition FileHandle := string.

(** One element of [contents]. *)
Inductive Part :=
| PFile (f : FileHandle)
| PText (s : string).

(** A call of [client.models.generate_content (model, contents)]. *)
Record Request := { req_model : string; req_contents : list Part }.

Record World := {
  history_dir : gmap string FileData;   (* HISTORY_DIR, by file name *)
  history_dir_exists : bool;
  exports : gmap string string;  (* DATA_DIR/export_*.txt: the text, by name *)
  stdin : list InputEvent;
  stdout : list Output;
  sent : list Request;
  tick : nat                            (* number of oracle calls so far *)
}.

Definition with_history_dir (f : gmap string FileData -> gmap string FileData) (w : World) : World :=
  {| history_dir := f (history_dir w); history_dir_exists := history_dir_exists w;
     exports := exports w; stdin := stdin w; stdout := stdout w; sent := sent w;
     tick := tick w |}.

Definition with_exports (f : gmap string string -> gmap string string) (w : World) : World :=
  {| history_dir := history_dir w; history_dir_exists := history_dir_exists w;
     exports := f (exports w); stdin := stdin w; stdout := stdout w; sent := sent w;
     tick := tick w |}.

Definition with_stdin (l : list InputEvent) (w : World) : World :=
  {| history_dir := history_dir w; history_dir_exists := history_dir_exists w;
     exports := exports w; stdin := l; stdout := stdout w; sent := sent w;
     tick := tick w |}.

Definition emit (o : Output) (w : World) : World :=
  {| history_dir := history_dir w; history_dir_exists := history_dir_exists w;
     exports := exports w; stdin := stdin w; stdout := stdout w ++ [o]; sent := sent w;
     tick := tick w |}.

Definition record_request (r : Request) (w : World) : World :=
  {| history_dir := history_dir w; history_dir_exists := history_dir_exists w;
     exports := exports w; stdin := stdin w; stdout := stdout w; sent := sent w ++ [r];
     tick := tick w |}.

Definition bump (w : World) : World :=
  {| history_dir := history_dir w; history_dir_exists := history_dir_exists w;
     exports := exports w; stdin := stdin w; stdout := stdout w; sent := sent w;
     tick := S (tick w) |}.

(** Result of [open(path, 'w')] followed by a dump: written in full, refused
    at [open] (the file is left as it was), or failed after [open] truncated
    the file (what was written so far is left behind). *)
Inductive WriteOutcome :=
| Written
| OpenFails (msg : string)
| DumpFails (msg : string) (partial : string).

(** The oracles: what the clock, the disk, the remote service and the local
    file system answer at the [n]-th question. *)
Record Env := {
  clock : nat -> datetime;
  disk_write : nat -> string -> WriteOutcome;
  disk_unlink : nat -> string -> option string;
  models_generate_content : nat -> string -> list Part -> Res string;
  files_upload : nat -> string -> string -> Res FileHandle;
  path_expanduser : string -> Res string;
  path_exists : nat -> string -> Res bool;
  path_is_file : nat -> string -> Res bool
}.

Definition APP_NAME := "Origami Thought Protocol".

Definition MODELS : list string :=
  [ "gemini-3-pro-preview"; "gemini-2.5-pro"; "gemini-2.5-flash";
    "gemini-2.5-flash-lite"; "gemini-2.0-flash"; "gemini-2.0-flash-lite" ].

Definition print (s : string) : M World unit :=
  fun w => (Ok tt, emit (Print s) w).

Definition clear_screen : M World unit :=
  fun w => (Ok tt, emit Clear w).

Definition print_header (title : string) : M World unit :=
  (print ("[ " ++ title ++ " ]") ;; print "----------------------------------------")%py.

(** [input(prompt)]: at the end of the input it raises [EOFError]. *)
Definition input (prompt : string) : M World string :=
  fun w =>
    let w1 := emit (Prompt prompt) w in
    match stdin w1 with
    | [] => (Raise (Exception "EOF when reading a line"), w1)
    | Line s :: rest => (Ok s, with_stdin rest w1)
    | CtrlC :: rest => (Raise KeyboardInterrupt, with_stdin rest w1)
    end.

(** ** The program *)

Section Oracles.

Variable E : Env.

(** [datetime.now()] *)
Definition now : M World datetime :=
  fun w => (Ok (clock E (tick w)), bump w).

(** [with open(path, 'w', encoding='utf-8') as f: json.dump(data, f, ...)]
    for a file of the history directory. *)
Definition write_json (path : string) (data : json) : M World unit :=
  fun w =>
    if negb (history_dir_exists w)
    then (Raise (Exception "No such file or directory"), bump w)
    else
      match disk_write E (tick w) path with
      | Written =>
          (Ok tt, bump (with_history_dir (insert path (Json data)) w))
      | OpenFails msg => (Raise (Exception msg), bump w)
      | DumpFails msg partial =>
          (Raise (Exception msg),
           bump (with_history_dir (insert path (Garbage partial)) w))
      end.

(** [with open(path, 'r', encoding='utf-8') as f: return json.load(f)] *)
Definition read_json (path : string) : M World json :=
  fun w =>
    match history_dir w !! path with
    | Some (Json v) => (Ok v, w)
    | Some (Garbage _) => (Raise (Exception "Expecting value"), w)
    | Some Unreadable => (Raise (Exception "Permission denied"), w)
    | None => (Raise (Exception "No such file or directory"), w)
    end.

(** [path.unlink()] *)
Definition unlink (path : string) : M World unit :=
  fun w =>
    match history_dir w !! path with
    | None => (Raise (Exception "No such file or directory"), bump w)
    | Some _ =>
        match disk_unlink E (tick w) path with
        | Some msg => (Raise (Exception msg), bump w)
        | None => (Ok tt, bump (with_history_dir (delete path) w))
        end
    end.

(** [except Exception as e: handler] lets a [KeyboardInterrupt] through. *)
Definition except_Exception {S A} (body : M S A) (handler : string -> M S A) : M S A :=
  try_except body
    (fun e => match e with
              | Exception msg => handler msg
              | KeyboardInterrupt => raise KeyboardInterrupt
              end).

End Oracles.

Module ChatHistory.

(** The message dictionary built by [add_message]. *)
Record Message := {
  timestamp : string;
  role : string;
  content : string;
  has_attachment : bool
}.

(** [self.metadata] *)
Record Metadata := {
  created : string;
  model : option string;
  message_count : nat
}.

Record t := {
  messages : list Message;
  session_id : string;
  session_file : string;   (* the file name under HISTORY_DIR *)
  metadata : Metadata
}.

(** What [json.dump] sees of a message and of the metadata. *)
Definition message_json (m : Message) : json :=
  JObj [ ("timestamp", JStr (timestamp m));
         ("role", JStr (role m));
         ("content", JStr (content m));
         ("has_attachment", JBool (has_attachment m)) ].

Definition metadata_json (m : Metadata) : json :=
  JObj [ ("created", JStr (created m));
         ("model", match model m with Some s => JStr s | None => JNull end);
         ("message_count", JInt (Z.of_nat (message_count m))) ].

(** The dictionary [data] that [_save] dumps. *)
Definition record_json (self : t) : json :=
  JObj [ ("metadata", metadata_json (metadata self));
         ("messages", JArr (map message_json (messages self))) ].

Section Methods.

Variable E : Env.

Definition __init__ : M World t :=
  (d1 <- now E ;;
   let session_id := strftime_id d1 in
   d2 <- now E ;;
   ret {| messages := [];
          session_id := session_id;
          session_file := "chat_" ++ session_id ++ ".json";
          metadata := {| created := isoformat d2; model := None; message_count := 0 |} |})%py.

Definition _save (self : t) : M World unit :=
  let data := record_json self in
  except_Exception
    (write_json E (session_file self) data)
    (fun e => print ("Warning: Could not save history: " ++ e)).

Definition add_message (self : t) (role content : string) (has_file : bool) : M World t :=
  (d <- now E ;;
   let message := {| timestamp := isoformat d; role := role;
                     content := content; has_attachment := has_file |} in
   let messages' := (messages self ++ [message])%list in
   let self' := {| messages := messages';
                   session_id := session_id self;
                   session_file := session_file self;
                   metadata := {| created := created (metadata self);
                                  model := model (metadata self);
                                  message_count := length messages' |} |} in
   _save self' ;;
   ret self')%py.

Definition set_model (self : t) (model' : string) : M World t :=
  let self' := {| messages := messages self;
                  session_id := session_id self;
                  session_file := session_file self;
                  metadata := {| created := created (metadata self);
                                 model := Some model';
                                 message_count := message_count (metadata self) |} |} in
  (_save self' ;; ret self')%py.

Definition get_session_path (self : t) : string := session_file self.

(** The pattern [chat_*.json]. *)
Definition glob_chat (name : string) : bool :=
  Py.startswith "chat_" name && Py.endswith ".json" name
  && (10 <=? String.length name)%nat.

(** [sorted(HISTORY_DIR.glob("chat_*.json"), reverse=True)]: paths of one
    directory compare as their names do, character by character. *)
Definition list_sessions : M World (list string) :=
  fun w =>
    if negb (history_dir_exists w) then (Ok [], w)
    else
      let found := filter (fun n => glob_chat n = true) (map_to_list (history_dir w)).*1 in
      (Ok (merge_sort (flip String.le) found), w).

(** [load_session] returns what [json.load] returned, or [None]; a loaded
    [null] is [None] as well. *)
Definition load_session (session_path : string) : M World json :=
  except_Exception
    (read_json session_path)
    (fun e => print ("Error loading session: " ++ e) ;; ret JNull)%py.

Definition delete_session (session_path : string) : M World bool :=
  except_Exception
    (unlink E session_path ;; ret true)%py
    (fun e => print ("Error deleting session: " ++ e) ;; ret false)%py.

End Methods.

End ChatHistory.

(** ** Access to loaded values

    A loaded record is whatever the file held, so every access can fail the
    way Python's does: [AttributeError] or [TypeError], both [Exception]s. *)

(** [d.get(key, dflt)] *)
Definition dict_get {S} (d : json) (key : string) (dflt : json) : M S json :=
  match d with
  | JObj fields => ret (default dflt (assoc key fields))
  | _ => raise (Exception "object has no attribute 'get'")
  end.

(** [v[:n]] *)
Definition slice {S} (n : nat) (v : json) : M S json :=
  match v with
  | JStr s => ret (JStr (Py.take n s))
  | JArr l => ret (JArr (firstn n l))
  | _ => raise (Exception "object is not subscriptable")
  end.

(** [v.replace("T", " ")] and [v.upper()] *)
Definition str_method {S} (f : string -> string) (v : json) : M S string :=
  match v with
  | JStr s => ret (f s)
  | _ => raise (Exception "object has no such attribute")
  end.

(** [len(v)] *)
Definition len {S} (v : json) : M S nat :=
  match v with
  | JStr s => ret (String.length s)
  | JArr l => ret (length l)
  | JObj kv => ret (length kv)
  | _ => raise (Exception "object has no len()")
  end.

(** The values a [for] loop over [v] goes through. *)
Definition iterate {S} (v : json) : M S (list json) :=
  match v with
  | JArr l => ret l
  | JObj kv => ret (map (fun p => JStr (fst p)) kv)
  | JStr s => ret (map (fun c => JStr (String c EmptyString)) (list_ascii_of_string s))
  | _ => raise (Exception "object is not iterable")
  end.

Fixpoint for_each {S A} (body : A -> M S unit) (l : list A) : M S unit :=
  match l with
  | [] => ret tt
  | x :: rest => (body x ;; for_each body rest)%py
  end.

Fixpoint enumerate {A} (start : nat) (l : list A) : list (nat * A) :=
  match l with
  | [] => []
  | x :: rest => (start, x) :: enumerate (S start) rest
  end.

(** ** The history browser *)

Section Browser.

Variable E : Env.

(** One round of the listing loop of [view_history]. *)
Definition list_entry (entry : nat * string) : M World unit :=
  let (i, session_path) := entry in
  (data <- ChatHistory.load_session session_path ;;
   if truthy data then
     meta <- dict_get data "metadata" (JObj []) ;;
     created0 <- dict_get meta "created" (JStr "Unknown") ;;
     created1 <- slice 16 created0 ;;
     created <- str_method (Py.replace "T" " ") created1 ;;
     model <- dict_get meta "model" (JStr "Unknown") ;;
     count <- dict_get meta "message_count" (JInt 0) ;;
     (fun w => (Ok tt, emit (Summary i created model count) w))
   else ret tt)%py.

Definition display_message (msg : json) : M World unit :=
  (role0 <- dict_get msg "role" (JStr "unknown") ;;
   role <- str_method Py.upper role0 ;;
   content <- dict_get msg "content" (JStr "") ;;
   timestamp0 <- dict_get msg "timestamp" (JStr "") ;;
   timestamp1 <- slice 19 timestamp0 ;;
   timestamp <- str_method (Py.replace "T" " ") timestamp1 ;;
   flag <- dict_get msg "has_attachment" JNull ;;
   let has_file := if truthy flag then "[file] " else "" in
   print ("[" ++ timestamp ++ "] " ++ role ++ ":") ;;
   shown <- slice 500 content ;;
   n <- len content ;;
   let dots := if (500 <? n)%nat then "..." else "" in
   (fun w => (Ok tt, emit (Show has_file [shown; JStr dots]) w)))%py.

Definition display_session (session_path : string) : M World unit :=
  (data <- ChatHistory.load_session session_path ;;
   if negb (truthy data) then ret tt else
   clear_screen ;;
   meta <- dict_get data "metadata" (JObj []) ;;
   messages <- dict_get data "messages" (JArr []) ;;
   created0 <- dict_get meta "created" (JStr "") ;;
   created <- slice 10 created0 ;;
   (fun w => (Ok tt, emit (Show "[ CONVERSATION - ]" [created]) w)) ;;
   print "----------------------------------------" ;;
   model <- dict_get meta "model" (JStr "Unknown") ;;
   (fun w => (Ok tt, emit (Show "Model: " [model]) w)) ;;
   n <- len messages ;;
   print ("Messages: " ++ pretty n) ;;
   print "----------------------------------------" ;;
   msgs <- iterate messages ;;
   for_each display_message msgs ;;
   print "----------------------------------------" ;;
   input "Press Enter to continue..." ;;
   ret tt)%py.

(** [xs[idx]] under the guard [0 <= idx < len(xs)]. *)
Definition item_at (xs : list string) (idx : Z) : option string :=
  if ((0 <=? idx) && (idx <? Z.of_nat (length xs)))%Z
  then xs !! Z.to_nat idx
  else None.

(** [view_history]; [except ValueError] guards the [int(...)] call, the
    only place of its block that raises one. *)
Definition view_history : M World unit :=
  (print_header "CHAT HISTORY" ;;
   sessions <- ChatHistory.list_sessions ;;
   match sessions with
   | [] => print "No saved conversations found."
   | _ =>
     print ("Found " ++ pretty (length sessions) ++ " conversation(s):") ;;
     for_each list_entry (enumerate 1 (firstn 10 sessions)) ;;
     print "  0. Back to chat" ;;
     print "  d. Delete a session" ;;
     print "  c. Clear all history" ;;
     line <- input "Select option: " ;;
     let choice := Py.lower (Py.strip line) in
     if (choice =? "0") || (choice =? "") then ret tt
     else if choice =? "d" then
       line <- input "Enter session number to delete: " ;;
       let delete_idx := Py.strip line in
       match Py.int delete_idx with
       | None => print "Invalid selection"
       | Some n =>
           match item_at sessions (n - 1) with
           | None => ret tt
           | Some target =>
               line <- input ("Delete session " ++ delete_idx ++ "? [y/N]: ") ;;
               let confirm := Py.lower (Py.strip line) in
               if confirm =? "y" then
                 ok <- ChatHistory.delete_session E target ;;
                 if ok : bool then print "[OK] Session deleted"
                 else print "[ERROR] Failed to delete"
               else ret tt
           end
       end
     else if choice =? "c" then
       line <- input "Delete ALL chat history? [y/N]: " ;;
       let confirm := Py.lower (Py.strip line) in
       if confirm =? "y" then
         for_each (fun session => ChatHistory.delete_session E session ;; ret tt) sessions ;;
         print "[OK] All history cleared"
       else ret tt
     else
       match Py.int choice with
       | None => print "Invalid selection"
       | Some n =>
           match item_at sessions (n - 1) with
           | None => ret tt
           | Some target => display_session target
           end
       end
   end)%py.

End Browser.

(** ** Export, model selection and the file selector *)

(** [path.name] and [path.suffix] of a path string. *)
Fixpoint after_last (sep : ascii) (s : string) : option string :=
  match s with
  | EmptyString => None
  | String c r =>
      match after_last sep r with
      | Some x => Some x
      | None => if Ascii.eqb c sep then Some r else None
      end
  end.

Definition path_name (p : string) : string :=
  let p' := Py.rstrip_by (Ascii.eqb "/") p in
  default p' (after_last "/" p').

Definition path_suffix (p : string) : string :=
  let name := path_name p in
  match after_last "." name with
  | Some ext =>
      if Py.is_empty ext || (String.length name =? S (String.length ext))%nat
      then "" else "." ++ ext
  | None => ""
  end.

Definition mime_types : list (string * string) :=
  [ (".jpg", "image/jpeg"); (".jpeg", "image/jpeg");
    (".png", "image/png"); (".gif", "image/gif"); (".webp", "image/webp");
    (".mp4", "video/mp4"); (".mpeg", "video/mpeg");
    (".mov", "video/quicktime"); (".avi", "video/x-msvideo"); (".webm", "video/webm");
    (".mp3", "audio/mp3"); (".wav", "audio/wav");
    (".aiff", "audio/aiff"); (".aac", "audio/aac");
    (".ogg", "audio/ogg"); (".flac", "audio/flac") ].

Fixpoint lookup_str (k : string) (kv : list (string * string)) : option string :=
  match kv with
  | [] => None
  | (k', v) :: r => if String.eqb k k' then Some v else lookup_str k r
  end.

Definition get_mime_type (file_path : string) : string :=
  default "application/octet-stream" (lookup_str (Py.lower (path_suffix file_path)) mime_types).

(** The line feed, and the text of a file written piece by piece. *)
Definition newline : string := String (ascii_of_nat 10) EmptyString.

Definition file_text (writes : list string) : string :=
  fold_right String.append EmptyString writes.

(** The two quote characters that [select_file] strips from a dropped path. *)
Definition quote_chars : string :=
  String (ascii_of_nat 39) (String (ascii_of_nat 34) EmptyString).

Section Commands.

Variable E : Env.

(** What the [f.write] calls of [export_history] write, in order. *)
Definition export_writes (history : ChatHistory.t) : list string :=
  [ APP_NAME ++ " - Chat Export" ++ newline;
    "========================================" ++ newline ++ newline;
    "Session: " ++ ChatHistory.session_id history ++ newline;
    "Model: " ++ default "None" (ChatHistory.model (ChatHistory.metadata history)) ++ newline;
    "Created: " ++ ChatHistory.created (ChatHistory.metadata history) ++ newline;
    newline ++ "----------------------------------------" ++ newline ++ newline ]
  ++ flat_map
       (fun msg =>
          [ "[" ++ Py.replace "T" " " (Py.take 19 (ChatHistory.timestamp msg)) ++ "] "
            ++ Py.upper (ChatHistory.role msg) ++ ":" ++ newline;
            ChatHistory.content msg ++ newline ++ newline ])
       (ChatHistory.messages history).

(** [with open(export_path, 'w', encoding='utf-8') as f: f.write(...) ...];
    a write that fails part-way leaves what was written before. *)
Definition write_export (path : string) (writes : list string) : M World unit :=
  fun w =>
    match disk_write E (tick w) path with
    | Written => (Ok tt, bump (with_exports (insert path (file_text writes)) w))
    | OpenFails msg => (Raise (Exception msg), bump w)
    | DumpFails msg partial =>
        (Raise (Exception msg), bump (with_exports (insert path partial) w))
    end.

Definition export_history (history : ChatHistory.t) : M World unit :=
  let export_path := "export_" ++ ChatHistory.session_id history ++ ".txt" in
  except_Exception
    (write_export export_path (export_writes history) ;;
     print ("[OK] Exported to: " ++ export_path))%py
    (fun e => print ("[ERROR] Export failed: " ++ e)).

Definition select_model : M World string :=
  (print_header "SELECT AI MODEL" ;;
   for_each (fun e : nat * string =>
               print ("  " ++ pretty (fst e) ++ ". " ++ snd e
                      ++ (if (fst e =? 1)%nat then " (default)" else "")))
            (enumerate 1 MODELS) ;;
   line <- input ("Select model [1-" ++ pretty (length MODELS) ++ "]: ") ;;
   let choice := Py.strip line in
   let fallback := (print "Using default model" ;; ret (default "" (head MODELS))) in
   if Py.is_empty choice then ret (default "" (head MODELS))
   else
     match Py.int choice with
     | Some n =>
         match item_at MODELS (n - 1) with
         | Some m => ret m
         | None => fallback
         end
     | None => fallback
     end)%py.

(** [select_file]; [None] is the source's [return None]. *)
Definition select_file : M World (option (string * string)) :=
  (print_header "FILE SELECTOR" ;;
   print "Supported formats:" ;;
   print "  Images: jpg, jpeg, png, gif, webp" ;;
   print "  Videos: mp4, mpeg, mov, avi, webm" ;;
   print "  Audio:  mp3, wav, aiff, aac, ogg, flac" ;;
   line <- input "Enter file path (or drag and drop): " ;;
   let file_path := Py.strip_chars quote_chars (Py.strip line) in
   if Py.is_empty file_path then ret None else
   path <- (fun w => (path_expanduser E file_path, w)) ;;
   exists_ <- (fun w => (path_exists E (tick w) path, bump w)) ;;
   if negb exists_ then print ("[ERROR] File not found: " ++ path) ;; ret None else
   is_file <- (fun w => (path_is_file E (tick w) path, bump w)) ;;
   if negb is_file then print ("[ERROR] Not a file: " ++ path) ;; ret None else
   let mime_type := get_mime_type path in
   let file_type := Py.capitalize (Py.before "/" mime_type) in
   let accept := (print ("[OK] " ++ file_type ++ ": " ++ path_name path) ;;
                  ret (Some (path, mime_type))) in
   if mime_type =? "application/octet-stream" then
     print ("[WARNING] Unknown file type: " ++ path_suffix path) ;;
     answer <- input "Continue? [y/N]: " ;;
     if negb (Py.lower (Py.strip answer) =? "y") then ret None else accept
   else accept)%py.

Definition upload_file (file_path mime_type : string) : M World FileHandle :=
  (print ("Uploading " ++ path_name file_path ++ "...") ;;
   uploaded_file <- (fun w => (files_upload E (tick w) file_path mime_type, bump w)) ;;
   print "[OK]" ;;
   ret uploaded_file)%py.

Definition print_help : M World unit :=
  (print "Commands:" ;;
   print "  /file    - Attach a file" ;;
   print "  /history - View saved conversations" ;;
   print "  /export  - Export current chat" ;;
   print "  /model   - Change AI model" ;;
   print "  /clear   - Clear screen" ;;
   print "  /help    - Show this help" ;;
   print "  /quit    - Exit OTP")%py.

(** [client.models.generate_content(model=..., contents=..., config=...)]
    followed by [response.text]. *)
Definition generate_content (model : string) (contents : list Part) : M World string :=
  fun w =>
    (models_generate_content E (tick w) model contents,
     bump (record_request {| req_model := model; req_contents := contents |} w)).

End Commands.

(** ** The chat loop *)

(** The local variables of [chat_loop], with the world they run in. *)
Record Loop := {
  model : string;
  history : ChatHistory.t;
  attached_file : option FileHandle;
  attached_file_name : option string;
  world : World
}.

Definition with_world (w : World) (l : Loop) : Loop :=
  {| model := model l; history := history l; attached_file := attached_file l;
     attached_file_name := attached_file_name l; world := w |}.

Definition with_model (m : string) (l : Loop) : Loop :=
  {| model := m; history := history l; attached_file := attached_file l;
     attached_file_name := attached_file_name l; world := world l |}.

Definition with_history (h : ChatHistory.t) (l : Loop) : Loop :=
  {| model := model l; history := h; attached_file := attached_file l;
     attached_file_name := attached_file_name l; world := world l |}.

Definition with_attachment (f : option FileHandle) (name : option string) (l : Loop) : Loop :=
  {| model := model l; history := history l; attached_file := f;
     attached_file_name := name; world := world l |}.

(** [bool(x)] of a value that is [None] or an object. *)
Definition bool_of {A} (x : option A) : bool :=
  match x with Some _ => true | None => false end.

(** Run a computation of the world inside the loop. *)
Definition io {A} (c : M World A) : M Loop A :=
  fun l => let (r, w) := c (world l) in (r, with_world w l).

(** How one round of the [while True] ends. *)
Inductive Control :=
| Continue
| Break.

Section ChatLoop.

Variable E : Env.

(** [history.add_message(role, content, has_file)] and
    [history.set_model(model)] on the loop's [history]. *)
Definition history_add_message (role content : string) (has_file : bool) : M Loop unit :=
  (l <- get ;;
   h <- io (ChatHistory.add_message E (history l) role content has_file) ;;
   modify (with_history h))%py.

Definition history_set_model (m : string) : M Loop unit :=
  (l <- get ;;
   h <- io (ChatHistory.set_model E (history l) m) ;;
   modify (with_history h))%py.

(** The body of the [try] of one round, from the prompt on. *)
Definition round_body : M Loop Control :=
  (l <- get ;;
   let attachment_indicator :=
     match attached_file l with
     | Some _ => " [attached: " ++ default "None" (attached_file_name l) ++ "]"
     | None => ""
     end in
   line <- io (input ("You" ++ attachment_indicator ++ ": ")) ;;
   let user_input := Py.strip line in
   if Py.is_empty user_input then ret Continue else
   let cmd := Py.lower user_input in
   if cmd =? "/quit" then
     io (print ("[OK] Chat saved to: " ++ ChatHistory.get_session_path (history l))) ;;
     io (print "Goodbye!") ;;
     ret Break
   else if cmd =? "/clear" then
     io clear_screen ;;
     io (print APP_NAME) ;;
     io (print ("Model: " ++ model l ++ " | Session: " ++ ChatHistory.session_id (history l))) ;;
     ret Continue
   else if cmd =? "/help" then
     io print_help ;; ret Continue
   else if cmd =? "/model" then
     m <- io (select_model) ;;
     modify (with_model m) ;;
     history_set_model m ;;
     io (print ("[OK] Now using: " ++ m)) ;;
     ret Continue
   else if cmd =? "/history" then
     io (view_history E) ;; ret Continue
   else if cmd =? "/export" then
     io (export_history E (history l)) ;; ret Continue
   else if cmd =? "/file" then
     result <- io (select_file E) ;;
     match result with
     | Some (file_path, mime_type) =>
         f <- io (upload_file E file_path mime_type) ;;
         modify (with_attachment (Some f) (Some (path_name file_path))) ;;
         ret Continue
     | None => ret Continue
     end
   else
     let contents :=
       (match attached_file l with Some f => [PFile f] | None => [] end
        ++ [PText user_input])%list in
     history_add_message "user" user_input (bool_of (attached_file l)) ;;
     io (print "OTP: ") ;;
     response_text <- io (generate_content E (model l) contents) ;;
     io (print response_text) ;;
     history_add_message "assistant" response_text false ;;
     match attached_file l with
     | Some _ =>
         modify (with_attachment None None) ;;
         io (print "[attachment cleared]") ;;
         ret Continue
     | None => ret Continue
     end)%py.

(** One round of the [while True]: the [try] and its two handlers. *)
Definition round : M Loop Control :=
  try_except round_body
    (fun e =>
       match e with
       | KeyboardInterrupt =>
           io (print "Use /quit to exit (saves chat history)") ;; ret Continue
       | Exception msg =>
           io (print ("[ERROR] " ++ msg)) ;;
           history_add_message "system" ("Error: " ++ msg) false ;;
           ret Continue
       end)%py.

(** How a bounded run of the loop ends. *)
Inductive Ending :=
| Quit          (* [break] was reached *)
| StillRunning. (* the rounds allowed were used up *)

Fixpoint rounds (n : nat) : M Loop Ending :=
  match n with
  | 0 => ret StillRunning
  | S n' =>
      (c <- round ;;
       match c with
       | Break => ret Quit
       | Continue => rounds n'
       end)%py
  end.

(** The statements of [chat_loop] before the [while]. *)
Definition chat_setup (model0 : string) : M World Loop :=
  (clear_screen ;;
   print APP_NAME ;;
   print "========================================" ;;
   print ("Model: " ++ model0) ;;
   print "Type /help for commands" ;;
   print "========================================" ;;
   history0 <- ChatHistory.__init__ E ;;
   history1 <- ChatHistory.set_model E history0 model0 ;;
   (fun w => (Ok {| model := model0; history := history1;
                    attached_file := None; attached_file_name := None;
                    world := w |}, w)))%py.

(** [chat_loop(client, model)], for at most [n] rounds; the result carries
    the local variables as the last round left them. *)
Definition chat_loop (model0 : string) (n : nat) : M World (Ending * Loop) :=
  (l0 <- chat_setup model0 ;;
   (fun _ => match rounds n l0 with
             | (Ok e, l) => (Ok (e, l), world l)
             | (Raise x, l) => (Raise x, world l)
             end))%py.

End ChatLoop.

(** ** The API key: environment, configuration file, prompt *)

(** Before the chat: the terminal and oracles of [World], the value of the
    environment variable [GEMINI_API_KEY] and the file [CONFIG_FILE]
    ([None]: there is no such file). *)
Record Host := {
  terminal : World;
  environ_key : option string;
  config_file : option FileData
}.

Definition with_terminal (w : World) (h : Host) : Host :=
  {| terminal := w; environ_key := environ_key h; config_file := config_file h |}.

Definition with_config_file (f : option FileData) (h : Host) : Host :=
  {| terminal := terminal h; environ_key := environ_key h; config_file := f |}.

(** Run a computation of the terminal on the host. *)
Definition on_terminal {A} (c : M World A) : M Host A :=
  fun h => let (r, w) := c (terminal h) in (r, with_terminal w h).

(** How a function that may call [sys.exit] ends. *)
Inductive Exit (A : Type) :=
| Returned (a : A)
| SysExit (code : Z).
Arguments Returned {A} a.
Arguments SysExit {A} code.

(** [d[key] = v] on a dictionary: a key already there keeps its place. *)
Fixpoint assoc_set (key : string) (v : json) (kv : list (string * json)) : list (string * json) :=
  match kv with
  | [] => [(key, v)]
  | (k, x) :: rest => if String.eqb key k then (k, v) :: rest else (k, x) :: assoc_set key v rest
  end.

(** [config[key] = v] *)
Definition dict_set {S} (d : json) (key : string) (v : json) : M S json :=
  match d with
  | JObj fields => ret (JObj (assoc_set key v fields))
  | _ => raise (Exception "object does not support item assignment")
  end.

Section ApiKey.

Variable E : Env.

(** [load_config]: the bare [except] swallows whatever goes wrong. *)
Definition load_config : M Host json :=
  fun h =>
    match config_file h with
    | Some (Json v) => (Ok v, h)
    | Some (Garbage _) | Some Unreadable | None => (Ok (JObj []), h)
    end.

Definition save_config (config : json) : M Host unit :=
  fun h =>
    let h' := with_terminal (bump (terminal h)) h in
    match disk_write E (tick (terminal h)) "config.json" with
    | Written => (Ok tt, with_config_file (Some (Json config)) h')
    | OpenFails msg =>
        on_terminal (print ("Warning: Could not save config: " ++ msg)) h'
    | DumpFails msg partial =>
        on_terminal (print ("Warning: Could not save config: " ++ msg))
                    (with_config_file (Some (Garbage partial)) h')
    end.

Definition get_api_key : M Host (Exit json) :=
  (h <- get ;;
   match environ_key h with
   | Some (String c k) =>
       on_terminal (print "[OK] Using API key from environment variable") ;;
       ret (Returned (JStr (String c k)))
   | Some EmptyString | None =>
       config <- load_config ;;
       saved <- dict_get config "api_key" JNull ;;
       if truthy saved then
         on_terminal (print "[OK] Using saved API key") ;;
         ret (Returned saved)
       else
         on_terminal (print_header "API KEY SETUP") ;;
         on_terminal (print "Get your free API key at:") ;;
         on_terminal (print "https://aistudio.google.com/app/apikey") ;;
         line <- on_terminal (input "Enter your Gemini API key: ") ;;
         let api_key := Py.strip line in
         if Py.is_empty api_key then
           on_terminal (print "[ERROR] API key is required") ;;
           ret (SysExit 1)
         else
           answer <- on_terminal (input "Save API key for future sessions? [Y/n]: ") ;;
           let save_choice := Py.lower (Py.strip answer) in
           (if negb (save_choice =? "n") then
              config' <- dict_set config "api_key" (JStr api_key) ;;
              save_config config' ;;
              on_terminal (print "[OK] API key saved")
            else ret tt) ;;
           ret (Returned (JStr api_key))
   end)%py.

End ApiKey.

(** ** Sample worlds, for running the program *)

Definition at_second (n : nat) : datetime :=
  {| year := 2025; month := 3; day := 9; hour := 14; minute := 30;
     second := n; microsecond := 0 |}.

(** A world where everything works: the disk writes, the path exists and the
    remote model answers. *)
Definition calm : Env :=
  {| clock := at_second;
     disk_write := fun _ _ => Written;
     disk_unlink := fun _ _ => None;
     models_generate_content := fun _ _ _ => Ok "hi";
     files_upload := fun _ p _ => Ok ("files/" ++ p);
     path_expanduser := fun p => Ok p;
     path_exists := fun _ _ => Ok true;
     path_is_file := fun _ _ => Ok true |}.

(** The same world with the remote model out of reach. *)
Definition offline : Env :=
  {| clock := at_second;
     disk_write := fun _ _ => Written;
     disk_unlink := fun _ _ => None;
     models_generate_content := fun _ _ _ => Raise (Exception "503 UNAVAILABLE");
     files_upload := fun _ p _ => Ok ("files/" ++ p);
     path_expanduser := fun p => Ok p;
     path_exists := fun _ _ => Ok true;
     path_is_file := fun _ _ => Ok true |}.

(** The same world where no path exists. *)
Definition barren : Env :=
  {| clock := at_second;
     disk_write := fun _ _ => Written;
     disk_unlink := fun _ _ => None;
     models_generate_content := fun _ _ _ => Ok "hi";
     files_upload := fun _ p _ => Ok ("files/" ++ p);
     path_expanduser := fun p => Ok p;
     path_exists := fun _ _ => Ok false;
     path_is_file := fun _ _ => Ok false |}.

(** The barren world where, besides, no [~user] prefix can be resolved:
    [expanduser] raises [RuntimeError] there. *)
Definition homeless : Env :=
  {| clock := at_second;
     disk_write := fun _ _ => Written;
     disk_unlink := fun _ _ => None;
     models_generate_content := fun _ _ _ => Ok "hi";
     files_upload := fun _ p _ => Ok ("files/" ++ p);
     path_expanduser := fun p =>
       if Py.startswith "~" p
       then Raise (Exception "Could not determine home directory.")
       else Ok p;
     path_exists := fun _ _ => Ok false;
     path_is_file := fun _ _ => Ok false |}.

(** The barren world where, besides, a name of more than 255 characters
    is refused by the file system: [exists()] raises [OSError] there. *)
Definition cramped : Env :=
  {| clock := at_second;
     disk_write := fun _ _ => Written;
     disk_unlink := fun _ _ => None;
     models_generate_content := fun _ _ _ => Ok "hi";
     files_upload := fun _ p _ => Ok ("files/" ++ p);
     path_expanduser := fun p => Ok p;
     path_exists := fun _ p =>
       if (255 <? String.length p)%nat
       then Raise (Exception "[Errno 36] File name too long")
       else Ok false;
     path_is_file := fun _ _ => Ok false |}.

(** A file name of 300 characters. *)
Definition long_name : string := string_of_list_ascii (repeat "a"%char 300).

(** The calm world where uploads fail. *)
Definition jammed : Env :=
  {| clock := at_second;
     disk_write := fun _ _ => Written;
     disk_unlink := fun _ _ => None;
     models_generate_content := fun _ _ _ => Ok "hi";
     files_upload := fun _ _ _ => Raise (Exception "413 Payload Too Large");
     path_expanduser := fun p => Ok p;
     path_exists := fun _ _ => Ok true;
     path_is_file := fun _ _ => Ok true |}.

(** An empty history directory and the given keyboard input. *)
Definition fresh (keys : list string) : World :=
  {| history_dir := ∅; history_dir_exists := true; exports := ∅;
     stdin := map Line keys; stdout := []; sent := []; tick := 0 |}.


(** ** Sequences of store operations *)

Local Open Scope list_scope.

(** The two operations that change a session and persist it. *)
Inductive Op :=
| Append (role content : string) (has_file : bool)
| SetModel (m : string).

Definition apply_op (E : Env) (op : Op) (h : ChatHistory.t) : M World ChatHistory.t :=
  match op with
  | Append role content has_file => ChatHistory.add_message E h role content has_file
  | SetModel m => ChatHistory.set_model E h m
  end.

Fixpoint apply_ops (E : Env) (ops : list Op) (h : ChatHistory.t) : M World ChatHistory.t :=
  match ops with
  | [] => ret h
  | op :: rest => (h' <- apply_op E op h ;; apply_ops E rest h')%py
  end.

(** A new session followed by the operations [ops]. *)
Definition session (E : Env) (ops : list Op) : M World ChatHistory.t :=
  (h <- ChatHistory.__init__ E ;; apply_ops E ops h)%py.

(** The messages that [ops] append, as (role, content, has_attachment). *)
Fixpoint appended (ops : list Op) : list (string * string * bool) :=
  match ops with
  | [] => []
  | Append role content has_file :: rest => (role, content, has_file) :: appended rest
  | SetModel _ :: rest => appended rest
  end.

(** The write that [_save] attempts in the world [w] goes through. *)
Definition write_ok (E : Env) (w : World) (path : string) : bool :=
  history_dir_exists w &&
  match disk_write E (tick w) path with Written => true | _ => false end.

(** The world in which an operation started in [w] reaches its [_save]:
    [add_message] has read the clock once by then. *)
Definition world_at_save (op : Op) (w : World) : World :=
  match op with
  | Append _ _ _ => bump w
  | SetModel _ => w
  end.

(** ** Reading a loaded record, field by field *)

Definition field (key : string) (v : json) : option json :=
  match v with JObj kv => assoc key kv | _ => None end.

(** [data["metadata"]["message_count"]] *)
Definition stored_count (data : json) : option Z :=
  match field "metadata" data with
  | Some meta => match field "message_count" meta with Some (JInt n) => Some n | _ => None end
  | None => None
  end.

(** [data["messages"]] *)
Definition stored_messages (data : json) : option (list json) :=
  match field "messages" data with Some (JArr l) => Some l | _ => None end.

(** [(msg["role"], msg["content"], msg["has_attachment"])] *)
Definition stored_message (msg : json) : option (string * string * bool) :=
  match field "role" msg, field "content" msg, field "has_attachment" msg with
  | Some (JStr r), Some (JStr c), Some (JBool b) => Some (r, c, b)
  | _, _, _ => None
  end.

(** ** Vocabulary of the statements *)

(** The message [add_message] builds when the clock shows [d]. *)
Definition new_message (d : datetime) (role content : string) (has_file : bool) : ChatHistory.Message :=
  {| ChatHistory.timestamp := isoformat d; ChatHistory.role := role;
     ChatHistory.content := content; ChatHistory.has_attachment := has_file |}.

(** The session after [add_message] appended [m]. *)
Definition grown (h : ChatHistory.t) (m : ChatHistory.Message) : ChatHistory.t :=
  {| ChatHistory.messages := ChatHistory.messages h ++ [m];
     ChatHistory.session_id := ChatHistory.session_id h;
     ChatHistory.session_file := ChatHistory.session_file h;
     ChatHistory.metadata :=
       {| ChatHistory.created := ChatHistory.created (ChatHistory.metadata h);
          ChatHistory.model := ChatHistory.model (ChatHistory.metadata h);
          ChatHistory.message_count := length (ChatHistory.messages h ++ [m]) |} |}.

(** [metadata["message_count"]] agrees with [len(messages)]. *)
Definition counted (h : ChatHistory.t) : Prop :=
  ChatHistory.message_count (ChatHistory.metadata h) = length (ChatHistory.messages h).

(** Role, content and flag of a message. *)
Definition essence (m : ChatHistory.Message) : string * string * bool :=
  (ChatHistory.role m, ChatHistory.content m, ChatHistory.has_attachment m).

(** The world [_save] leaves behind. *)
Definition saved_world (E : Env) (self : ChatHistory.t) (w : World) : World :=
  snd (ChatHistory._save E self w).

(** Whatever [c] returns or raises, it leaves a state related by [R] to the
    one it started from. *)
Definition steady {S A} (R : S -> S -> Prop) (c : M S A) : Prop :=
  forall s, R s (snd (c s)).

(** [c] never raises. *)
Definition safe {S A} (c : M S A) : Prop :=
  forall s, exists a, fst (c s) = Ok a.

(** A message that is the user's, or carries no attachment flag. *)
Definition unflagged_unless_user (m : ChatHistory.Message) : Prop :=
  ChatHistory.role m = "user" \/ ChatHistory.has_attachment m = false.

(** [extends l l']: the session of [l'] is the one of [l] with further
    messages at its end, none of them flagged unless it is the user's, and
    the count still in step. *)
Record extends (l l' : Loop) : Prop := {
  ext_file : ChatHistory.session_file (history l') = ChatHistory.session_file (history l);
  ext_counted : counted (history l) -> counted (history l');
  ext_messages :
    exists extra,
      ChatHistory.messages (history l') = ChatHistory.messages (history l) ++ extra
      /\ Forall unflagged_unless_user extra
}.

(** The session [ChatHistory()] makes when the clock is first read at
    question [t], after [set_model(model0)]. *)
Definition first_session (E : Env) (model0 : string) (t : nat) : ChatHistory.t :=
  {| ChatHistory.messages := [];
     ChatHistory.session_id := strftime_id (clock E t);
     ChatHistory.session_file := ("chat_" ++ strftime_id (clock E t) ++ ".json")%string;
     ChatHistory.metadata :=
       {| ChatHistory.created := isoformat (clock E (S t));
          ChatHistory.model := Some model0;
          ChatHistory.message_count := 0 |} |}.

(** The recognized commands, and the lines that are none of them once
    trimmed and lower-cased (and are not blank). *)
Definition commands : list string :=
  [ "/quit"; "/clear"; "/help"; "/model"; "/history"; "/export"; "/file" ]%string.

Definition is_command (cmd : string) : bool := existsb (String.eqb cmd) commands.

Definition plain_message (line : string) : bool :=
  negb (Py.is_empty (Py.strip line)) && negb (is_command (Py.lower (Py.strip line))).

(** The [contents] list of a send. *)
Definition outbound (attachment : option FileHandle) (text : string) : list Part :=
  match attachment with Some f => [PFile f] | None => [] end ++ [PText text].

(** The state in which a round that read [line] goes on. *)
Definition after_prompt (l : Loop) (rest : list InputEvent) : Loop :=
  let attachment_indicator :=
    match attached_file l with
    | Some _ => (" [attached: " ++ default "None" (attached_file_name l) ++ "]")%string
    | None => ""%string
    end in
  with_world (with_stdin rest (emit (Prompt ("You" ++ attachment_indicator ++ ": ")%string) (world l))) l.

(** A session in mid-conversation, for running single rounds: the model
    chosen, no message yet, and the given attachment and keyboard input. *)
Definition midway (E : Env) (attachment : option FileHandle) (keys : list string) : Loop :=
  {| model := "gemini-2.5-pro";
     history := first_session E "gemini-2.5-pro" 0;
     attached_file := attachment;
     attached_file_name := attachment;
     world := fresh keys |}.

(** The path [select_file] checks, from the line typed at its prompt. *)
Definition typed_path (line : string) : string :=
  Py.strip_chars quote_chars (Py.strip line).

(** [path.exists()] answers no, or it answers yes and [path.is_file()] no. *)
Definition not_a_file (E : Env) (t : nat) (path : string) : Prop :=
  path_exists E t path = Ok false
  \/ (path_exists E t path = Ok true /\ path_is_file E (S t) path = Ok false).

(** How [select_file] ends on a typed path that names no regular file:
    [exists()] answers no, [is_file()] answers no, or resolving or checking
    the path raises. *)
Inductive Refusal :=
| NotFound
| NotAFile
| CheckRaises (msg : string).

(** The refusal of the typed path [file_path], asked about from question
    [t] of the file system on; [None] when the path names a regular file
    or the check is interrupted. *)
Definition refusal (E : Env) (t : nat) (file_path : string) : option Refusal :=
  match path_expanduser E file_path with
  | Raise (Exception msg) => Some (CheckRaises msg)
  | Raise KeyboardInterrupt => None
  | Ok path =>
      match path_exists E t path with
      | Raise (Exception msg) => Some (CheckRaises msg)
      | Raise KeyboardInterrupt => None
      | Ok false => Some NotFound
      | Ok true =>
          match path_is_file E (S t) path with
          | Raise (Exception msg) => Some (CheckRaises msg)
          | Raise KeyboardInterrupt => None
          | Ok false => Some NotAFile
          | Ok true => None
          end
      end
  end.

(** The name [ChatHistory()] gives the file of a session made at [d]. *)
Definition session_name (d : datetime) : string :=
  ("chat_" ++ strftime_id d ++ ".json")%string.

(** The moment [d] to the second, as one number that grows with time. *)
Definition seconds_key (d : datetime) : nat :=
  ((((year d * 100 + month d) * 100 + day d) * 100 + hour d) * 100 + minute d) * 100
  + second d.

(** A date whose year has four digits (where every platform's [%Y] agrees)
    and whose other fields have at most two. *)
Definition plausible (d : datetime) : Prop :=
  1000 <= year d < 100 * 100 /\ month d < 100 /\ day d < 100
  /\ hour d < 100 /\ minute d < 100 /\ second d < 100.

(** Lexicographic combination of two comparisons. *)
Definition lex (c rest : comparison) : comparison :=
  match c with Eq => rest | _ => c end.

Definition comparison_eqb (a b : comparison) : bool :=
  match a, b with
  | Eq, Eq | Lt, Lt | Gt, Gt => true
  | _, _ => false
  end.

(** A file of this program: it parses, to the record of some session. *)
Definition session_record (dir : gmap string FileData) (path : string) (h : ChatHistory.t) : Prop :=
  dir !! path = Some (Json (ChatHistory.record_json h)).

(** A damaged file: missing, unreadable, or one that [json.load] rejects. *)
Definition damaged (dir : gmap string FileData) (path : string) : Prop :=
  forall data, dir !! path <> Some (Json data).

(** What the listing prints for entry [i]: the error of [load_session] for
    a damaged file, the summary line for a session's record. *)
Definition listing_line (dir : gmap string FileData) (entry : nat * string) (line : Output) : Prop :=
  (damaged dir entry.2 /\ exists msg, line = Print ("Error loading session: " ++ msg)%string)
  \/ (exists h, session_record dir entry.2 h
        /\ line = Summary entry.1
                    (Py.replace "T" " " (Py.take 16 (ChatHistory.created (ChatHistory.metadata h))))
                    (match ChatHistory.model (ChatHistory.metadata h) with
                     | Some m => JStr m
                     | None => JNull
                     end)
                    (JInt (Z.of_nat (ChatHistory.message_count (ChatHistory.metadata h))))).

(** Every listed file is damaged or a session's record. *)
Definition listable (dir : gmap string FileData) (path : string) : Prop :=
  damaged dir path \/ exists h, session_record dir path h.

(** The world [w] after [lines] were printed. *)
Definition printed (lines : list Output) (w : World) : World :=
  {| history_dir := history_dir w; history_dir_exists := history_dir_exists w;
     exports := exports w; stdin := stdin w; stdout := stdout w ++ lines; sent := sent w;
     tick := tick w |}.

(** Every file of the directory that parses holds the record of a session. *)
Definition only_sessions_parse (dir : gmap string FileData) : Prop :=
  map_Forall
    (fun _ f => forall data, f = Json data -> exists h, data = ChatHistory.record_json h)
    dir.

(** What [view_history] prints before and after the listing. *)
Definition listing_head (n : nat) : list Output :=
  [ Print "[ CHAT HISTORY ]"; Print "----------------------------------------";
    Print ("Found " ++ pretty n ++ " conversation(s):")%string ].

Definition listing_menu : list Output :=
  [ Print "  0. Back to chat"; Print "  d. Delete a session";
    Print "  c. Clear all history"; Prompt "Select option: " ].

(** A history directory with a session's record, a file that does not
    parse and one that cannot be read; the user goes straight back. *)
Definition shelf : World :=
  {| history_dir :=
       <["chat_20250309_143000.json"%string :=
           Json (ChatHistory.record_json (first_session calm "gemini-2.5-pro" 0))]>
       (<["chat_20250101_090000.json"%string := Garbage "{"]>
       (<["chat_20241224_180000.json"%string := Unreadable]> ∅));
     history_dir_exists := true; exports := ∅;
     stdin := [Line "0"]; stdout := []; sent := []; tick := 0 |}.

(** ** Vocabulary of the further properties *)

(** The model a typed line selects: a number from 1 to the number of
    models picks that model, anything else the first one. *)
Definition chosen_model (line : string) : string :=
  match Py.int (Py.strip line) with
  | Some n =>
      if ((1 <=? n) && (n <=? Z.of_nat (length MODELS)))%Z
      then nth (Z.to_nat (n - 1)) MODELS "gemini-3-pro-preview"%string
      else "gemini-3-pro-preview"%string
  | None => "gemini-3-pro-preview"%string
  end.

(** The session with its model set to [m]. *)
Definition remodelled (h : ChatHistory.t) (m : string) : ChatHistory.t :=
  {| ChatHistory.messages := ChatHistory.messages h;
     ChatHistory.session_id := ChatHistory.session_id h;
     ChatHistory.session_file := ChatHistory.session_file h;
     ChatHistory.metadata :=
       {| ChatHistory.created := ChatHistory.created (ChatHistory.metadata h);
          ChatHistory.model := Some m;
          ChatHistory.message_count := ChatHistory.message_count (ChatHistory.metadata h) |} |}.

(** The path typed at the prompt of [select_file] names a regular file of
    a known type. *)
Definition known_file (E : Env) (t : nat) (line path : string) : Prop :=
  Py.is_empty (typed_path line) = false
  /\ path_expanduser E (typed_path line) = Ok path
  /\ path_exists E t path = Ok true
  /\ path_is_file E (S t) path = Ok true
  /\ get_mime_type path <> "application/octet-stream"%string.

(** The history directory is there. *)
Definition dir_ready (l : Loop) : Prop := history_dir_exists (world l) = true.

(** The session's file holds the record of the session as it is in memory. *)
Definition in_step (l : Loop) : Prop :=
  history_dir (world l) !! ChatHistory.session_file (history l)
  = Some (Json (ChatHistory.record_json (history l))).

(** A step that does not put disk and memory out of step, and one that
    puts them in step. *)
Definition keeps_step (l l' : Loop) : Prop :=
  dir_ready l -> dir_ready l' /\ (in_step l -> in_step l').

Definition gets_in_step (l l' : Loop) : Prop :=
  dir_ready l -> dir_ready l' /\ in_step l'.

(** The heading line of a message in the export. *)
Definition export_heading (msg : ChatHistory.Message) : string :=
  ("[" ++ Py.replace "T" " " (Py.take 19 (ChatHistory.timestamp msg)) ++ "] "
   ++ Py.upper (ChatHistory.role msg) ++ ":")%string.

(** The number of line feeds of a text: its lines, when the last one is ended. *)
Fixpoint newlines (s : string) : nat :=
  match s with
  | EmptyString => 0
  | String c s' => (if Ascii.eqb c (ascii_of_nat 10) then 1 else 0) + newlines s'
  end.

(** What [view_history] does once the listing is shown and the line
    [line] was read at its menu. *)
Definition after_choice (E : Env) (sessions : list string) (line : string) : M World unit :=
  (let choice := Py.lower (Py.strip line) in
   if (choice =? "0") || (choice =? "") then ret tt
   else if choice =? "d" then
     line <- input "Enter session number to delete: " ;;
     let delete_idx := Py.strip line in
     match Py.int delete_idx with
     | None => print "Invalid selection"
     | Some n =>
         match item_at sessions (n - 1) with
         | None => ret tt
         | Some target =>
             line <- input ("Delete session " ++ delete_idx ++ "? [y/N]: ") ;;
             let confirm := Py.lower (Py.strip line) in
             if confirm =? "y" then
               ok <- ChatHistory.delete_session E target ;;
               if ok : bool then print "[OK] Session deleted"
               else print "[ERROR] Failed to delete"
             else ret tt
         end
     end
   else if choice =? "c" then
     line <- input "Delete ALL chat history? [y/N]: " ;;
     let confirm := Py.lower (Py.strip line) in
     if confirm =? "y" then
       for_each (fun session => ChatHistory.delete_session E session ;; ret tt) sessions ;;
       print "[OK] All history cleared"
     else ret tt
   else
     match Py.int choice with
     | None => print "Invalid selection"
     | Some n =>
         match item_at sessions (n - 1) with
         | None => ret tt
         | Some target => display_session target
         end
     end)%py%string.

(** Two worlds with the same disk, oracle count and requests. *)
Definition same_disk (w w' : World) : Prop :=
  history_dir w' = history_dir w
  /\ history_dir_exists w' = history_dir_exists w
  /\ tick w' = tick w
  /\ sent w' = sent w.

(** The environment gives no key: the variable is unset or empty. *)
Definition no_env_key (h : Host) : Prop :=
  environ_key h = None \/ environ_key h = Some ""%string.

(** The fields of the configuration [load_config] returns, when that is a
    dictionary: a missing, unreadable or ill-formed file counts as empty. *)
Definition config_fields (h : Host) : option (list (string * json)) :=
  match config_file h with
  | Some (Json (JObj fields)) => Some fields
  | Some (Json _) => None
  | Some (Garbage _) | Some Unreadable | None => Some []
  end.

(** The configuration holds no usable key. *)
Definition no_saved_key (fields : list (string * json)) : Prop :=
  truthy (default JNull (assoc "api_key" fields)) = false.

(** A host with the given environment key and configuration file, and the
    given keyboard input. *)
Definition host (key : option string) (config : option FileData) (keys : list string) : Host :=
  {| terminal := fresh keys; environ_key := key; config_file := config |}.

(** * Properties *)

(** ** The store *)

Section StoreFacts.

Variable E : Env.

Lemma write_json_ok path data w :
  write_ok E w path = true ->
  write_json E path data w = (Ok tt, bump (with_history_dir (insert path (Json data)) w)).
Proof.
  unfold write_ok, write_json. intros H.
  apply andb_true_iff in H as [Hd Hw]. rewrite Hd. simpl.
  destruct (disk_write E (tick w) path); try discriminate. reflexivity.
Qed.

(** [_save] never raises, leaves the keyboard and the requests alone, and
    stores the session's record when its write goes through. *)
Lemma save_spec self w :
  exists w',
    ChatHistory._save E self w = (Ok tt, w')
    /\ stdin w' = stdin w /\ sent w' = sent w
    /\ (write_ok E w (ChatHistory.session_file self) = true ->
        history_dir w' =
          <[ChatHistory.session_file self := Json (ChatHistory.record_json self)]> (history_dir w)).
Proof.
  unfold ChatHistory._save, except_Exception, try_except, write_json, write_ok, print.
  destruct (history_dir_exists w); simpl.
  - destruct (disk_write E (tick w) (ChatHistory.session_file self)); simpl;
      eexists; (split; [reflexivity|]); repeat split; auto; discriminate.
  - eexists; (split; [reflexivity|]); repeat split; auto; discriminate.
Qed.

Lemma add_message_spec h role content has_file w :
  let h' := grown h (new_message (clock E (tick w)) role content has_file) in
  exists w',
    ChatHistory.add_message E h role content has_file w = (Ok h', w')
    /\ stdin w' = stdin w /\ sent w' = sent w
    /\ (write_ok E (bump w) (ChatHistory.session_file h) = true ->
        history_dir w' =
          <[ChatHistory.session_file h := Json (ChatHistory.record_json h')]> (history_dir w)).
Proof.
  intros h'. unfold ChatHistory.add_message, bind, now, ret.
  fold (new_message (clock E (tick w)) role content has_file). fold (grown h (new_message (clock E (tick w)) role content has_file)).
  fold h'.
  destruct (save_spec h' (bump w)) as (w' & Hs & Hin & Hsent & Hfile).
  rewrite Hs. exists w'. repeat split; auto.
Qed.

Lemma set_model_spec h m w :
  let h' := {| ChatHistory.messages := ChatHistory.messages h;
               ChatHistory.session_id := ChatHistory.session_id h;
               ChatHistory.session_file := ChatHistory.session_file h;
               ChatHistory.metadata :=
                 {| ChatHistory.created := ChatHistory.created (ChatHistory.metadata h);
                    ChatHistory.model := Some m;
                    ChatHistory.message_count :=
                      ChatHistory.message_count (ChatHistory.metadata h) |} |} in
  exists w',
    ChatHistory.set_model E h m w = (Ok h', w')
    /\ stdin w' = stdin w /\ sent w' = sent w
    /\ (write_ok E w (ChatHistory.session_file h) = true ->
        history_dir w' =
          <[ChatHistory.session_file h := Json (ChatHistory.record_json h')]> (history_dir w)).
Proof.
  intros h'. unfold ChatHistory.set_model, bind, ret. fold h'.
  destruct (save_spec h' w) as (w' & Hs & Hin & Hsent & Hfile).
  rewrite Hs. exists w'. repeat split; auto.
Qed.

(** What one operation does: it always returns, keeps the count in step,
    appends what it should, and leaves the session's record on disk when its
    write goes through. *)
Lemma apply_op_spec op h w :
  exists h' w',
    apply_op E op h w = (Ok h', w')
    /\ ChatHistory.session_file h' = ChatHistory.session_file h
    /\ (counted h -> counted h')
    /\ map essence (ChatHistory.messages h') =
         map essence (ChatHistory.messages h) ++ appended [op]
    /\ (write_ok E (world_at_save op w) (ChatHistory.session_file h) = true ->
        history_dir w' !! ChatHistory.session_file h' = Some (Json (ChatHistory.record_json h'))).
Proof.
  destruct op as [role content has_file | m]; simpl.
  - destruct (add_message_spec h role content has_file w) as (w' & Hrun & _ & _ & Hfile).
    eexists _, w'. split; [exact Hrun|]. split; [reflexivity|].
    split; [intros _; reflexivity|]. split.
    + simpl. rewrite map_app. reflexivity.
    + intros Hok. rewrite (Hfile Hok). simpl. apply lookup_insert_eq.
  - destruct (set_model_spec h m w) as (w' & Hrun & _ & _ & Hfile).
    eexists _, w'. split; [exact Hrun|]. split; [reflexivity|].
    split; [intros Hc; exact Hc|]. split.
    + simpl. rewrite app_nil_r. reflexivity.
    + intros Hok. rewrite (Hfile Hok). simpl. apply lookup_insert_eq.
Qed.

Lemma apply_ops_spec ops : forall h w,
  exists h' w',
    apply_ops E ops h w = (Ok h', w')
    /\ ChatHistory.session_file h' = ChatHistory.session_file h
    /\ (counted h -> counted h')
    /\ map essence (ChatHistory.messages h') =
         map essence (ChatHistory.messages h) ++ appended ops.
Proof.
  induction ops as [|op ops IH]; intros h w.
  - exists h, w. simpl. rewrite app_nil_r. auto.
  - destruct (apply_op_spec op h w) as (h1 & w1 & Hop & Hf1 & Hc1 & Hm1 & _).
    destruct (IH h1 w1) as (h2 & w2 & Hops & Hf2 & Hc2 & Hm2).
    exists h2, w2. simpl. unfold bind. rewrite Hop. split; [exact Hops|].
    split; [congruence|]. split; [auto|].
    rewrite Hm2, Hm1. rewrite <- app_assoc. f_equal.
    destruct op; reflexivity.
Qed.

(** A session always comes into being, with its count in step and exactly
    the appended messages, in order. *)
Lemma session_spec ops w :
  exists h w',
    session E ops w = (Ok h, w')
    /\ counted h
    /\ map essence (ChatHistory.messages h) = appended ops.
Proof.
  unfold session, bind, ChatHistory.__init__, bind, now, ret.
  match goal with |- context [apply_ops E ops ?h0 ?w0] =>
    destruct (apply_ops_spec ops h0 w0) as (h & w' & Hrun & _ & Hc & Hm) end.
  exists h, w'. split; [exact Hrun|]. split; [apply Hc; reflexivity|exact Hm].
Qed.

End StoreFacts.

Lemma appended_app ops1 ops2 :
  appended (ops1 ++ ops2) = appended ops1 ++ appended ops2.
Proof.
  induction ops1 as [|[r c b|m] ops1 IH]; simpl; [reflexivity| |exact IH].
  f_equal. exact IH.
Qed.

Lemma load_session_stored path data w :
  history_dir w !! path = Some (Json data) ->
  ChatHistory.load_session path w = (Ok data, w).
Proof.
  intros H. unfold ChatHistory.load_session, except_Exception, try_except, read_json.
  rewrite H. reflexivity.
Qed.

Lemma stored_message_json m :
  stored_message (ChatHistory.message_json m) = Some (essence m).
Proof. reflexivity. Qed.

Lemma stored_record h :
  stored_messages (ChatHistory.record_json h)
    = Some (map ChatHistory.message_json (ChatHistory.messages h))
  /\ stored_count (ChatHistory.record_json h)
    = Some (Z.of_nat (ChatHistory.message_count (ChatHistory.metadata h))).
Proof. split; reflexivity. Qed.

(** C3. After any sequence of store operations on a new session, when the
    write of one more operation goes through, the record on disk carries a
    [message_count] equal to the length of its [messages] list, which is the
    length of the list in memory. *)
Theorem persisted_count_is_length
    (E : Env) (ops : list Op) (op : Op) (w w1 w2 : World) (h h' : ChatHistory.t) :
  session E ops w = (Ok h, w1) ->
  apply_op E op h w1 = (Ok h', w2) ->
  write_ok E (world_at_save op w1) (ChatHistory.session_file h) = true ->
  exists data msgs,
    history_dir w2 !! ChatHistory.session_file h' = Some (Json data)
    /\ stored_messages data = Some msgs
    /\ stored_count data = Some (Z.of_nat (length msgs))
    /\ length msgs = length (ChatHistory.messages h').
Proof.
  intros Hs Hop Hok.
  destruct (session_spec E ops w) as (h0 & w0 & Hs' & Hc & _).
  rewrite Hs in Hs'. injection Hs' as <- <-.
  destruct (apply_op_spec E op h w1) as (h1 & w3 & Hop' & _ & Hc' & _ & Hfile).
  rewrite Hop in Hop'. injection Hop' as <- <-.
  exists (ChatHistory.record_json h'), (map ChatHistory.message_json (ChatHistory.messages h')).
  destruct (stored_record h') as [Hm Hn].
  split; [exact (Hfile Hok)|]. split; [exact Hm|]. split.
  - rewrite Hn, length_map. f_equal. f_equal. exact (Hc' Hc).
  - apply length_map.
Qed.

Lemma persisted_count_is_length_witness :
  exists data msgs,
    stored_messages data = Some msgs
    /\ stored_count data = Some 2%Z
    /\ length msgs = 2.
Proof.
  destruct (persisted_count_is_length calm
              [SetModel "gemini-2.5-pro"; Append "user" "hello" false]
              (Append "assistant" "hi" false) (fresh [])
              _ _ _ _ eq_refl eq_refl eq_refl)
    as (data & msgs & _ & Hm & Hn & Hl).
  exists data, msgs. simpl in Hl. rewrite Hl in Hn. auto.
Defined.

(** C4. After any sequence of store operations on a new session, when the
    write of the last one goes through, loading the session's file returns
    a record whose messages are exactly the appended ones, in the order of
    appending, with the same role, content and attachment flag. *)
Theorem load_reproduces_appended
    (E : Env) (ops : list Op) (op : Op) (w w1 w2 : World) (h h' : ChatHistory.t) :
  session E ops w = (Ok h, w1) ->
  apply_op E op h w1 = (Ok h', w2) ->
  write_ok E (world_at_save op w1) (ChatHistory.session_file h) = true ->
  exists data msgs,
    ChatHistory.load_session (ChatHistory.session_file h') w2 = (Ok data, w2)
    /\ stored_messages data = Some msgs
    /\ map stored_message msgs = map Some (appended (ops ++ [op])).
Proof.
  intros Hs Hop Hok.
  destruct (session_spec E ops w) as (h0 & w0 & Hs' & _ & Hm).
  rewrite Hs in Hs'. injection Hs' as <- <-.
  destruct (apply_op_spec E op h w1) as (h1 & w3 & Hop' & _ & _ & Hm' & Hfile).
  rewrite Hop in Hop'. injection Hop' as <- <-.
  exists (ChatHistory.record_json h'), (map ChatHistory.message_json (ChatHistory.messages h')).
  split; [apply load_session_stored, Hfile, Hok|]. split; [reflexivity|].
  rewrite map_map.
  rewrite (map_ext _ (fun m => Some (essence m)) stored_message_json).
  rewrite <- (map_map essence Some). f_equal.
  rewrite Hm', Hm. symmetry. apply appended_app.
Qed.

Lemma load_reproduces_appended_witness :
  exists data msgs w2,
    ChatHistory.load_session "chat_20250309_143000.json" w2 = (Ok data, w2)
    /\ stored_messages data = Some msgs
    /\ map stored_message msgs =
         [Some ("user", "hello", true); Some ("assistant", "hi", false)].
Proof.
  destruct (load_reproduces_appended calm
              [SetModel "gemini-2.5-pro"; Append "user" "hello" true]
              (Append "assistant" "hi" false) (fresh [])
              _ _ _ _ eq_refl eq_refl eq_refl)
    as (data & msgs & Hl & Hm & Hr).
  exists data, msgs. eexists. split; [exact Hl|]. split; [exact Hm|exact Hr].
Defined.

(** ** One round of the chat loop *)

Section RoundFacts.

Variable E : Env.

Lemma save_run self w :
  ChatHistory._save E self w = (Ok tt, saved_world E self w).
Proof.
  unfold saved_world. destruct (save_spec E self w) as (w' & -> & _). reflexivity.
Qed.

Lemma add_message_run h role content has_file w :
  let h' := grown h (new_message (clock E (tick w)) role content has_file) in
  ChatHistory.add_message E h role content has_file w = (Ok h', saved_world E h' (bump w)).
Proof.
  intros h'. unfold ChatHistory.add_message, bind, now, ret.
  fold (new_message (clock E (tick w)) role content has_file).
  fold (grown h (new_message (clock E (tick w)) role content has_file)). fold h'.
  rewrite save_run. reflexivity.
Qed.

Lemma history_add_message_run role content has_file l :
  let h' := grown (history l) (new_message (clock E (tick (world l))) role content has_file) in
  history_add_message E role content has_file l
  = (Ok tt, with_history h' (with_world (saved_world E h' (bump (world l))) l)).
Proof.
  intros h'. unfold history_add_message, bind, get, io, modify.
  rewrite add_message_run. reflexivity.
Qed.

Lemma saved_world_tick self w : tick (saved_world E self w) = S (tick w).
Proof.
  unfold saved_world, ChatHistory._save, except_Exception, try_except, write_json, print.
  destruct (history_dir_exists w); simpl; [|reflexivity].
  destruct (disk_write E (tick w) (ChatHistory.session_file self)); reflexivity.
Qed.

Lemma saved_world_sent self w : sent (saved_world E self w) = sent w.
Proof.
  unfold saved_world. destruct (save_spec E self w) as (w' & -> & _ & Hs & _). exact Hs.
Qed.

Lemma saved_world_stdin self w : stdin (saved_world E self w) = stdin w.
Proof.
  unfold saved_world. destruct (save_spec E self w) as (w' & -> & Hs & _). exact Hs.
Qed.

End RoundFacts.

(** *** Computations that respect a relation between the states *)

Section Steady.

Context {S : Type} (R : S -> S -> Prop) `{!Reflexive R, !Transitive R}.

Lemma steady_ret {A} (a : A) : steady R (ret a).
Proof. intros s. simpl. reflexivity. Qed.

Lemma steady_raise {A} e : steady R (@raise S A e).
Proof. intros s. simpl. reflexivity. Qed.

Lemma steady_get : steady R (@get S).
Proof. intros s. simpl. reflexivity. Qed.

Lemma steady_bind {A B} (c : M S A) (k : A -> M S B) :
  steady R c -> (forall a, steady R (k a)) -> steady R (bind c k).
Proof.
  intros Hc Hk s. unfold bind. specialize (Hc s).
  destruct (c s) as [[a|e] s']; simpl in *; [|exact Hc].
  transitivity s'; [exact Hc|apply Hk].
Qed.

Lemma steady_try_except {A} (body : M S A) handler :
  steady R body -> (forall e, steady R (handler e)) -> steady R (try_except body handler).
Proof.
  intros Hb Hh s. unfold try_except. specialize (Hb s).
  destruct (body s) as [[a|e] s']; simpl in *; [exact Hb|].
  transitivity s'; [exact Hb|apply Hh].
Qed.

Lemma steady_modify (f : S -> S) : (forall s, R s (f s)) -> steady R (modify f).
Proof. intros H s. apply H. Qed.

Lemma steady_if {A} (b : bool) (c1 c2 : M S A) :
  steady R c1 -> steady R c2 -> steady R (if b then c1 else c2).
Proof. destruct b; auto. Qed.

End Steady.

Lemma safe_ret {S A} (a : A) : safe (@ret S A a).
Proof. intros s. exists a. reflexivity. Qed.

Lemma safe_bind {S A B} (c : M S A) (k : A -> M S B) :
  safe c -> (forall a, safe (k a)) -> safe (bind c k).
Proof.
  intros Hc Hk s. unfold bind. destruct (Hc s) as [a Ha].
  destruct (c s) as [r s']. simpl in Ha. subst r. apply Hk.
Qed.

Lemma safe_try_except {S A} (body : M S A) handler :
  (forall e, safe (handler e)) -> safe (try_except body handler).
Proof.
  intros Hh s. unfold try_except.
  destruct (body s) as [[a|e] s']; [exists a; reflexivity|apply Hh].
Qed.

Lemma safe_modify {S} (f : S -> S) : safe (modify f).
Proof. intros s. exists tt. reflexivity. Qed.

Lemma safe_print s : safe (print s).
Proof. intros w. exists tt. reflexivity. Qed.

Lemma safe_io {A} (c : M World A) : safe c -> safe (io c).
Proof.
  intros Hc l. unfold io. destruct (Hc (world l)) as [a Ha].
  destruct (c (world l)) as [r w]. exists a. exact Ha.
Qed.

(** Whatever runs in the world alone leaves the loop's variables alone. *)
Lemma steady_io (R : Loop -> Loop -> Prop) {A} (c : M World A) :
  (forall l w, R l (with_world w l)) -> steady R (io c).
Proof.
  intros H l. unfold io. destruct (c (world l)) as [r w]. apply H.
Qed.

(** *** What every round preserves *)

#[local] Instance extends_refl : Reflexive extends.
Proof.
  intros l. split; auto. exists []. rewrite app_nil_r. auto.
Qed.

#[local] Instance extends_trans : Transitive extends.
Proof.
  intros l1 l2 l3 [F1 C1 (e1 & M1 & U1)] [F2 C2 (e2 & M2 & U2)].
  split; [congruence|auto|].
  exists (e1 ++ e2). rewrite M2, M1, app_assoc. split; [reflexivity|].
  apply Forall_app. auto.
Qed.

Lemma extends_same_history l l' : history l' = history l -> extends l l'.
Proof.
  intros H. split; rewrite H; auto. exists []. rewrite app_nil_r. auto.
Qed.

Section RoundInvariant.

Variable E : Env.

Lemma steady_world {A} (c : M World A) : steady extends (io c).
Proof. apply steady_io. intros l w. apply extends_same_history. reflexivity. Qed.

Lemma steady_add_message role content has_file :
  role = "user" \/ has_file = false ->
  steady extends (history_add_message E role content has_file).
Proof.
  intros H l. rewrite history_add_message_run. simpl. split; simpl.
  - reflexivity.
  - intros _. reflexivity.
  - eexists. split; [reflexivity|]. constructor; [exact H|constructor].
Qed.

Lemma steady_set_model m : steady extends (history_set_model E m).
Proof.
  intros l. unfold history_set_model, bind, get, io, modify, ChatHistory.set_model, bind.
  rewrite save_run. simpl. split; simpl; auto.
  exists []. rewrite app_nil_r. auto.
Qed.

Lemma safe_add_message role content has_file :
  safe (history_add_message E role content has_file).
Proof. intros l. rewrite history_add_message_run. exists tt. reflexivity. Qed.

Ltac keep_history :=
  apply (steady_modify extends); intros ?; apply extends_same_history; reflexivity.

Ltac step :=
  first [ apply (steady_ret extends)
        | apply steady_world
        | apply steady_set_model
        | keep_history
        | apply (steady_bind extends); [|intros ?] ].

Lemma steady_round_body : steady extends (round_body E).
Proof.
  unfold round_body.
  apply (steady_bind extends); [apply (steady_get extends)|intros l].
  apply (steady_bind extends); [apply steady_world|intros line].
  repeat (apply (steady_if extends); [repeat step|]).
  - destruct a as [[file_path mime_type]|]; repeat step.
  - apply (steady_bind extends); [apply steady_add_message; left; reflexivity|intros _].
    do 3 (apply (steady_bind extends); [apply steady_world|intros ?]).
    apply (steady_bind extends); [apply steady_add_message; right; reflexivity|intros _].
    destruct (attached_file l); repeat step.
Qed.

Lemma steady_round : steady extends (round E).
Proof.
  unfold round. apply (steady_try_except extends); [apply steady_round_body|].
  intros [|msg]; [repeat step|].
  apply (steady_bind extends); [apply steady_world|intros _].
  apply (steady_bind extends); [apply steady_add_message; right; reflexivity|intros _].
  apply (steady_ret extends).
Qed.

(** A round never raises: both handlers return. *)
Lemma safe_round : safe (round E).
Proof.
  unfold round. apply safe_try_except. intros [|msg].
  - apply safe_bind; [apply safe_io, safe_print|intros _; apply safe_ret].
  - apply safe_bind; [apply safe_io, safe_print|intros _].
    apply safe_bind; [apply safe_add_message|intros _; apply safe_ret].
Qed.

Lemma rounds_spec n : forall l,
  exists e l', rounds E n l = (Ok e, l') /\ extends l l'.
Proof.
  induction n as [|n IH]; intros l.
  - exists StillRunning, l. split; reflexivity.
  - simpl. unfold bind. pose proof (steady_round l) as Hs.
    destruct (safe_round l) as [c Hc].
    destruct (round E l) as [r l1]. simpl in Hc, Hs. subst r.
    destruct c.
    + destruct (IH l1) as (e & l2 & Hr & Hx). exists e, l2. split; [exact Hr|].
      transitivity l1; assumption.
    + exists Quit, l1. split; [reflexivity|exact Hs].
Qed.

End RoundInvariant.

(** ** Start of the chat loop *)

Lemma chat_setup_spec (E : Env) (model0 : string) (w : World) :
  exists l0,
    chat_setup E model0 w = (Ok l0, world l0)
    /\ model l0 = model0
    /\ history l0 = first_session E model0 (tick w)
    /\ attached_file l0 = None /\ attached_file_name l0 = None
    /\ stdin (world l0) = stdin w /\ sent (world l0) = sent w
    /\ (history_dir_exists w = true ->
        disk_write E (2 + tick w) (ChatHistory.session_file (history l0)) = Written ->
        history_dir (world l0) !! ChatHistory.session_file (history l0)
          = Some (Json (ChatHistory.record_json (history l0)))).
Proof.
  unfold chat_setup, bind, clear_screen, print, ChatHistory.__init__, bind, now, ret,
    ChatHistory.set_model, bind, ret. simpl.
  match goal with |- context [ChatHistory._save E ?h ?w0] =>
    destruct (save_spec E h w0) as (w' & Hrun & Hin & Hsent & Hfile); rewrite Hrun end.
  eexists (Build_Loop _ _ _ _ _). split; [reflexivity|]. simpl in *.
  repeat (split; [first [reflexivity | assumption]|]).
  intros Hd Hw. rewrite Hfile; [apply lookup_insert_eq|].
  unfold write_ok. simpl. rewrite Hd. simpl in Hw |- *. rewrite Hw. reflexivity.
Qed.

(** C6. Before the first prompt, [chat_loop] has made a session with an
    identifier read off the clock and an empty message list, and (when the
    disk takes the write) its record is already on disk: no line has been
    read and nothing sent to the model by then. *)
Theorem session_created_and_persisted_at_once (E : Env) (model0 : string) (w : World) :
  history_dir_exists w = true ->
  disk_write E (2 + tick w) ("chat_" ++ strftime_id (clock E (tick w)) ++ ".json")%string = Written ->
  exists l0 data meta,
    chat_setup E model0 w = (Ok l0, world l0)
    /\ ChatHistory.session_id (history l0) = strftime_id (clock E (tick w))
    /\ ChatHistory.messages (history l0) = []
    /\ stdin (world l0) = stdin w /\ sent (world l0) = sent w
    /\ history_dir (world l0) !! ChatHistory.session_file (history l0) = Some (Json data)
    /\ stored_messages data = Some []
    /\ stored_count data = Some 0%Z
    /\ field "metadata" data = Some meta
    /\ field "model" meta = Some (JStr model0).
Proof.
  intros Hd Hw.
  destruct (chat_setup_spec E model0 w)
    as (l0 & Hrun & _ & Hh & _ & _ & Hin & Hsent & Hfile).
  exists l0, (ChatHistory.record_json (history l0)),
    (ChatHistory.metadata_json (ChatHistory.metadata (history l0))).
  split; [exact Hrun|]. rewrite Hh in *.
  repeat (split; [first [reflexivity | assumption]|]).
  split; [apply Hfile; assumption|].
  repeat split.
Qed.

Lemma session_created_and_persisted_at_once_witness :
  exists l0 data,
    chat_setup calm "gemini-2.5-pro" (fresh ["hello"]) = (Ok l0, world l0)
    /\ ChatHistory.session_id (history l0) = "20250309_143000"%string
    /\ stdin (world l0) = [Line "hello"]
    /\ history_dir (world l0) !! "chat_20250309_143000.json"%string = Some (Json data)
    /\ stored_count data = Some 0%Z.
Proof.
  destruct (session_created_and_persisted_at_once calm "gemini-2.5-pro" (fresh ["hello"])
              eq_refl eq_refl)
    as (l0 & data & meta & Hrun & Hid & Hm & Hin & Hs & Hf & Hsm & Hc & _).
  exists l0, data. split; [exact Hrun|]. split; [exact Hid|]. split; [exact Hin|].
  split; [|exact Hc].
  replace "chat_20250309_143000.json"%string with (ChatHistory.session_file (history l0));
    [exact Hf|].
  revert Hrun. vm_compute. intros [= <-]. reflexivity.
Defined.

(** ** Attachment flags in the transcript *)

(** C10. However long the chat loop runs and whatever the outside world
    does, every message of the transcript whose role is assistant or system
    has its attachment flag unset. *)
Theorem only_user_messages_flagged (E : Env) (model0 : string) (n : nat) (w : World) :
  exists e l w',
    chat_loop E model0 n w = (Ok (e, l), w')
    /\ Forall (fun m => ChatHistory.role m = "assistant"%string
                        \/ ChatHistory.role m = "system"%string ->
                        ChatHistory.has_attachment m = false)
              (ChatHistory.messages (history l)).
Proof.
  destruct (chat_setup_spec E model0 w) as (l0 & Hrun & _ & Hh & _).
  destruct (rounds_spec E n l0) as (e & l & Hr & [_ _ (extra & Hm & Hu)]).
  exists e, l, (world l). unfold chat_loop, bind. rewrite Hrun, Hr.
  split; [reflexivity|].
  rewrite Hm, Hh. simpl.
  eapply Forall_impl; [exact Hu|].
  intros m [Hu1|Hu1] Hrole; [|exact Hu1].
  rewrite Hu1 in Hrole. destruct Hrole; discriminate.
Qed.

(** ** Sending a plain message *)

Lemma plain_message_inv line :
  plain_message line = true ->
  Py.is_empty (Py.strip line) = false
  /\ Forall (fun c => (Py.lower (Py.strip line) =? c)%string = false) commands.
Proof.
  unfold plain_message, is_command. intros H.
  apply andb_true_iff in H as [H1 H2].
  apply negb_true_iff in H1, H2. split; [exact H1|].
  apply Forall_forall. intros c Hc.
  destruct (Py.lower (Py.strip line) =? c)%string eqn:Heq; [|reflexivity].
  rewrite <- H2. symmetry. apply existsb_exists. exists c.
  rewrite <- list_elem_of_In. auto.
Qed.

Lemma bind_ok {S A B} (c : M S A) (k : A -> M S B) s a s' :
  c s = (Ok a, s') -> bind c k s = k a s'.
Proof. intros H. unfold bind. rewrite H. reflexivity. Qed.

Lemma bind_raise {S A B} (c : M S A) (k : A -> M S B) s e s' :
  c s = (Raise e, s') -> bind c k s = (Raise e, s').
Proof. intros H. unfold bind. rewrite H. reflexivity. Qed.

Lemma io_run {A} (c : M World A) l r w :
  c (world l) = (r, w) -> io c l = (r, with_world w l).
Proof. intros H. unfold io. rewrite H. reflexivity. Qed.

Lemma input_line prompt w line rest :
  stdin w = Line line :: rest ->
  input prompt w = (Ok line, with_stdin rest (emit (Prompt prompt) w)).
Proof. intros H. unfold input. simpl. rewrite H. reflexivity. Qed.

Lemma round_body_plain (E : Env) (l : Loop) (line : string) (rest : list InputEvent) :
  stdin (world l) = Line line :: rest ->
  plain_message line = true ->
  round_body E l =
    (let contents := outbound (attached_file l) (Py.strip line) in
     history_add_message E "user" (Py.strip line) (bool_of (attached_file l)) ;;
     io (print "OTP: ") ;;
     response_text <- io (generate_content E (model l) contents) ;;
     io (print response_text) ;;
     history_add_message E "assistant" response_text false ;;
     match attached_file l with
     | Some _ =>
         modify (with_attachment None None) ;;
         io (print "[attachment cleared]") ;;
         ret Continue
     | None => ret Continue
     end)%py (after_prompt l rest).
Proof.
  intros Hin Hplain.
  apply plain_message_inv in Hplain as [Hne Hcmds].
  repeat (apply Forall_cons_1 in Hcmds as [? Hcmds]).
  unfold round_body.
  rewrite (bind_ok get _ l l l eq_refl).
  erewrite bind_ok; [|apply io_run, input_line, Hin].
  rewrite Hne.
  repeat match goal with H : (_ =? _)%string = false |- _ => rewrite H; clear H end.
  reflexivity.
Qed.

Lemma generate_content_run (E : Env) m contents w :
  generate_content E m contents w
  = (models_generate_content E (tick w) m contents,
     bump (record_request {| req_model := m; req_contents := contents |} w)).
Proof. reflexivity. Qed.

(** The end of a successful send: the attachment, if any, is dropped. *)
Lemma clear_attachment_run (l0 : Loop) (a : option FileHandle) :
  exists l',
    match a with
    | Some _ =>
        (modify (with_attachment None None) ;;
         io (print "[attachment cleared]") ;;
         ret Continue)%py
    | None => ret Continue
    end l0 = (Ok Continue, l')
    /\ history l' = history l0
    /\ stdin (world l') = stdin (world l0)
    /\ sent (world l') = sent (world l0)
    /\ (attached_file l0 = a -> attached_file l' = None).
Proof.
  destruct a as [f|].
  - eexists (Build_Loop _ _ _ _ _). split; [reflexivity|]. cbn. auto.
  - exists l0. split; [reflexivity|]. auto.
Qed.

(** What a round does with a plain message, for each outcome of the call
    to the model: the clock is read for the user's message at question [t],
    the model is asked at question [2 + t]. *)
Lemma round_plain (E : Env) (l : Loop) (line : string) (rest : list InputEvent) :
  stdin (world l) = Line line :: rest ->
  plain_message line = true ->
  let t := tick (world l) in
  let contents := outbound (attached_file l) (Py.strip line) in
  let user := new_message (clock E t) "user" (Py.strip line) (bool_of (attached_file l)) in
  exists l',
    round E l = (Ok Continue, l')
    /\ stdin (world l') = rest
    /\ sent (world l') = sent (world l) ++ [{| req_model := model l; req_contents := contents |}]
    /\ match models_generate_content E (2 + t) (model l) contents with
       | Ok text =>
           ChatHistory.messages (history l')
           = ChatHistory.messages (history l)
             ++ [user; new_message (clock E (3 + t)) "assistant" text false]
           /\ attached_file l' = None
       | Raise (Exception msg) =>
           ChatHistory.messages (history l')
           = ChatHistory.messages (history l)
             ++ [user; new_message (clock E (3 + t)) "system" ("Error: " ++ msg)%string false]
           /\ attached_file l' = attached_file l
       | Raise KeyboardInterrupt =>
           ChatHistory.messages (history l') = ChatHistory.messages (history l) ++ [user]
           /\ attached_file l' = attached_file l
       end.
Proof.
  intros Hin Hplain t contents user.
  unfold round, try_except. rewrite (round_body_plain E l line rest Hin Hplain).
  cbv zeta. fold contents.
  erewrite bind_ok; [|apply history_add_message_run].
  erewrite bind_ok; [|apply io_run; reflexivity].
  set (l1 := with_world _ _).
  assert (Ht : tick (world l1) = 2 + t).
  { subst l1. cbn. rewrite saved_world_tick. reflexivity. }
  assert (Hs : sent (world l1) = sent (world l) /\ stdin (world l1) = rest).
  { subst l1. cbn. rewrite saved_world_sent, saved_world_stdin. auto. }
  assert (Hh : history l1 = grown (history l) user
               /\ attached_file l1 = attached_file l
               /\ attached_file_name l1 = attached_file_name l
               /\ model l1 = model l).
  { subst l1. cbn. auto. }
  clearbody l1. destruct Hs as [Hs1 Hs2]. destruct Hh as (Hh & Ha & Hn & Hmod).
  pose proof (generate_content_run E (model l) contents (world l1)) as Hgen.
  rewrite Ht in Hgen.
  destruct (models_generate_content E (2 + t) (model l) contents) as [text|[|msg]].
  - erewrite bind_ok; [|apply io_run, Hgen].
    erewrite bind_ok; [|apply io_run; reflexivity].
    erewrite bind_ok; [|apply history_add_message_run].
    set (l2 := with_history _ _).
    assert (H2 : history l2
                 = grown (history l1) (new_message (clock E (3 + t)) "assistant" text false)
                 /\ attached_file l2 = attached_file l1
                 /\ stdin (world l2) = stdin (world l1)
                 /\ sent (world l2)
                    = sent (world l1) ++ [{| req_model := model l; req_contents := contents |}]).
    { subst l2. cbn [history with_history with_world world attached_file tick bump
                     record_request emit stdin sent].
      rewrite saved_world_stdin, saved_world_sent, Ht.
      cbn [bump emit record_request stdin sent]. auto. }
    clearbody l2. destruct H2 as (H2h & H2a & H2i & H2s).
    destruct (clear_attachment_run l2 (attached_file l)) as (l' & Hrun & Hh' & Hi' & Hs' & Ha').
    exists l'. split; [rewrite Hrun; reflexivity|].
    rewrite Hi', Hs', Hh', H2i, H2s, H2h, Hs1, Hs2, Hh.
    split; [reflexivity|]. split; [reflexivity|]. split.
    + cbn [grown ChatHistory.messages]. rewrite <- app_assoc. reflexivity.
    + apply Ha'. congruence.
  - erewrite bind_raise; [|apply io_run, Hgen].
    unfold bind, io, print, ret; cbn.
    eexists; (split; [reflexivity|]); cbn.
    rewrite Hh, Hs1, Hs2. auto.
  - erewrite bind_raise; [|apply io_run, Hgen].
    cbv beta iota.
    erewrite bind_ok; [|apply io_run; reflexivity].
    erewrite bind_ok; [|apply history_add_message_run].
    cbn [world with_world tick bump record_request emit]. rewrite Ht.
    unfold ret. eexists; (split; [reflexivity|]); cbn.
    rewrite ?saved_world_stdin, ?saved_world_sent; cbn.
    rewrite Hh, Hs1, Hs2; cbn; rewrite <- ?app_assoc; auto.
Qed.

(** The user's message of a round that sends a plain message. *)
Lemma user_message_recorded_with
    (E : Env) (l : Loop) (line : string) (rest : list InputEvent) :
  stdin (world l) = Line line :: rest ->
  plain_message line = true ->
  exists l' user after,
    round E l = (Ok Continue, l')
    /\ ChatHistory.messages (history l') = ChatHistory.messages (history l) ++ user :: after
    /\ essence user = ("user"%string, Py.strip line, bool_of (attached_file l))
    /\ sent (world l') = sent (world l)
         ++ [{| req_model := model l;
                req_contents := outbound (attached_file l) (Py.strip line) |}].
Proof.
  intros Hin Hplain.
  destruct (round_plain E l line rest Hin Hplain) as (l' & Hrun & _ & Hsent & Hout).
  exists l', (new_message (clock E (tick (world l))) "user" (Py.strip line)
                (bool_of (attached_file l))).
  destruct (models_generate_content E _ (model l) _) as [text|[|msg]];
    destruct Hout as [Hm _].
  - eexists. split; [exact Hrun|]. split; [exact Hm|]. auto.
  - exists []. split; [exact Hrun|]. split; [exact Hm|]. auto.
  - eexists. split; [exact Hrun|]. split; [exact Hm|]. auto.
Qed.

(** C2. When a plain message is sent, the round appends the user's message,
    flagged exactly when an attachment is staged, and it does so before the
    model is asked: the clock is read for it at question [t] and the model
    is asked at question [2 + t], with the attachment in the request exactly
    when the message is flagged.  Whatever the call does (reply, error or
    interrupt), the user's message is in the transcript, followed by at most
    the reply or the error. *)
Theorem user_message_recorded_before_call
    (E : Env) (l : Loop) (line : string) (rest : list InputEvent) :
  stdin (world l) = Line line :: rest ->
  plain_message line = true ->
  let t := tick (world l) in
  let contents := outbound (attached_file l) (Py.strip line) in
  exists l' user after,
    round E l = (Ok Continue, l')
    /\ ChatHistory.messages (history l') = ChatHistory.messages (history l) ++ user :: after
    /\ essence user = ("user"%string, Py.strip line, bool_of (attached_file l))
    /\ ChatHistory.timestamp user = isoformat (clock E t)
    /\ (ChatHistory.has_attachment user = true <-> exists f, In (PFile f) contents)
    /\ sent (world l') = sent (world l) ++ [{| req_model := model l; req_contents := contents |}]
    /\ map essence after =
         match models_generate_content E (2 + t) (model l) contents with
         | Ok text => [("assistant"%string, text, false)]
         | Raise (Exception msg) => [("system"%string, ("Error: " ++ msg)%string, false)]
         | Raise KeyboardInterrupt => []
         end.
Proof.
  intros Hin Hplain t contents.
  destruct (round_plain E l line rest Hin Hplain) as (l' & Hrun & _ & Hsent & Hout).
  fold t contents in Hout, Hsent.
  exists l', (new_message (clock E t) "user" (Py.strip line) (bool_of (attached_file l))).
  assert (Hflag : bool_of (attached_file l) = true <-> exists f, In (PFile f) contents).
  { subst contents. unfold outbound. destruct (attached_file l) as [f|]; simpl.
    - split; [intros _; exists f; auto|reflexivity].
    - split; [discriminate|]. intros [f [Hf|[]]]. discriminate. }
  destruct (models_generate_content E (2 + t) (model l) contents) as [text|[|msg]].
  - destruct Hout as [Hm _]. eexists. split; [exact Hrun|]. split; [exact Hm|]. auto.
  - destruct Hout as [Hm _]. exists []. split; [exact Hrun|]. split; [exact Hm|]. auto.
  - destruct Hout as [Hm _]. eexists. split; [exact Hrun|]. split; [exact Hm|]. auto.
Qed.

Lemma user_message_recorded_before_call_witness :
  exists l' user after,
    round offline (midway offline (Some "files/photo.png"%string) ["describe this"%string])
      = (Ok Continue, l')
    /\ ChatHistory.messages (history l') = user :: after
    /\ essence user = ("user"%string, "describe this"%string, true)
    /\ map essence after = [("system"%string, "Error: 503 UNAVAILABLE"%string, false)].
Proof.
  destruct (user_message_recorded_before_call offline
              (midway offline (Some "files/photo.png"%string) ["describe this"%string])
              "describe this" [] eq_refl eq_refl)
    as (l' & user & after & Hrun & Hm & He & _ & _ & _ & Hafter).
  exists l', user, after.
  split; [exact Hrun|]. split; [exact Hm|]. split; [exact He|exact Hafter].
Defined.

(** ** The attachment after a send *)

(** C1, as the code has it.  When a plain message is sent with an attachment
    staged, the attachment is cleared if the model answers; if the call
    raises, the attachment stays staged for the next message. *)
Theorem attachment_cleared_on_reply_kept_on_error
    (E : Env) (l : Loop) (line : string) (rest : list InputEvent) (f : FileHandle) :
  stdin (world l) = Line line :: rest ->
  plain_message line = true ->
  attached_file l = Some f ->
  exists l',
    round E l = (Ok Continue, l')
    /\ match models_generate_content E (2 + tick (world l)) (model l)
               [PFile f; PText (Py.strip line)] with
       | Ok _ => attached_file l' = None
       | Raise _ => attached_file l' = Some f
       end.
Proof.
  intros Hin Hplain Hatt.
  destruct (round_plain E l line rest Hin Hplain) as (l' & Hrun & _ & _ & Hout).
  rewrite Hatt in Hout. simpl in Hout.
  exists l'. split; [exact Hrun|].
  destruct (models_generate_content E _ (model l) _) as [text|[|msg]];
    destruct Hout as [_ Ha]; exact Ha.
Qed.

Lemma attachment_cleared_on_reply_kept_on_error_witness :
  exists l',
    round calm (midway calm (Some "files/photo.png"%string) ["describe this"%string])
      = (Ok Continue, l')
    /\ attached_file l' = None.
Proof.
  exact (attachment_cleared_on_reply_kept_on_error calm
           (midway calm (Some "files/photo.png"%string) ["describe this"%string])
           "describe this" [] "files/photo.png" eq_refl eq_refl eq_refl).
Defined.

(** C1 fails as stated: with the model out of reach, the user attaches
    [photo.png] and sends a message; the send fails, an error is recorded,
    and the attachment is still staged afterwards. *)
Lemma attachment_survives_failed_send :
  exists l w,
    chat_loop offline "gemini-2.5-pro" 2 (fresh ["/file"; "photo.png"; "describe this"]%string)
      = (Ok (StillRunning, l), w)
    /\ plain_message "describe this" = true
    /\ map essence (ChatHistory.messages (history l))
       = [ ("user", "describe this", true);
           ("system", "Error: 503 UNAVAILABLE", false) ]%string
    /\ attached_file l = Some "files/photo.png"%string
    /\ attached_file l <> None.
Proof.
  eexists (Build_Loop _ _ _ _ _), _. split; [vm_compute; reflexivity|].
  split; [reflexivity|]. split; [reflexivity|]. split; [reflexivity|discriminate].
Qed.

(** ** The text of a sent message *)

(** C5, as the code has it.  The content of a plain message, both as sent to
    the model and as recorded, is the line with the white space at its two
    ends trimmed off; it is not lower-cased. *)
Theorem trimmed_text_is_sent_and_recorded
    (E : Env) (l : Loop) (line : string) (rest : list InputEvent) :
  stdin (world l) = Line line :: rest ->
  plain_message line = true ->
  exists l' user after request,
    round E l = (Ok Continue, l')
    /\ ChatHistory.messages (history l') = ChatHistory.messages (history l) ++ user :: after
    /\ ChatHistory.role user = "user"%string
    /\ ChatHistory.content user = Py.strip line
    /\ sent (world l') = sent (world l) ++ [request]
    /\ last (req_contents request) = Some (PText (Py.strip line)).
Proof.
  intros Hin Hplain.
  destruct (user_message_recorded_with E l line rest Hin Hplain)
    as (l' & user & after & Hrun & Hm & He & Hsent).
  exists l', user, after. eexists. split; [exact Hrun|]. split; [exact Hm|].
  injection He as Hr Hc _. split; [exact Hr|]. split; [exact Hc|].
  split; [exact Hsent|]. unfold outbound. simpl.
  destruct (attached_file l); reflexivity.
Qed.

Lemma trimmed_text_is_sent_and_recorded_witness :
  exists l' user after request,
    round calm (midway calm None ["  Hello World  "%string]) = (Ok Continue, l')
    /\ ChatHistory.messages (history l') = user :: after
    /\ ChatHistory.content user = "Hello World"%string
    /\ sent (world l') = [request]
    /\ last (req_contents request) = Some (PText "Hello World").
Proof.
  destruct (trimmed_text_is_sent_and_recorded calm
              (midway calm None ["  Hello World  "%string]) "  Hello World  " []
              eq_refl eq_refl)
    as (l' & user & after & request & Hrun & Hm & _ & Hc & Hs & Hl).
  exists l', user, after, request.
  split; [exact Hrun|]. split; [exact Hm|]. split; [exact Hc|]. split; [exact Hs|exact Hl].
Defined.

(** C5 fails as stated: the line [  Hello World  ] is no command, and what
    is sent and recorded is [Hello World], not the raw line. *)
Lemma raw_line_is_not_what_is_sent :
  exists l w,
    chat_loop calm "gemini-2.5-pro" 1 (fresh ["  Hello World  "%string])
      = (Ok (StillRunning, l), w)
    /\ plain_message "  Hello World  " = true
    /\ map ChatHistory.content (ChatHistory.messages (history l))
       = ["Hello World"; "hi"]%string
    /\ map req_contents (sent (world l)) = [[PText "Hello World"]]
    /\ "Hello World"%string <> "  Hello World  "%string.
Proof.
  eexists (Build_Loop _ _ _ _ _), _. split; [vm_compute; reflexivity|].
  split; [reflexivity|]. split; [reflexivity|]. split; [reflexivity|discriminate].
Qed.

(** ** The file selector on a path that is not a file *)

Lemma select_file_not_a_file (E : Env) (w : World) (line path : string) rest :
  stdin w = Line line :: rest ->
  Py.is_empty (typed_path line) = false ->
  path_expanduser E (typed_path line) = Ok path ->
  not_a_file E (tick w) path ->
  exists w',
    select_file E w = (Ok None, w')
    /\ stdin w' = rest /\ sent w' = sent w /\ history_dir w' = history_dir w.
Proof.
  intros Hin Hne Hexp Hnot.
  unfold select_file, print_header.
  repeat (erewrite bind_ok; [|reflexivity]).
  erewrite bind_ok; [|apply input_line; exact Hin].
  fold (typed_path line). rewrite Hne.
  erewrite bind_ok; [|rewrite Hexp; reflexivity].
  cbn [tick with_stdin emit].
  destruct Hnot as [Hex|[Hex Hfile]].
  - erewrite bind_ok; [|cbn [tick with_stdin emit]; rewrite Hex; reflexivity].
    cbn [negb]. unfold bind, print, ret. cbn. eauto.
  - erewrite bind_ok; [|cbn [tick with_stdin emit]; rewrite Hex; reflexivity].
    cbn [negb].
    erewrite bind_ok; [|cbn [tick with_stdin emit bump]; rewrite Hfile; reflexivity].
    cbn [negb]. unfold bind, print, ret. cbn. eauto.
Qed.

Lemma select_file_check_raises (E : Env) (w : World) (line msg : string) rest :
  stdin w = Line line :: rest ->
  Py.is_empty (typed_path line) = false ->
  refusal E (tick w) (typed_path line) = Some (CheckRaises msg) ->
  exists w',
    select_file E w = (Raise (Exception msg), w')
    /\ stdin w' = rest /\ sent w' = sent w.
Proof.
  intros Hin Hne Href.
  assert (Hprompt : forall k : string -> M World (option (string * string)),
             (print_header "FILE SELECTOR" ;;
              print "Supported formats:" ;;
              print "  Images: jpg, jpeg, png, gif, webp" ;;
              print "  Videos: mp4, mpeg, mov, avi, webm" ;;
              print "  Audio:  mp3, wav, aiff, aac, ogg, flac" ;;
              line <- input "Enter file path (or drag and drop): " ;; k line)%py%string w
             = k line (with_stdin rest
                         (emit (Prompt "Enter file path (or drag and drop): ")
                            (printed [ Print "[ FILE SELECTOR ]";
                                       Print "----------------------------------------";
                                       Print "Supported formats:";
                                       Print "  Images: jpg, jpeg, png, gif, webp";
                                       Print "  Videos: mp4, mpeg, mov, avi, webm";
                                       Print "  Audio:  mp3, wav, aiff, aac, ogg, flac" ]%string
                                     w)))).
  { intros k. unfold print_header.
    repeat (erewrite bind_ok; [|reflexivity]).
    erewrite bind_ok; [|apply input_line; exact Hin].
    unfold printed, emit. cbn. rewrite <- !app_assoc. reflexivity. }
  unfold select_file. rewrite Hprompt. fold (typed_path line). rewrite Hne.
  unfold refusal in Href.
  destruct (path_expanduser E (typed_path line)) as [path|[|msg0]] eqn:Hexp;
    [|discriminate|].
  - erewrite bind_ok; [|reflexivity].
    destruct (path_exists E (tick w) path) as [[|]|[|msg1]] eqn:Hex; try discriminate.
    + erewrite bind_ok; [|cbn [tick with_stdin emit printed]; rewrite Hex; reflexivity].
      cbn [negb].
      destruct (path_is_file E (S (tick w)) path) as [[|]|[|msg2]] eqn:Hfile;
        try discriminate.
      injection Href as <-.
      erewrite bind_raise;
        [|cbn [tick with_stdin emit printed bump]; rewrite Hfile; reflexivity].
      eexists. split; [reflexivity|]. cbn. auto.
    + injection Href as <-.
      erewrite bind_raise; [|cbn [tick with_stdin emit printed]; rewrite Hex; reflexivity].
      eexists. split; [reflexivity|]. cbn. auto.
  - injection Href as <-.
    erewrite bind_raise; [|reflexivity].
    eexists. split; [reflexivity|]. cbn. auto.
Qed.

(** [/file] on a path that the file system says is missing or no regular
    file: nothing changes but the input read and the lines printed. *)
Lemma file_command_refused
    (E : Env) (l : Loop) (cmdline pathline path : string) (rest : list InputEvent) :
  stdin (world l) = Line cmdline :: Line pathline :: rest ->
  Py.lower (Py.strip cmdline) = "/file"%string ->
  Py.is_empty (typed_path pathline) = false ->
  path_expanduser E (typed_path pathline) = Ok path ->
  not_a_file E (tick (world l)) path ->
  exists l',
    round E l = (Ok Continue, l')
    /\ attached_file l' = attached_file l
    /\ attached_file_name l' = attached_file_name l
    /\ history l' = history l
    /\ stdin (world l') = rest
    /\ sent (world l') = sent (world l)
    /\ history_dir (world l') = history_dir (world l).
Proof.
  intros Hin Hcmd Hne Hexp Hnot.
  assert (Hs : Py.is_empty (Py.strip cmdline) = false).
  { destruct (Py.strip cmdline); [discriminate Hcmd|reflexivity]. }
  unfold round, try_except, round_body.
  rewrite (bind_ok get _ l l l eq_refl).
  erewrite bind_ok; [|apply io_run, input_line, Hin].
  rewrite Hs, Hcmd. cbn [String.eqb Ascii.eqb Bool.eqb].
  fold (after_prompt l (Line pathline :: rest)).
  destruct (select_file_not_a_file E (world (after_prompt l (Line pathline :: rest)))
              pathline path rest eq_refl Hne Hexp Hnot)
    as (w' & Hsel & Hin' & Hsent & Hdir).
  erewrite bind_ok; [|apply io_run, Hsel].
  unfold ret. eexists. split; [reflexivity|]. cbn.
  rewrite Hsent, Hdir, Hin'. cbn. auto 10.
Qed.

(** [/file] on a path whose resolution or check raises: the loop's handler
    records the error as a system message; the attachment stays. *)
Lemma file_command_check_raises
    (E : Env) (l : Loop) (cmdline pathline msg : string) (rest : list InputEvent) :
  stdin (world l) = Line cmdline :: Line pathline :: rest ->
  Py.lower (Py.strip cmdline) = "/file"%string ->
  Py.is_empty (typed_path pathline) = false ->
  refusal E (tick (world l)) (typed_path pathline) = Some (CheckRaises msg) ->
  exists l',
    round E l = (Ok Continue, l')
    /\ attached_file l' = attached_file l
    /\ attached_file_name l' = attached_file_name l
    /\ stdin (world l') = rest
    /\ sent (world l') = sent (world l)
    /\ map essence (ChatHistory.messages (history l'))
       = map essence (ChatHistory.messages (history l))
         ++ [("system"%string, ("Error: " ++ msg)%string, false)].
Proof.
  intros Hin Hcmd Hne Href.
  assert (Hs : Py.is_empty (Py.strip cmdline) = false).
  { destruct (Py.strip cmdline); [discriminate Hcmd|reflexivity]. }
  destruct (select_file_check_raises E (world (after_prompt l (Line pathline :: rest)))
              pathline msg rest eq_refl Hne Href)
    as (w' & Hsel & Hin' & Hsent).
  unfold round, try_except, round_body.
  rewrite (bind_ok get _ l l l eq_refl).
  erewrite bind_ok; [|apply io_run, input_line, Hin].
  rewrite Hs, Hcmd. cbn [String.eqb Ascii.eqb Bool.eqb].
  fold (after_prompt l (Line pathline :: rest)).
  erewrite bind_raise; [|apply io_run, Hsel].
  cbv beta iota.
  erewrite bind_ok; [|apply io_run; reflexivity].
  erewrite bind_ok; [|apply history_add_message_run].
  eexists (Build_Loop _ _ _ _ _). split; [reflexivity|].
  cbn [attached_file attached_file_name history world with_history with_world after_prompt].
  rewrite saved_world_stdin, saved_world_sent. cbn [stdin sent bump emit].
  rewrite Hin', Hsent.
  cbn [grown ChatHistory.messages]. rewrite map_app. cbn. auto 10.
Qed.

(** C7, as the code has it.  When [/file] is entered and the path typed at
    its prompt names no regular file, the round ends back at the prompt
    with the attachment as it was and nothing sent.  When [exists()] or
    [is_file()] answers no, the session (and so its transcript) and the
    history directory are as they were too.  When resolving or checking
    the path raises, the error is appended to the transcript as one system
    message. *)
Theorem file_command_on_missing_path_keeps_attachment
    (E : Env) (l : Loop) (cmdline pathline : string) (rest : list InputEvent)
    (r : Refusal) :
  stdin (world l) = Line cmdline :: Line pathline :: rest ->
  Py.lower (Py.strip cmdline) = "/file"%string ->
  Py.is_empty (typed_path pathline) = false ->
  refusal E (tick (world l)) (typed_path pathline) = Some r ->
  exists l',
    round E l = (Ok Continue, l')
    /\ attached_file l' = attached_file l
    /\ attached_file_name l' = attached_file_name l
    /\ stdin (world l') = rest
    /\ sent (world l') = sent (world l)
    /\ match r with
       | NotFound | NotAFile =>
           history l' = history l
           /\ history_dir (world l') = history_dir (world l)
       | CheckRaises msg =>
           map essence (ChatHistory.messages (history l'))
           = map essence (ChatHistory.messages (history l))
             ++ [("system"%string, ("Error: " ++ msg)%string, false)]
       end.
Proof.
  intros Hin Hcmd Hne Href.
  destruct r as [| |msg].
  - unfold refusal in Href.
    destruct (path_expanduser E (typed_path pathline)) as [path|[|msg0]] eqn:Hexp;
      try discriminate.
    destruct (path_exists E (tick (world l)) path) as [[|]|[|msg1]] eqn:Hex;
      try discriminate.
    { destruct (path_is_file E (S (tick (world l))) path) as [[|]|[|msg2]];
        discriminate. }
    destruct (file_command_refused E l cmdline pathline path rest Hin Hcmd Hne Hexp
                (or_introl Hex))
      as (l' & Hrun & Ha & Hn & Hh & Hrest & Hsent & Hdir).
    exists l'. auto 10.
  - unfold refusal in Href.
    destruct (path_expanduser E (typed_path pathline)) as [path|[|msg0]] eqn:Hexp;
      try discriminate.
    destruct (path_exists E (tick (world l)) path) as [[|]|[|msg1]] eqn:Hex;
      try discriminate.
    destruct (path_is_file E (S (tick (world l))) path) as [[|]|[|msg2]] eqn:Hfile;
      try discriminate.
    destruct (file_command_refused E l cmdline pathline path rest Hin Hcmd Hne Hexp
                (or_intror (conj Hex Hfile)))
      as (l' & Hrun & Ha & Hn & Hh & Hrest & Hsent & Hdir).
    exists l'. auto 10.
  - destruct (file_command_check_raises E l cmdline pathline msg rest Hin Hcmd Hne Href)
      as (l' & Hrun & Ha & Hn & Hrest & Hsent & Hm).
    exists l'. auto 10.
Qed.

Lemma file_command_on_missing_path_keeps_attachment_witness :
  exists l',
    round barren (midway barren None ["/File"; "'~/nothing.png'"; "hello"]%string)
      = (Ok Continue, l')
    /\ attached_file l' = None
    /\ history l' = first_session barren "gemini-2.5-pro" 0
    /\ stdin (world l') = [Line "hello"].
Proof.
  destruct (file_command_on_missing_path_keeps_attachment barren
              (midway barren None ["/File"; "'~/nothing.png'"; "hello"]%string)
              "/File" "'~/nothing.png'" [Line "hello"] NotFound
              eq_refl eq_refl eq_refl eq_refl)
    as (l' & Hrun & Ha & _ & Hin & _ & Hh & _).
  exists l'. auto.
Defined.

(** C7 as the claim has it fails on a path that cannot be asked about.  A
    [~user] path of an unknown user names no file, and [expanduser] raises
    on it before the existence check: the transcript, empty before, holds
    a system message after the round. *)
Lemma unresolvable_path_appends_a_message :
  exists l',
    round homeless (midway homeless None ["/file"; "~ghost/x.png"]%string) = (Ok Continue, l')
    /\ refusal homeless 0 (typed_path "~ghost/x.png")
       = Some (CheckRaises "Could not determine home directory.")
    /\ ChatHistory.messages (history (midway homeless None ["/file"; "~ghost/x.png"]%string))
       = []
    /\ attached_file l' = None
    /\ map essence (ChatHistory.messages (history l'))
       = [("system", "Error: Could not determine home directory.", false)]%string.
Proof.
  eexists (Build_Loop _ _ _ _ _). split; [vm_compute; reflexivity|].
  split; [reflexivity|]. split; [reflexivity|]. split; reflexivity.
Qed.

(** The same for a name too long for the file system, on which [exists()]
    raises. *)
Example file_command_on_long_name :
  exists l',
    round cramped (midway cramped None ["/file"; long_name]%string) = (Ok Continue, l')
    /\ attached_file l' = None
    /\ map essence (ChatHistory.messages (history l'))
       = [("system", "Error: [Errno 36] File name too long", false)]%string.
Proof.
  eexists (Build_Loop _ _ _ _ _). split; [vm_compute; reflexivity|].
  split; reflexivity.
Qed.

(** ** Quitting *)

(** [/quit] ends the loop and writes nothing: the session and the history
    directory are as they were. *)
Lemma quit_writes_nothing (E : Env) (l : Loop) (line : string) (rest : list InputEvent) :
  stdin (world l) = Line line :: rest ->
  Py.lower (Py.strip line) = "/quit"%string ->
  exists l',
    round E l = (Ok Break, l')
    /\ history l' = history l
    /\ history_dir (world l') = history_dir (world l).
Proof.
  intros Hin Hcmd.
  assert (Hs : Py.is_empty (Py.strip line) = false).
  { destruct (Py.strip line); [discriminate Hcmd|reflexivity]. }
  unfold round, try_except, round_body.
  rewrite (bind_ok get _ l l l eq_refl).
  erewrite bind_ok; [|apply io_run, input_line, Hin].
  rewrite Hs, Hcmd. cbn [String.eqb Ascii.eqb Bool.eqb].
  unfold bind, io, print, ret. cbn. eauto.
Qed.

(** ** Quitting after the history was cleared *)

(** C9 on the code.  The user sends a message, opens the history browser,
    clears all history and quits.  Clearing removes the running session's
    own file, and [/quit] writes nothing: the loop ends announcing the chat
    as saved, with two messages in memory and no record on disk. *)
Theorem quit_after_clear_leaves_no_record :
  exists l w,
    chat_loop calm "gemini-2.5-pro" 3 (fresh ["hello"; "/history"; "c"; "y"; "/quit"]%string)
      = (Ok (Quit, l), w)
    /\ ChatHistory.message_count (ChatHistory.metadata (history l)) = 2
    /\ length (ChatHistory.messages (history l)) = 2
    /\ ChatHistory.session_file (history l) = "chat_20250309_143000.json"%string
    /\ history_dir w !! "chat_20250309_143000.json"%string = None
    /\ ChatHistory.list_sessions w = (Ok [], w)
    /\ last (stdout w) = Some (Print "Goodbye!")
    /\ In (Print "[OK] Chat saved to: chat_20250309_143000.json") (stdout w)
    /\ In (Print "[OK] All history cleared") (stdout w).
Proof.
  eexists (Build_Loop _ _ _ _ _), _. split; [vm_compute; reflexivity|].
  repeat (split; [vm_compute; reflexivity|]).
  split; [|vm_compute; tauto].
  vm_compute. tauto.
Qed.

(** ** Listing the sessions *)

Lemma flip_le_total : Total (flip String.le).
Proof. intros a b. unfold flip. destruct (String.le_total a b); auto. Qed.

Lemma flip_le_trans : Transitive (flip String.le).
Proof. intros a b c Hab Hbc. unfold flip in *. etrans; eauto. Qed.

(** [list_sessions] returns each matching file of the directory once, in
    descending order of name. *)
Lemma list_sessions_spec (w : World) :
  history_dir_exists w = true ->
  exists sessions,
    ChatHistory.list_sessions w = (Ok sessions, w)
    /\ (forall name, name ∈ sessions <->
          is_Some (history_dir w !! name) /\ ChatHistory.glob_chat name = true)
    /\ NoDup sessions
    /\ StronglySorted (flip String.le) sessions.
Proof.
  intros Hd. unfold ChatHistory.list_sessions. rewrite Hd. simpl.
  eexists. split; [reflexivity|].
  pose proof flip_le_total. pose proof flip_le_trans.
  split; [|split].
  - intros name. rewrite merge_sort_Permutation, list_elem_of_filter, list_elem_of_fmap.
    split.
    + intros [Hg ([k v] & -> & Hin)]. apply elem_of_map_to_list in Hin. eauto.
    + intros [[v Hv] Hg]. split; [exact Hg|]. exists (name, v). split; [reflexivity|].
      apply elem_of_map_to_list. exact Hv.
  - rewrite merge_sort_Permutation. apply NoDup_filter, NoDup_fst_map_to_list.
  - apply StronglySorted_merge_sort; assumption.
Qed.

(** *** The order of the file names is the order of the dates *)

Lemma string_app_cons (c : ascii) (a x : string) :
  (String c a ++ x)%string = String c (a ++ x)%string.
Proof. reflexivity. Qed.

Lemma string_app_assoc (a b c : string) : ((a ++ b) ++ c = a ++ (b ++ c))%string.
Proof.
  induction a as [|x a IH]; [reflexivity|].
  rewrite !string_app_cons. f_equal. exact IH.
Qed.

Lemma ascii_compare_refl (c : ascii) : Ascii.compare c c = Eq.
Proof. unfold Ascii.compare. apply N.compare_refl. Qed.

Lemma string_compare_refl (s : string) : String.compare s s = Eq.
Proof.
  induction s as [|c s IH]; simpl; [reflexivity|].
  rewrite ascii_compare_refl. exact IH.
Qed.

Lemma compare_app_blocks (a b x y : string) :
  String.length a = String.length b ->
  String.compare (a ++ x) (b ++ y) = lex (String.compare a b) (String.compare x y).
Proof.
  revert b. induction a as [|c a IH]; intros [|d b] Hlen; try discriminate Hlen.
  - reflexivity.
  - rewrite !string_app_cons. cbn [String.compare].
    destruct (Ascii.compare c d); try reflexivity. apply IH.
    cbn [String.length] in Hlen. congruence.
Qed.

Lemma compare_app_prefix (p x y : string) :
  String.compare (p ++ x) (p ++ y) = String.compare x y.
Proof.
  rewrite compare_app_blocks by reflexivity. rewrite string_compare_refl. reflexivity.
Qed.

Lemma compare_pad2 (i j : nat) :
  i < 100 -> j < 100 -> String.compare (Py.pad2 i) (Py.pad2 j) = Nat.compare i j.
Proof.
  intros Hi Hj.
  assert (Hall : forallb (fun i => forallb (fun j =>
            comparison_eqb (String.compare (Py.pad2 i) (Py.pad2 j)) (Nat.compare i j))
            (seq 0 100)) (seq 0 100) = true) by (vm_compute; reflexivity).
  rewrite forallb_forall in Hall.
  specialize (Hall i). rewrite forallb_forall in Hall.
  assert (Hc : comparison_eqb (String.compare (Py.pad2 i) (Py.pad2 j)) (Nat.compare i j) = true).
  { apply Hall; apply in_seq; lia. }
  destruct (String.compare _ _), (Nat.compare i j); simpl in Hc; congruence.
Qed.

Lemma compare_base100 (a a' b b' : nat) :
  b < 100 -> b' < 100 ->
  Nat.compare (a * 100 + b) (a' * 100 + b') = lex (Nat.compare a a') (Nat.compare b b').
Proof.
  intros Hb Hb'.
  destruct (Nat.compare_spec a a'), (Nat.compare_spec b b'); simpl; subst;
    first [ apply Nat.compare_eq_iff | apply Nat.compare_lt_iff | apply Nat.compare_gt_iff ];
    lia.
Qed.

(** For plausible dates, comparing two session file names as strings is
    comparing their dates. *)
Lemma compare_session_name (d1 d2 : datetime) :
  plausible d1 -> plausible d2 ->
  String.compare (session_name d1) (session_name d2)
  = Nat.compare (seconds_key d1) (seconds_key d2).
Proof.
  intros (Hy1 & Hm1 & Hd1 & Hh1 & Hn1 & Hs1) (Hy2 & Hm2 & Hd2 & Hh2 & Hn2 & Hs2).
  unfold session_name, strftime_id, Py.pad4.
  rewrite compare_app_prefix. rewrite !string_app_assoc.
  assert (Hq1 : year d1 / 100 < 100) by (apply Nat.Div0.div_lt_upper_bound; lia).
  assert (Hq2 : year d2 / 100 < 100) by (apply Nat.Div0.div_lt_upper_bound; lia).
  assert (Hr1 : year d1 mod 100 < 100) by (apply Nat.mod_upper_bound; lia).
  assert (Hr2 : year d2 mod 100 < 100) by (apply Nat.mod_upper_bound; lia).
  repeat (rewrite compare_app_blocks by reflexivity; rewrite ?compare_pad2 by assumption).
  rewrite !string_compare_refl. unfold seconds_key.
  rewrite !compare_base100 by assumption.
  assert (Hyear : Nat.compare (year d1) (year d2)
                  = lex (Nat.compare (year d1 / 100) (year d2 / 100))
                        (Nat.compare (year d1 mod 100) (year d2 mod 100))).
  { rewrite <- compare_base100 by assumption.
    f_equal; rewrite Nat.mul_comm; apply Nat.div_mod_eq. }
  rewrite Hyear.
  repeat match goal with |- context [Nat.compare ?a ?b] =>
    destruct (Nat.compare a b); simpl; try reflexivity end.
Qed.

Lemma string_length_app (a b : string) :
  String.length (a ++ b)%string = String.length a + String.length b.
Proof.
  induction a as [|c a IH]; [reflexivity|].
  rewrite string_app_cons. cbn [String.length]. rewrite IH. reflexivity.
Qed.

Lemma endswith_app (p a : string) : Py.endswith p (a ++ p)%string = true.
Proof.
  induction a as [|c a IH].
  - change (Py.endswith p p = true). destruct p as [|c p]; [reflexivity|].
    cbn [Py.endswith]. rewrite String.eqb_refl. reflexivity.
  - rewrite string_app_cons. cbn [Py.endswith]. rewrite IH. apply orb_true_r.
Qed.

(** The files [ChatHistory] writes match the pattern of [list_sessions]. *)
Lemma glob_chat_session_name (d : datetime) :
  ChatHistory.glob_chat (session_name d) = true.
Proof.
  unfold ChatHistory.glob_chat, session_name.
  apply andb_true_iff. split; [apply andb_true_iff; split|].
  - reflexivity.
  - rewrite <- string_app_assoc. apply endswith_app.
  - apply Nat.leb_le. rewrite !string_length_app. cbn [String.length]. lia.
Qed.

Lemma StronglySorted_lookup_lt {A} (R : relation A) (l : list A) (i j : nat) (x y : A) :
  StronglySorted R l -> i < j -> l !! i = Some x -> l !! j = Some y -> R x y.
Proof.
  intros Hs. revert i j. induction Hs as [|a l Hs IH Hall]; intros i j Hlt Hi Hj.
  - rewrite lookup_nil in Hi. discriminate.
  - destruct j as [|j]; [lia|]. destruct i as [|i]; simpl in *.
    + injection Hi as <-. rewrite Forall_forall in Hall. apply Hall.
      apply list_elem_of_lookup. eauto.
    + apply (IH i j); [lia|assumption..].
Qed.

(** *** Damaged files in the listing *)

Lemma list_entry_spec (w : World) (i : nat) (path : string) :
  listable (history_dir w) path ->
  exists line,
    list_entry (i, path) w = (Ok tt, emit line w)
    /\ listing_line (history_dir w) (i, path) line.
Proof.
  intros [Hbad|[h Hrec]].
  - unfold list_entry, ChatHistory.load_session, except_Exception, try_except, read_json, bind.
    unfold damaged in Hbad.
    destruct (history_dir w !! path) as [[data| |]|] eqn:Hf;
      [exfalso; exact (Hbad data eq_refl)|..];
      (eexists; split; [reflexivity|]; left; split; [|eauto];
       intros data; simpl; rewrite Hf; discriminate).
  - unfold list_entry. erewrite bind_ok; [|apply load_session_stored; exact Hrec].
    eexists. split; [reflexivity|]. right. exists h. split; [exact Hrec|reflexivity].
Qed.

Lemma printed_emit line lines w : printed lines (emit line w) = printed (line :: lines) w.
Proof. unfold emit, printed. simpl. rewrite <- app_assoc. reflexivity. Qed.

Lemma printed_nil w : printed [] w = w.
Proof. destruct w. unfold printed. simpl. rewrite app_nil_r. reflexivity. Qed.

(** The listing loop goes through all its entries: a damaged file costs one
    error line, and the entries after it are listed all the same. *)
Lemma listing_loop_spec (entries : list (nat * string)) : forall w : World,
  Forall (fun e => listable (history_dir w) e.2) entries ->
  exists lines,
    for_each list_entry entries w = (Ok tt, printed lines w)
    /\ Forall2 (listing_line (history_dir w)) entries lines.
Proof.
  induction entries as [|[i path] entries IH]; intros w Hall.
  - exists []. rewrite printed_nil. split; [reflexivity|constructor].
  - apply Forall_cons_1 in Hall as [Hone Hrest].
    destruct (list_entry_spec w i path Hone) as (line & Hrun & Hline).
    destruct (IH (emit line w) Hrest) as (lines & Hloop & Hlines).
    exists (line :: lines). split.
    + cbn [for_each]. erewrite bind_ok; [|exact Hrun].
      rewrite Hloop, printed_emit. reflexivity.
    + constructor; [exact Hline|exact Hlines].
Qed.

Lemma only_sessions_parse_listable (dir : gmap string FileData) (path : string) :
  only_sessions_parse dir -> listable dir path.
Proof.
  intros Hall. unfold listable, damaged, session_record.
  destruct (dir !! path) as [f|] eqn:Hf; [|left; discriminate].
  destruct f as [data| |]; [|left; discriminate..].
  destruct (Hall path _ Hf data eq_refl) as [h ->]. right. exists h. reflexivity.
Qed.

Lemma list_sessions_elsewhere (w w0 : World) (sessions : list string) :
  ChatHistory.list_sessions w = (Ok sessions, w) ->
  history_dir w0 = history_dir w ->
  history_dir_exists w0 = history_dir_exists w ->
  ChatHistory.list_sessions w0 = (Ok sessions, w0).
Proof.
  unfold ChatHistory.list_sessions. intros H Hd He. rewrite Hd, He.
  destruct (negb (history_dir_exists w)); injection H as <-; reflexivity.
Qed.

Lemma Forall_enumerate {A} (P : A -> Prop) (l : list A) (k : nat) :
  Forall P l -> Forall (fun e : nat * A => P e.2) (enumerate k l).
Proof. intros H. revert k. induction H; intros k; constructor; auto. Qed.

(** [view_history] when the user goes straight back: the head, one line
    for each of the first ten sessions, the menu; nothing else changes. *)
Lemma view_history_back (E : Env) (w : World) (sessions : list string) rest :
  ChatHistory.list_sessions w = (Ok sessions, w) ->
  sessions <> [] ->
  Forall (listable (history_dir w)) (firstn 10 sessions) ->
  stdin w = Line "0" :: rest ->
  exists lines w',
    view_history E w = (Ok tt, w')
    /\ stdout w' = stdout w ++ listing_head (length sessions) ++ lines ++ listing_menu
    /\ stdin w' = rest
    /\ history_dir w' = history_dir w
    /\ Forall2 (listing_line (history_dir w)) (enumerate 1 (firstn 10 sessions)) lines.
Proof.
  intros Hls Hne Hall Hin.
  unfold view_history, print_header.
  erewrite bind_ok; [|reflexivity].
  erewrite bind_ok; [|apply (list_sessions_elsewhere w _ sessions Hls); reflexivity].
  destruct sessions as [|s0 sessions']; [congruence|].
  erewrite bind_ok; [|reflexivity].
  match goal with |- context [bind (for_each list_entry ?es) _ ?w0] =>
    destruct (listing_loop_spec es w0) as (lines & Hloop & Hlines);
      [apply Forall_enumerate; exact Hall|] end.
  erewrite bind_ok; [|exact Hloop].
  repeat (erewrite bind_ok; [|reflexivity]).
  erewrite bind_ok; [|apply input_line; exact Hin].
  exists lines. eexists. split; [reflexivity|].
  cbn. rewrite <- !app_assoc. auto.
Qed.

(** C8. [list_sessions] returns every file of the history directory that
    matches [chat_*.json], each once; the files sessions are saved to are
    among them; the list is in descending order of name, so a session made
    later comes earlier.  When the browser lists them (the first ten, as
    [view_history] does), a file that cannot be read or parsed costs one
    logged error line and the listing goes on: every listed entry gets its
    line, and the browser returns normally. *)
Theorem sessions_listed_newest_first_damaged_skipped
    (E : Env) (w : World) (rest : list InputEvent) :
  history_dir_exists w = true ->
  only_sessions_parse (history_dir w) ->
  stdin w = Line "0" :: rest ->
  exists sessions,
    ChatHistory.list_sessions w = (Ok sessions, w)
    /\ (forall name, name ∈ sessions <->
          is_Some (history_dir w !! name) /\ ChatHistory.glob_chat name = true)
    /\ (forall d, is_Some (history_dir w !! session_name d) -> session_name d ∈ sessions)
    /\ NoDup sessions
    /\ (forall i j d1 d2,
          i < j ->
          sessions !! i = Some (session_name d1) ->
          sessions !! j = Some (session_name d2) ->
          plausible d1 -> plausible d2 ->
          seconds_key d2 < seconds_key d1)
    /\ (sessions <> [] ->
        exists lines w',
          view_history E w = (Ok tt, w')
          /\ stdout w' = stdout w ++ listing_head (length sessions) ++ lines ++ listing_menu
          /\ stdin w' = rest
          /\ history_dir w' = history_dir w
          /\ Forall2 (listing_line (history_dir w)) (enumerate 1 (firstn 10 sessions)) lines).
Proof.
  intros Hd Hparse Hin.
  destruct (list_sessions_spec w Hd) as (sessions & Hls & Hmem & Hnodup & Hsorted).
  exists sessions. split; [exact Hls|]. split; [exact Hmem|].
  split; [|split; [exact Hnodup|split]].
  - intros d Hsome. apply Hmem. split; [exact Hsome|apply glob_chat_session_name].
  - intros i j d1 d2 Hlt Hi Hj Hp1 Hp2.
    pose proof (StronglySorted_lookup_lt _ _ _ _ _ _ Hsorted Hlt Hi Hj) as Hle.
    unfold flip, String.le, String.leb in Hle.
    rewrite (compare_session_name d2 d1 Hp2 Hp1) in Hle.
    destruct (Nat.compare_spec (seconds_key d2) (seconds_key d1)) as [Heq|Hlt'|Hgt].
    + exfalso. assert (Hn : session_name d2 = session_name d1).
      { apply String.compare_eq_iff. rewrite compare_session_name by assumption.
        apply Nat.compare_eq_iff. exact Heq. }
      rewrite Hn in Hj. pose proof (NoDup_lookup _ _ _ _ Hnodup Hi Hj). lia.
    + exact Hlt'.
    + destruct Hle.
  - intros Hne. apply (view_history_back E w sessions rest Hls Hne); [|exact Hin].
    apply Forall_forall. intros path _. apply only_sessions_parse_listable, Hparse.
Qed.

Lemma sessions_listed_newest_first_damaged_skipped_witness :
  exists sessions,
    ChatHistory.list_sessions shelf = (Ok sessions, shelf)
    /\ NoDup sessions
    /\ (sessions <> [] ->
        exists lines w',
          view_history calm shelf = (Ok tt, w')
          /\ stdout w' = listing_head (length sessions) ++ lines ++ listing_menu
          /\ Forall2 (listing_line (history_dir shelf)) (enumerate 1 (firstn 10 sessions)) lines).
Proof.
  assert (Hparse : only_sessions_parse (history_dir shelf)).
  { unfold only_sessions_parse, shelf, history_dir.
    repeat apply map_Forall_insert_2; try apply map_Forall_empty;
      intros data [= <-]. eexists. reflexivity. }
  destruct (sessions_listed_newest_first_damaged_skipped calm shelf [] eq_refl Hparse eq_refl)
    as (sessions & Hls & _ & _ & Hnodup & _ & Hview).
  exists sessions. split; [exact Hls|]. split; [exact Hnodup|].
  intros Hne. destruct (Hview Hne) as (lines & w' & Hrun & Hout & _ & _ & Hlines).
  exists lines, w'. split; [exact Hrun|]. split; [exact Hout|exact Hlines].
Defined.

(** The same listing, computed: newest first, and the two damaged files
    cost an error line each without ending the listing. *)
Example shelf_listing :
  fst (ChatHistory.list_sessions shelf)
  = Ok [ "chat_20250309_143000.json"; "chat_20250101_090000.json";
         "chat_20241224_180000.json" ]%string
  /\ stdout (snd (view_history calm shelf))
     = listing_head 3
       ++ [ Summary 1 "2025-03-09 14:30" (JStr "gemini-2.5-pro") (JInt 0);
            Print "Error loading session: Expecting value";
            Print "Error loading session: Permission denied" ]
       ++ listing_menu.
Proof. split; vm_compute; reflexivity. Qed.

(** The limit of the statement above: a file that parses, but not to a
    session's record, is not skipped; reading its fields raises, which ends
    the listing. *)
Example wrong_shape_ends_listing :
  forall w : World,
    history_dir w !! "chat_x.json"%string = Some (Json (JObj [("metadata"%string, JNull)])) ->
    fst (list_entry (1, "chat_x.json"%string) w)
    = Raise (Exception "object has no attribute 'get'").
Proof.
  intros w Hf. unfold list_entry.
  erewrite bind_ok; [|apply load_session_stored; exact Hf]. reflexivity.
Qed.

(** * Further properties of the chat loop *)

(** ** Lines that send nothing *)

Lemma command_not_blank (line cmd : string) :
  Py.lower (Py.strip line) = cmd -> cmd <> ""%string -> Py.is_empty (Py.strip line) = false.
Proof. intros H Hne. destruct (Py.strip line); [subst; contradiction|reflexivity]. Qed.

(** Start of a round that reads the command [cmd]. *)
Ltac enter_round Hin Hcmd :=
  unfold round, try_except, round_body;
  rewrite (bind_ok get _ _ _ _ eq_refl);
  (erewrite bind_ok; [|apply io_run, input_line, Hin]);
  rewrite (command_not_blank _ _ Hcmd) by discriminate;
  rewrite Hcmd; cbn [String.eqb Ascii.eqb Bool.eqb].

(** A blank line (nothing, or white space only) is a no-op: the round shows
    the prompt, consumes the line and changes nothing else. *)
Theorem blank_line_is_ignored (E : Env) (l : Loop) (line : string) (rest : list InputEvent) :
  stdin (world l) = Line line :: rest ->
  Py.is_empty (Py.strip line) = true ->
  round E l = (Ok Continue, after_prompt l rest).
Proof.
  intros Hin Hblank.
  unfold round, try_except, round_body.
  rewrite (bind_ok get _ l l l eq_refl).
  erewrite bind_ok; [|apply io_run, input_line, Hin].
  rewrite Hblank. reflexivity.
Qed.

Lemma blank_line_is_ignored_witness :
  round calm (midway calm (Some "files/photo.png"%string) ["   "; "hello"]%string)
  = (Ok Continue,
     after_prompt (midway calm (Some "files/photo.png"%string) ["   "; "hello"]%string)
                  [Line "hello"]).
Proof.
  exact (blank_line_is_ignored calm
           (midway calm (Some "files/photo.png"%string) ["   "; "hello"]%string)
           "   " [Line "hello"] eq_refl eq_refl).
Defined.

(** An interrupt at the prompt does not end the loop: the round prints the
    advice to use [/quit] and leaves the session, the attachment, the model,
    the requests and the history directory as they were. *)
Theorem interrupt_at_prompt_changes_nothing (E : Env) (l : Loop) (rest : list InputEvent) :
  stdin (world l) = CtrlC :: rest ->
  exists l',
    round E l = (Ok Continue, l')
    /\ history l' = history l
    /\ attached_file l' = attached_file l
    /\ attached_file_name l' = attached_file_name l
    /\ model l' = model l
    /\ stdin (world l') = rest
    /\ sent (world l') = sent (world l)
    /\ history_dir (world l') = history_dir (world l)
    /\ last (stdout (world l')) = Some (Print "Use /quit to exit (saves chat history)").
Proof.
  intros Hin.
  unfold round, try_except, round_body.
  rewrite (bind_ok get _ l l l eq_refl).
  erewrite bind_raise;
    [|apply io_run; unfold input; cbn [stdin emit]; rewrite Hin; reflexivity].
  eexists (Build_Loop _ _ _ _ _). split; [reflexivity|].
  cbn. rewrite last_snoc. auto 10.
Qed.

Lemma interrupt_at_prompt_changes_nothing_witness :
  exists l',
    round calm (with_world (with_stdin [CtrlC; Line "hello"] (fresh []))
                           (midway calm (Some "files/photo.png"%string) []))
      = (Ok Continue, l')
    /\ attached_file l' = Some "files/photo.png"%string
    /\ stdin (world l') = [Line "hello"].
Proof.
  destruct (interrupt_at_prompt_changes_nothing calm
              (with_world (with_stdin [CtrlC; Line "hello"] (fresh []))
                          (midway calm (Some "files/photo.png"%string) []))
              [Line "hello"] eq_refl)
    as (l' & Hrun & _ & Ha & _ & _ & Hin & _).
  exists l'. auto.
Defined.

(** [/clear] and [/help], in any letter case and with white space around,
    only print: session, attachment, model, requests and history directory
    stay as they were. *)
Theorem clear_and_help_only_print (E : Env) (l : Loop) (line : string) (rest : list InputEvent) :
  stdin (world l) = Line line :: rest ->
  Py.lower (Py.strip line) = "/clear"%string \/ Py.lower (Py.strip line) = "/help"%string ->
  exists l',
    round E l = (Ok Continue, l')
    /\ history l' = history l
    /\ attached_file l' = attached_file l
    /\ attached_file_name l' = attached_file_name l
    /\ model l' = model l
    /\ stdin (world l') = rest
    /\ sent (world l') = sent (world l)
    /\ history_dir (world l') = history_dir (world l).
Proof.
  intros Hin [Hcmd|Hcmd]; enter_round Hin Hcmd;
    eexists (Build_Loop _ _ _ _ _); (split; [reflexivity|]); cbn; auto 10.
Qed.

Lemma clear_and_help_only_print_witness :
  exists l',
    round calm (midway calm None ["  /HELP "; "hello"]%string) = (Ok Continue, l')
    /\ history l' = first_session calm "gemini-2.5-pro" 0
    /\ stdin (world l') = [Line "hello"].
Proof.
  destruct (clear_and_help_only_print calm (midway calm None ["  /HELP "; "hello"]%string)
              "  /HELP " [Line "hello"] eq_refl (or_intror eq_refl))
    as (l' & Hrun & Hh & _ & _ & _ & Hin & _).
  exists l'. auto.
Defined.

Lemma quit_writes_nothing_witness :
  exists l',
    round calm (midway calm None [" /Quit "]%string) = (Ok Break, l')
    /\ history l' = first_session calm "gemini-2.5-pro" 0
    /\ history_dir (world l') = ∅.
Proof.
  exact (quit_writes_nothing calm (midway calm None [" /Quit "]%string) " /Quit " []
           eq_refl eq_refl).
Defined.

(** ** End of input *)

Lemma round_at_end_of_input (E : Env) (l : Loop) :
  stdin (world l) = [] ->
  exists l',
    round E l = (Ok Continue, l')
    /\ stdin (world l') = []
    /\ attached_file l' = attached_file l
    /\ map essence (ChatHistory.messages (history l'))
       = map essence (ChatHistory.messages (history l))
         ++ [("system", "Error: EOF when reading a line", false)]%string.
Proof.
  intros Hin.
  unfold round, try_except, round_body.
  rewrite (bind_ok get _ l l l eq_refl).
  erewrite bind_raise;
    [|apply io_run; unfold input; cbn [stdin emit]; rewrite Hin; reflexivity].
  cbv beta iota.
  erewrite bind_ok; [|apply io_run; reflexivity].
  erewrite bind_ok; [|apply history_add_message_run].
  eexists (Build_Loop _ _ _ _ _). split; [reflexivity|].
  cbn [world history attached_file with_history with_world].
  rewrite saved_world_stdin. cbn [stdin bump emit with_stdin].
  split; [exact Hin|]. split; [reflexivity|].
  cbn [grown ChatHistory.messages]. rewrite map_app. reflexivity.
Qed.

(** When the input is at its end, [input()] raises [EOFError], which the
    loop records like any other error: the loop never quits, and every
    round adds one system message to the transcript. *)
Theorem end_of_input_never_quits (E : Env) (n : nat) (l : Loop) :
  stdin (world l) = [] ->
  exists l',
    rounds E n l = (Ok StillRunning, l')
    /\ map essence (ChatHistory.messages (history l'))
       = map essence (ChatHistory.messages (history l))
         ++ repeat ("system", "Error: EOF when reading a line", false)%string n.
Proof.
  revert l. induction n as [|n IH]; intros l Hin.
  - exists l. split; [reflexivity|]. simpl. rewrite app_nil_r. reflexivity.
  - destruct (round_at_end_of_input E l Hin) as (l1 & Hrun & Hin1 & _ & Hm1).
    destruct (IH l1 Hin1) as (l2 & Hrest & Hm2).
    exists l2. split.
    + cbn [rounds]. erewrite bind_ok; [|exact Hrun]. exact Hrest.
    + rewrite Hm2, Hm1, <- app_assoc. reflexivity.
Qed.

Lemma end_of_input_never_quits_witness :
  exists l',
    rounds calm 3 (midway calm None []) = (Ok StillRunning, l')
    /\ length (ChatHistory.messages (history l')) = 3.
Proof.
  destruct (end_of_input_never_quits calm 3 (midway calm None []) eq_refl) as (l' & Hrun & Hm).
  exists l'. split; [exact Hrun|].
  rewrite <- (length_map essence), Hm. reflexivity.
Defined.

(** ** What holds over any run of the loop *)

(** No exception leaves the loop: whatever the keyboard, the disk, the
    upload and the model do, any number of rounds ends in [/quit] or is
    still running. *)
Theorem loop_handles_every_error (E : Env) (n : nat) (l : Loop) :
  exists e l', rounds E n l = (Ok e, l').
Proof.
  destruct (rounds_spec E n l) as (e & l' & Hrun & _). exists e, l'. exact Hrun.
Qed.

(** The transcript is append-only: after any number of rounds, the messages
    that were there are still there, unchanged and in place, with the new
    ones after them; the session keeps its file. *)
Theorem transcript_is_append_only (E : Env) (n : nat) (l : Loop) :
  exists e l' extra,
    rounds E n l = (Ok e, l')
    /\ ChatHistory.messages (history l') = ChatHistory.messages (history l) ++ extra
    /\ ChatHistory.session_file (history l') = ChatHistory.session_file (history l).
Proof.
  destruct (rounds_spec E n l) as (e & l' & Hrun & [Hf _ (extra & Hm & _)]).
  exists e, l', extra. auto.
Qed.

(** In memory, [metadata["message_count"]] is the length of [messages] at
    every point of a chat, and the session's file is the one named after
    the moment the chat started. *)
Theorem count_in_step_throughout (E : Env) (model0 : string) (n : nat) (w : World) :
  exists e l w',
    chat_loop E model0 n w = (Ok (e, l), w')
    /\ ChatHistory.message_count (ChatHistory.metadata (history l))
       = length (ChatHistory.messages (history l))
    /\ ChatHistory.session_file (history l) = session_name (clock E (tick w)).
Proof.
  destruct (chat_setup_spec E model0 w) as (l0 & Hrun & _ & Hh & _).
  destruct (rounds_spec E n l0) as (e & l & Hr & [Hf Hc _]).
  exists e, l, (world l). unfold chat_loop, bind. rewrite Hrun, Hr.
  split; [reflexivity|]. rewrite Hh in Hf, Hc. split.
  - apply Hc. reflexivity.
  - rewrite Hf. reflexivity.
Qed.

(** * Further properties of the store *)

(** Two sessions get the same file exactly when they are made within the
    same second: the identifier drops the microseconds. *)
Theorem same_second_same_file (d1 d2 : datetime) :
  plausible d1 -> plausible d2 ->
  (session_name d1 = session_name d2 <->
   (year d1, month d1, day d1, hour d1, minute d1, second d1)
   = (year d2, month d2, day d2, hour d2, minute d2, second d2)).
Proof.
  intros Hp1 Hp2.
  assert (Hkey : session_name d1 = session_name d2 <-> seconds_key d1 = seconds_key d2).
  { rewrite <- Nat.compare_eq_iff, <- (compare_session_name d1 d2 Hp1 Hp2). split.
    - intros ->. apply string_compare_refl.
    - apply String.compare_eq_iff. }
  rewrite Hkey. unfold seconds_key.
  destruct Hp1 as (Hy1 & Hm1 & Hd1 & Hh1 & Hn1 & Hs1).
  destruct Hp2 as (Hy2 & Hm2 & Hd2 & Hh2 & Hn2 & Hs2).
  split.
  - intros Heq.
    assert (second d1 = second d2) by lia.
    assert (minute d1 = minute d2) by lia.
    assert (hour d1 = hour d2) by lia.
    assert (day d1 = day d2) by lia.
    assert (month d1 = month d2) by lia.
    assert (year d1 = year d2) by lia.
    congruence.
  - intros [= -> -> -> -> -> ->]. reflexivity.
Qed.

Lemma same_second_same_file_witness :
  session_name (at_second 7)
  = session_name {| year := 2025; month := 3; day := 9; hour := 14; minute := 30;
                    second := 7; microsecond := 250000 |}.
Proof.
  apply (same_second_same_file (at_second 7)
           {| year := 2025; month := 3; day := 9; hour := 14; minute := 30;
              second := 7; microsecond := 250000 |}).
  - unfold plausible. simpl. lia.
  - unfold plausible. simpl. lia.
  - reflexivity.
Defined.

(** [delete_session] never raises.  It answers [True] only for a file that
    was there and is gone afterwards, [False] leaves the directory as it
    was, and in both cases every other file is untouched. *)
Theorem delete_session_removes_only_its_file (E : Env) (path : string) (w : World) :
  exists ok w',
    ChatHistory.delete_session E path w = (Ok ok, w')
    /\ stdin w' = stdin w
    /\ (forall other, other <> path -> history_dir w' !! other = history_dir w !! other)
    /\ (if ok
        then is_Some (history_dir w !! path) /\ history_dir w' = delete path (history_dir w)
        else history_dir w' = history_dir w).
Proof.
  unfold ChatHistory.delete_session, except_Exception, try_except, bind, unlink, print, ret.
  destruct (history_dir w !! path) as [f|] eqn:Hf.
  - destruct (disk_unlink E (tick w) path) as [msg|].
    + exists false. eexists. split; [reflexivity|]. cbn. auto.
    + exists true. eexists. split; [reflexivity|]. cbn. split; [reflexivity|].
      split; [|eauto]. intros other Hne. apply lookup_delete_ne. congruence.
  - exists false. eexists. split; [reflexivity|]. cbn. auto.
Qed.

(** [load_session] never raises and changes nothing on disk.  It returns
    what a readable, well-formed file holds; for a file that is missing,
    unreadable or not well-formed it prints one error line and returns
    [None]. *)
Theorem load_session_never_raises (path : string) (w : World) :
  exists v w',
    ChatHistory.load_session path w = (Ok v, w')
    /\ history_dir w' = history_dir w
    /\ stdin w' = stdin w
    /\ match history_dir w !! path with
       | Some (Json data) => v = data /\ w' = w
       | _ => v = JNull
              /\ exists msg, w' = emit (Print ("Error loading session: " ++ msg)%string) w
       end.
Proof.
  unfold ChatHistory.load_session, except_Exception, try_except, read_json, bind, print, ret.
  destruct (history_dir w !! path) as [[data|text|]|];
    eexists _, _; (split; [reflexivity|]); cbn; eauto 10.
Qed.

(** * Further properties of the selectors *)

Lemma select_model_menu (w : World) :
  exists menu,
    for_each (fun e : nat * string =>
                print ("  " ++ pretty (fst e) ++ ". " ++ snd e
                       ++ (if (fst e =? 1)%nat then " (default)" else ""))%string)
             (enumerate 1 MODELS) w
    = (Ok tt, printed menu w).
Proof.
  eexists. unfold MODELS, enumerate, for_each, bind, print, ret, printed, emit.
  cbn [stdout history_dir history_dir_exists exports stdin sent tick].
  rewrite <- !app_assoc. reflexivity.
Qed.

Lemma chosen_model_listed (line : string) : In (chosen_model line) MODELS.
Proof.
  unfold chosen_model. destruct (Py.int (Py.strip line)) as [n|]; [|simpl; auto].
  destruct ((1 <=? n) && (n <=? Z.of_nat (length MODELS)))%Z eqn:Hr; [|simpl; auto].
  apply andb_true_iff in Hr as [H1 H2]. apply Z.leb_le in H1, H2. simpl in H2.
  assert (Hn : (n = 1 \/ n = 2 \/ n = 3 \/ n = 4 \/ n = 5 \/ n = 6)%Z) by lia.
  repeat (destruct Hn as [Hn|Hn]; [subst n; simpl; auto 10|]). subst n; simpl; auto 10.
Qed.

Lemma item_at_models (n : Z) :
  default "gemini-3-pro-preview"%string (item_at MODELS (n - 1))
  = if ((1 <=? n) && (n <=? Z.of_nat (length MODELS)))%Z
    then nth (Z.to_nat (n - 1)) MODELS "gemini-3-pro-preview"%string
    else "gemini-3-pro-preview"%string.
Proof.
  unfold item_at.
  destruct ((1 <=? n) && (n <=? Z.of_nat (length MODELS)))%Z eqn:Hr.
  - apply andb_true_iff in Hr as [H1 H2]. apply Z.leb_le in H1, H2. simpl in H2.
    assert (Hn : (n = 1 \/ n = 2 \/ n = 3 \/ n = 4 \/ n = 5 \/ n = 6)%Z) by lia.
    repeat (destruct Hn as [Hn|Hn]; [subst n; reflexivity|]). subst n; reflexivity.
  - destruct ((0 <=? n - 1) && (n - 1 <? Z.of_nat (length MODELS)))%Z eqn:Hr'; [|reflexivity].
    exfalso. apply andb_true_iff in Hr' as [H1 H2].
    apply Z.leb_le in H1. apply Z.ltb_lt in H2. simpl in H2.
    apply andb_false_iff in Hr as [Hr|Hr]; apply Z.leb_gt in Hr; simpl in Hr; lia.
Qed.

Lemma select_model_run (w : World) (line : string) (rest : list InputEvent) :
  stdin w = Line line :: rest ->
  exists w',
    select_model w = (Ok (chosen_model line), w')
    /\ In (chosen_model line) MODELS
    /\ stdin w' = rest
    /\ history_dir w' = history_dir w
    /\ history_dir_exists w' = history_dir_exists w
    /\ tick w' = tick w
    /\ sent w' = sent w.
Proof.
  intros Hin. unfold select_model.
  erewrite bind_ok; [|reflexivity].
  match goal with |- context [bind (for_each _ _) _ ?w0] =>
    destruct (select_model_menu w0) as [menu Hmenu] end.
  erewrite bind_ok; [|exact Hmenu].
  erewrite bind_ok; [|apply input_line; exact Hin].
  assert (Hlisted := chosen_model_listed line). revert Hlisted.
  unfold chosen_model.
  destruct (Py.strip line) as [|c r] eqn:Hs;
    [intros Hl; eexists; split; [reflexivity|]; cbn; auto 10|].
  cbn [Py.is_empty].
  destruct (Py.int (String c r)) as [n|];
    [|intros Hl; eexists; split; [reflexivity|]; cbn; auto 10].
  rewrite <- item_at_models.
  destruct (item_at MODELS (n - 1));
    intros Hl; eexists; (split; [reflexivity|]); cbn; auto 10.
Qed.

(** [select_model] reads one line and returns the model it selects: a
    number from 1 to 6 picks that model; a blank line, anything that is
    not a number and any number out of range give the first model.  The
    result is always one of [MODELS]. *)
Theorem select_model_picks_listed_model (w : World) (line : string) (rest : list InputEvent) :
  stdin w = Line line :: rest ->
  exists w',
    select_model w = (Ok (chosen_model line), w')
    /\ In (chosen_model line) MODELS
    /\ stdin w' = rest
    /\ history_dir w' = history_dir w
    /\ history_dir_exists w' = history_dir_exists w
    /\ tick w' = tick w
    /\ sent w' = sent w.
Proof.
  apply select_model_run.
Qed.

Lemma select_model_picks_listed_model_witness :
  exists w',
    select_model (fresh ["3"; "hello"]%string) = (Ok "gemini-2.5-flash"%string, w')
    /\ stdin w' = [Line "hello"].
Proof.
  destruct (select_model_picks_listed_model (fresh ["3"; "hello"]%string) "3" [Line "hello"]
              eq_refl)
    as (w' & Hrun & _ & Hin & _).
  exists w'. split; [exact Hrun|exact Hin].
Defined.

(** Digits grouped by an underscore are a number to [int()]: the line
    [0_2] selects the second model. *)
Example select_model_reads_grouped_digits :
  exists w',
    select_model (fresh ["0_2"; "hello"]%string) = (Ok "gemini-2.5-pro"%string, w')
    /\ nth 1 MODELS ""%string = "gemini-2.5-pro"%string
    /\ stdin w' = [Line "hello"].
Proof.
  eexists. split; [vm_compute; reflexivity|]. split; reflexivity.
Qed.

(** [select_file] returns a path only if [exists()] and [is_file()] both
    said yes to it, together with the MIME type of its suffix; a path of
    unknown type is returned only after the user answered [y]. *)
Theorem select_file_accepts_only_files
    (E : Env) (w w' : World) (path mime : string) :
  select_file E w = (Ok (Some (path, mime)), w') ->
  exists line rest,
    stdin w = Line line :: rest
    /\ path_expanduser E (typed_path line) = Ok path
    /\ path_exists E (tick w) path = Ok true
    /\ path_is_file E (S (tick w)) path = Ok true
    /\ mime = get_mime_type path
    /\ (mime = "application/octet-stream"%string ->
        exists answer rest', rest = Line answer :: rest'
                             /\ Py.lower (Py.strip answer) = "y"%string).
Proof.
  unfold select_file, print_header.
  do 5 (erewrite bind_ok; [|reflexivity]).
  unfold bind at 1. unfold input at 1. cbn [stdin emit].
  destruct (stdin w) as [|[line|] rest]; try discriminate.
  fold (typed_path line).
  destruct (Py.is_empty (typed_path line)); [discriminate|].
  unfold bind at 1.
  destruct (path_expanduser E (typed_path line)) as [p|e] eqn:Hexp; [|discriminate].
  unfold bind at 1. cbn [tick with_stdin emit].
  destruct (path_exists E (tick w) p) as [[|]|e] eqn:Hex;
    [|unfold bind, print, ret; discriminate|discriminate].
  cbn [negb]. unfold bind at 1. cbn [tick with_stdin emit bump].
  destruct (path_is_file E (S (tick w)) p) as [[|]|e] eqn:Hfile;
    [|unfold bind, print, ret; discriminate|discriminate].
  cbn [negb].
  destruct (get_mime_type p =? "application/octet-stream")%string eqn:Hmime.
  - unfold bind at 1. unfold print at 1. unfold bind at 1. unfold input at 1.
    cbn [stdin emit with_stdin bump].
    destruct rest as [|[answer|] rest']; try discriminate.
    destruct (Py.lower (Py.strip answer) =? "y")%string eqn:Hy; [|discriminate].
    cbn [negb]. unfold bind, print, ret. intros [= <- <- _].
    exists line, (Line answer :: rest'). repeat (split; [first [reflexivity|assumption]|]).
    intros _. exists answer, rest'. split; [reflexivity|]. apply String.eqb_eq, Hy.
  - unfold bind, print, ret. intros [= <- <- _].
    exists line, rest. repeat (split; [first [reflexivity|assumption]|]).
    intros Hm. apply String.eqb_neq in Hmime. contradiction.
Qed.

Lemma select_file_accepts_only_files_witness :
  exists line rest,
    stdin (fresh ["'photo.PNG'"]%string) = Line line :: rest
    /\ path_expanduser calm (typed_path line) = Ok "photo.PNG"%string
    /\ "image/png"%string = get_mime_type "photo.PNG".
Proof.
  destruct (select_file_accepts_only_files calm (fresh ["'photo.PNG'"]%string)
              (snd (select_file calm (fresh ["'photo.PNG'"]%string)))
              "photo.PNG" "image/png" eq_refl)
    as (line & rest & Hin & Hexp & _ & _ & Hm & _).
  exists line, rest. split; [exact Hin|]. split; [exact Hexp|exact Hm].
Defined.

(** * Further commands *)

Lemma saved_world_dir (E : Env) (self : ChatHistory.t) (w : World) :
  write_ok E w (ChatHistory.session_file self) = true ->
  history_dir (saved_world E self w)
  = <[ChatHistory.session_file self := Json (ChatHistory.record_json self)]> (history_dir w).
Proof.
  intros Hok. unfold saved_world.
  destruct (save_spec E self w) as (w' & -> & _ & _ & Hfile). exact (Hfile Hok).
Qed.

Lemma saved_world_exists (E : Env) (self : ChatHistory.t) (w : World) :
  history_dir_exists (saved_world E self w) = history_dir_exists w.
Proof.
  unfold saved_world, ChatHistory._save, except_Exception, try_except, write_json, print.
  destruct (history_dir_exists w) eqn:Hd; simpl; [|exact Hd].
  destruct (disk_write E (tick w) (ChatHistory.session_file self)); simpl; exact Hd.
Qed.

Lemma history_set_model_run (E : Env) (m : string) (l : Loop) :
  history_set_model E m l
  = (Ok tt, with_history (remodelled (history l) m)
              (with_world (saved_world E (remodelled (history l) m) (world l)) l)).
Proof.
  unfold history_set_model, bind, get, io, modify, ChatHistory.set_model, bind, ret.
  fold (remodelled (history l) m). rewrite save_run. reflexivity.
Qed.

(** [/model] reads the selection, makes it the model of the loop and of
    the session's metadata, and leaves the transcript and the attachment
    alone; the model is always one of [MODELS].  When the disk takes the
    write, the record on disk carries the new model. *)
Theorem model_command_switches_model
    (E : Env) (l : Loop) (cmdline choice : string) (rest : list InputEvent) :
  stdin (world l) = Line cmdline :: Line choice :: rest ->
  Py.lower (Py.strip cmdline) = "/model"%string ->
  exists l',
    round E l = (Ok Continue, l')
    /\ model l' = chosen_model choice
    /\ In (model l') MODELS
    /\ ChatHistory.model (ChatHistory.metadata (history l')) = Some (model l')
    /\ ChatHistory.messages (history l') = ChatHistory.messages (history l)
    /\ attached_file l' = attached_file l
    /\ stdin (world l') = rest
    /\ (write_ok E (world l) (ChatHistory.session_file (history l)) = true ->
        history_dir (world l') !! ChatHistory.session_file (history l')
        = Some (Json (ChatHistory.record_json (history l')))).
Proof.
  intros Hin Hcmd. enter_round Hin Hcmd.
  fold (after_prompt l (Line choice :: rest)).
  destruct (select_model_run
              (world (after_prompt l (Line choice :: rest))) choice rest eq_refl)
    as (w1 & Hsel & Hlisted & Hin1 & Hdir1 & Hex1 & Htick1 & _).
  erewrite bind_ok; [|apply io_run, Hsel].
  erewrite bind_ok; [|reflexivity].
  erewrite bind_ok; [|apply history_set_model_run].
  erewrite bind_ok; [|apply io_run; reflexivity].
  eexists (Build_Loop _ _ _ _ _). split; [reflexivity|].
  cbn [model history attached_file world with_model with_world with_history modify
       ChatHistory.model ChatHistory.metadata ChatHistory.messages ChatHistory.session_file
       after_prompt emit stdin history_dir remodelled].
  rewrite saved_world_stdin.
  repeat (split; [first [reflexivity | assumption]|]).
  intros Hok. rewrite saved_world_dir; [apply lookup_insert_eq|].
  unfold write_ok in *. rewrite Hex1, Htick1. exact Hok.
Qed.

Lemma model_command_switches_model_witness :
  exists l',
    round calm (midway calm None ["/model"; "2"; "hello"]%string) = (Ok Continue, l')
    /\ model l' = "gemini-2.5-pro"%string
    /\ stdin (world l') = [Line "hello"].
Proof.
  destruct (model_command_switches_model calm
              (midway calm None ["/model"; "2"; "hello"]%string)
              "/model" "2" [Line "hello"] eq_refl eq_refl)
    as (l' & Hrun & Hm & _ & _ & _ & _ & Hin & _).
  exists l'. auto.
Defined.

(** ** Attaching a file *)

Lemma select_file_known_file (E : Env) (w : World) (line path : string) rest :
  stdin w = Line line :: rest ->
  known_file E (tick w) line path ->
  exists w',
    select_file E w = (Ok (Some (path, get_mime_type path)), w')
    /\ stdin w' = rest /\ sent w' = sent w /\ history_dir w' = history_dir w
    /\ tick w' = 2 + tick w.
Proof.
  intros Hin (Hne & Hexp & Hex & Hfile & Hmime).
  apply String.eqb_neq in Hmime.
  unfold select_file, print_header.
  repeat (erewrite bind_ok; [|reflexivity]).
  erewrite bind_ok; [|apply input_line; exact Hin].
  fold (typed_path line). rewrite Hne.
  erewrite bind_ok; [|rewrite Hexp; reflexivity].
  erewrite bind_ok; [|cbn [tick with_stdin emit]; rewrite Hex; reflexivity].
  cbn [negb].
  erewrite bind_ok; [|cbn [tick with_stdin emit bump]; rewrite Hfile; reflexivity].
  cbn [negb]. rewrite Hmime.
  erewrite bind_ok; [|reflexivity].
  eexists. split; [reflexivity|]. cbn. auto.
Qed.

(** The round up to the upload of a [/file] command on a known file. *)
Lemma file_command_reaches_upload
    (E : Env) (l : Loop) (cmdline pathline path : string) (rest : list InputEvent) :
  stdin (world l) = Line cmdline :: Line pathline :: rest ->
  Py.lower (Py.strip cmdline) = "/file"%string ->
  known_file E (tick (world l)) pathline path ->
  exists l1,
    round E l
    = try_except
        (f <- io (upload_file E path (get_mime_type path)) ;;
         modify (with_attachment (Some f) (Some (path_name path))) ;;
         ret Continue)%py
        (fun e =>
           match e with
           | KeyboardInterrupt =>
               io (print "Use /quit to exit (saves chat history)") ;; ret Continue
           | Exception msg =>
               io (print ("[ERROR] " ++ msg)%string) ;;
               history_add_message E "system" ("Error: " ++ msg)%string false ;;
               ret Continue
           end)%py l1
    /\ history l1 = history l /\ attached_file l1 = attached_file l
    /\ attached_file_name l1 = attached_file_name l
    /\ stdin (world l1) = rest /\ sent (world l1) = sent (world l)
    /\ history_dir (world l1) = history_dir (world l)
    /\ tick (world l1) = 2 + tick (world l).
Proof.
  intros Hin Hcmd Hknown.
  destruct (select_file_known_file E (world (after_prompt l (Line pathline :: rest)))
              pathline path rest eq_refl Hknown)
    as (w1 & Hsel & Hin1 & Hsent1 & Hdir1 & Htick1).
  exists (with_world w1 (after_prompt l (Line pathline :: rest))).
  split; [|cbn; auto 10].
  unfold round at 1. unfold try_except, round_body.
  rewrite (bind_ok get _ l l l eq_refl).
  erewrite bind_ok; [|apply io_run, input_line, Hin].
  rewrite (command_not_blank _ _ Hcmd) by discriminate.
  rewrite Hcmd. cbn [String.eqb Ascii.eqb Bool.eqb].
  fold (after_prompt l (Line pathline :: rest)).
  erewrite bind_ok; [|apply io_run, Hsel].
  reflexivity.
Qed.

(** [/file] on an existing regular file of a known type, when the upload
    succeeds: the uploaded handle is staged under the file's name, in place
    of any attachment staged before; no message is appended and nothing is
    sent to the model. *)
Theorem file_command_stages_upload
    (E : Env) (l : Loop) (cmdline pathline path : string) (rest : list InputEvent)
    (f : FileHandle) :
  stdin (world l) = Line cmdline :: Line pathline :: rest ->
  Py.lower (Py.strip cmdline) = "/file"%string ->
  known_file E (tick (world l)) pathline path ->
  files_upload E (2 + tick (world l)) path (get_mime_type path) = Ok f ->
  exists l',
    round E l = (Ok Continue, l')
    /\ attached_file l' = Some f
    /\ attached_file_name l' = Some (path_name path)
    /\ history l' = history l
    /\ stdin (world l') = rest
    /\ sent (world l') = sent (world l).
Proof.
  intros Hin Hcmd Hknown Hup.
  destruct (file_command_reaches_upload E l cmdline pathline path rest Hin Hcmd Hknown)
    as (l1 & -> & Hh & _ & _ & Hin1 & Hsent1 & _ & Htick1).
  unfold try_except.
  erewrite bind_ok;
    [|apply io_run; unfold upload_file;
      erewrite bind_ok; [|reflexivity];
      erewrite bind_ok; [|cbn [tick emit]; rewrite Htick1, Hup; reflexivity];
      erewrite bind_ok; reflexivity].
  eexists (Build_Loop _ _ _ _ _). split; [reflexivity|]. cbn. auto 10.
Qed.

Lemma file_command_stages_upload_witness :
  exists l',
    round calm (midway calm (Some "files/old.png"%string) ["/file"; "new.PNG"; "hello"]%string)
      = (Ok Continue, l')
    /\ attached_file l' = Some "files/new.PNG"%string
    /\ attached_file_name l' = Some "new.PNG"%string
    /\ stdin (world l') = [Line "hello"].
Proof.
  assert (Hknown : known_file calm 0 "new.PNG" "new.PNG").
  { unfold known_file. repeat (split; [reflexivity|]). discriminate. }
  destruct (file_command_stages_upload calm
              (midway calm (Some "files/old.png"%string) ["/file"; "new.PNG"; "hello"]%string)
              "/file" "new.PNG" "new.PNG" [Line "hello"] "files/new.PNG"
              eq_refl eq_refl Hknown eq_refl)
    as (l' & Hrun & Ha & Hn & _ & Hin & _).
  exists l'. auto.
Defined.

(** [/file] when the upload raises: the error is recorded as a system
    message and the attachment staged before, if any, stays as it was. *)
Theorem file_command_upload_failure_keeps_attachment
    (E : Env) (l : Loop) (cmdline pathline path msg : string) (rest : list InputEvent) :
  stdin (world l) = Line cmdline :: Line pathline :: rest ->
  Py.lower (Py.strip cmdline) = "/file"%string ->
  known_file E (tick (world l)) pathline path ->
  files_upload E (2 + tick (world l)) path (get_mime_type path) = Raise (Exception msg) ->
  exists l',
    round E l = (Ok Continue, l')
    /\ attached_file l' = attached_file l
    /\ attached_file_name l' = attached_file_name l
    /\ map essence (ChatHistory.messages (history l'))
       = map essence (ChatHistory.messages (history l))
         ++ [("system"%string, ("Error: " ++ msg)%string, false)]
    /\ stdin (world l') = rest.
Proof.
  intros Hin Hcmd Hknown Hup.
  destruct (file_command_reaches_upload E l cmdline pathline path rest Hin Hcmd Hknown)
    as (l1 & -> & Hh & Ha & Hn & Hin1 & _ & _ & Htick1).
  unfold try_except.
  erewrite bind_raise;
    [|apply io_run; unfold upload_file;
      erewrite bind_ok; [|reflexivity];
      erewrite bind_raise; [reflexivity|];
      cbn [tick emit]; rewrite Htick1, Hup; reflexivity].
  cbv beta iota.
  erewrite bind_ok; [|apply io_run; reflexivity].
  erewrite bind_ok; [|apply history_add_message_run].
  eexists (Build_Loop _ _ _ _ _). split; [reflexivity|].
  cbn [attached_file attached_file_name history world with_history with_world].
  rewrite saved_world_stdin. cbn [stdin bump emit]. rewrite Hh.
  cbn [grown ChatHistory.messages]. rewrite map_app. auto.
Qed.

Lemma file_command_upload_failure_keeps_attachment_witness :
  exists l',
    round jammed (midway jammed (Some "files/old.png"%string) ["/file"; "big.mp4"]%string)
      = (Ok Continue, l')
    /\ attached_file l' = Some "files/old.png"%string
    /\ map essence (ChatHistory.messages (history l'))
       = [("system", "Error: 413 Payload Too Large", false)]%string.
Proof.
  assert (Hknown : known_file jammed 0 "big.mp4" "big.mp4").
  { unfold known_file. repeat (split; [reflexivity|]). discriminate. }
  destruct (file_command_upload_failure_keeps_attachment jammed
              (midway jammed (Some "files/old.png"%string) ["/file"; "big.mp4"]%string)
              "/file" "big.mp4" "big.mp4" "413 Payload Too Large" []
              eq_refl eq_refl Hknown eq_refl)
    as (l' & Hrun & Ha & _ & Hm & _).
  exists l'. auto.
Defined.

(** [/file] followed by an empty path (a blank line, or quotes only): the
    selector gives up before asking the file system anything, and the round
    ends with attachment, session and requests as they were. *)
Theorem file_command_on_empty_path_asks_nothing
    (E : Env) (l : Loop) (cmdline pathline : string) (rest : list InputEvent) :
  stdin (world l) = Line cmdline :: Line pathline :: rest ->
  Py.lower (Py.strip cmdline) = "/file"%string ->
  Py.is_empty (typed_path pathline) = true ->
  exists l',
    round E l = (Ok Continue, l')
    /\ attached_file l' = attached_file l
    /\ attached_file_name l' = attached_file_name l
    /\ history l' = history l
    /\ stdin (world l') = rest
    /\ sent (world l') = sent (world l)
    /\ tick (world l') = tick (world l).
Proof.
  intros Hin Hcmd Hempty. enter_round Hin Hcmd.
  erewrite bind_ok;
    [|apply io_run; unfold select_file, print_header;
      do 5 (erewrite bind_ok; [|reflexivity]);
      erewrite bind_ok; [|apply input_line; reflexivity];
      fold (typed_path pathline); rewrite Hempty; reflexivity].
  eexists (Build_Loop _ _ _ _ _). split; [reflexivity|]. cbn. auto 10.
Qed.

Lemma file_command_on_empty_path_asks_nothing_witness :
  exists l',
    round barren (midway barren None ["/file"; "  ''  "; "hello"]%string) = (Ok Continue, l')
    /\ attached_file l' = None
    /\ stdin (world l') = [Line "hello"]
    /\ tick (world l') = 0.
Proof.
  destruct (file_command_on_empty_path_asks_nothing barren
              (midway barren None ["/file"; "  ''  "; "hello"]%string)
              "/file" "  ''  " [Line "hello"] eq_refl eq_refl eq_refl)
    as (l' & Hrun & Ha & _ & _ & Hin & _ & Ht).
  exists l'. auto.
Defined.

(** * Further properties of sending *)

(** An attachment goes out once: after a send that the model answered,
    the next plain message is sent without it and recorded unflagged. *)
Theorem attachment_goes_out_once
    (E : Env) (l : Loop) (a b : string) (rest : list InputEvent) (f : FileHandle)
    (text : string) :
  stdin (world l) = Line a :: Line b :: rest ->
  plain_message a = true ->
  plain_message b = true ->
  attached_file l = Some f ->
  models_generate_content E (2 + tick (world l)) (model l) [PFile f; PText (Py.strip a)]
    = Ok text ->
  exists l1 l2 u1 r1 u2 after,
    round E l = (Ok Continue, l1)
    /\ round E l1 = (Ok Continue, l2)
    /\ map req_contents (sent (world l2))
       = map req_contents (sent (world l))
         ++ [[PFile f; PText (Py.strip a)]; [PText (Py.strip b)]]
    /\ ChatHistory.messages (history l2)
       = ChatHistory.messages (history l) ++ u1 :: r1 :: u2 :: after
    /\ essence u1 = ("user"%string, Py.strip a, true)
    /\ essence u2 = ("user"%string, Py.strip b, false).
Proof.
  intros Hin Ha Hb Hatt Hgen.
  destruct (round_plain E l a (Line b :: rest) Hin Ha) as (l1 & Hrun1 & Hin1 & Hsent1 & Hout1).
  rewrite Hatt in Hout1, Hsent1. cbn [outbound app bool_of] in Hout1, Hsent1.
  rewrite Hgen in Hout1. destruct Hout1 as [Hm1 Hnone].
  destruct (user_message_recorded_with E l1 b rest Hin1 Hb)
    as (l2 & u2 & after & Hrun2 & Hm2 & He2 & Hsent2).
  rewrite Hnone in He2, Hsent2. cbn [outbound app bool_of] in He2, Hsent2.
  eexists l1, l2, _, _, u2, after.
  split; [exact Hrun1|]. split; [exact Hrun2|]. split.
  - rewrite Hsent2, Hsent1, !map_app, <- app_assoc. reflexivity.
  - split; [rewrite Hm2, Hm1, <- app_assoc; reflexivity|]. split; [reflexivity|exact He2].
Qed.

Lemma attachment_goes_out_once_witness :
  exists l1 l2,
    round calm (midway calm (Some "files/photo.png"%string) ["look"; "and now?"]%string)
      = (Ok Continue, l1)
    /\ round calm l1 = (Ok Continue, l2)
    /\ map req_contents (sent (world l2))
       = [[PFile "files/photo.png"; PText "look"]; [PText "and now?"]]%string.
Proof.
  destruct (attachment_goes_out_once calm
              (midway calm (Some "files/photo.png"%string) ["look"; "and now?"]%string)
              "look" "and now?" [] "files/photo.png" "hi"
              eq_refl eq_refl eq_refl eq_refl eq_refl)
    as (l1 & l2 & u1 & r1 & u2 & after & H1 & H2 & Hs & _).
  exists l1, l2. auto.
Defined.

(** ** The record on disk after a send *)

#[local] Instance keeps_step_refl : Reflexive keeps_step.
Proof. intros l Hr. auto. Qed.

#[local] Instance keeps_step_trans : Transitive keeps_step.
Proof.
  intros l1 l2 l3 H12 H23 Hr. destruct (H12 Hr) as [Hr2 Hs2].
  destruct (H23 Hr2) as [Hr3 Hs3]. auto.
Qed.

Lemma gets_then_keeps {A B} (c : M Loop A) (k : A -> M Loop B) :
  steady gets_in_step c -> (forall a, steady keeps_step (k a)) ->
  steady gets_in_step (bind c k).
Proof.
  intros Hc Hk l Hr. unfold bind. specialize (Hc l Hr).
  destruct (c l) as [[a|e] l1]; cbn in *; [|exact Hc].
  destruct Hc as [Hr1 Hs1]. destruct (Hk a l1 Hr1) as [Hr2 Hs2]. auto.
Qed.

Lemma gets_try_except {A} (body : M Loop A) handler :
  steady gets_in_step body -> (forall e, steady keeps_step (handler e)) ->
  steady gets_in_step (try_except body handler).
Proof.
  intros Hb Hh l Hr. unfold try_except. specialize (Hb l Hr).
  destruct (body l) as [[a|e] l1]; cbn in *; [exact Hb|].
  destruct Hb as [Hr1 Hs1]. destruct (Hh e l1 Hr1) as [Hr2 Hs2]. auto.
Qed.

Section WriteThrough.

Variable E : Env.
Hypothesis disk_works : forall n path, disk_write E n path = Written.

Lemma add_message_gets_in_step role content has_file :
  steady gets_in_step (history_add_message E role content has_file).
Proof.
  intros l Hr. rewrite history_add_message_run. cbn [snd].
  unfold dir_ready, in_step in *.
  cbn [world history with_history with_world grown ChatHistory.session_file].
  assert (Hok : write_ok E (bump (world l)) (ChatHistory.session_file (history l)) = true).
  { unfold write_ok. cbn [history_dir_exists bump tick]. rewrite Hr, disk_works. reflexivity. }
  split.
  - rewrite saved_world_exists. exact Hr.
  - rewrite saved_world_dir; [apply lookup_insert_eq|exact Hok].
Qed.

Lemma add_message_keeps_step role content has_file :
  steady keeps_step (history_add_message E role content has_file).
Proof.
  intros l Hr. destruct (add_message_gets_in_step role content has_file l Hr). auto.
Qed.

Lemma world_keeps_step {A} (c : M World A) :
  (forall w, history_dir (snd (c w)) = history_dir w
             /\ history_dir_exists (snd (c w)) = history_dir_exists w) ->
  steady keeps_step (io c).
Proof.
  intros Hc l Hr. unfold io. specialize (Hc (world l)).
  destruct (c (world l)) as [r w]. cbn in *. destruct Hc as [Hd He].
  unfold dir_ready, in_step in *. cbn. rewrite Hd, He. auto.
Qed.

Lemma print_keeps_step s : steady keeps_step (io (print s)).
Proof. apply world_keeps_step. intros w. split; reflexivity. Qed.

Lemma generate_keeps_step m contents : steady keeps_step (io (generate_content E m contents)).
Proof. apply world_keeps_step. intros w. split; reflexivity. Qed.

Lemma round_on_plain_message (l : Loop) (line : string) (rest : list InputEvent) :
  stdin (world l) = Line line :: rest ->
  plain_message line = true ->
  gets_in_step (after_prompt l rest) (snd (round E l)).
Proof.
  intros Hin Hplain.
  assert (Hround : round E l
          = try_except
              (let contents := outbound (attached_file l) (Py.strip line) in
               history_add_message E "user" (Py.strip line) (bool_of (attached_file l)) ;;
               io (print "OTP: ") ;;
               response_text <- io (generate_content E (model l) contents) ;;
               io (print response_text) ;;
               history_add_message E "assistant" response_text false ;;
               match attached_file l with
               | Some _ =>
                   modify (with_attachment None None) ;;
                   io (print "[attachment cleared]") ;;
                   ret Continue
               | None => ret Continue
               end)%py
              (fun e =>
                 match e with
                 | KeyboardInterrupt =>
                     io (print "Use /quit to exit (saves chat history)") ;; ret Continue
                 | Exception msg =>
                     io (print ("[ERROR] " ++ msg)%string) ;;
                     history_add_message E "system" ("Error: " ++ msg)%string false ;;
                     ret Continue
                 end)%py
              (after_prompt l rest)).
  { unfold round, try_except. rewrite (round_body_plain E l line rest Hin Hplain). reflexivity. }
  rewrite Hround. apply gets_try_except.
  - cbv zeta. apply gets_then_keeps; [apply add_message_gets_in_step|intros _].
    apply (steady_bind keeps_step); [apply print_keeps_step|intros _].
    apply (steady_bind keeps_step); [apply generate_keeps_step|intros text].
    apply (steady_bind keeps_step); [apply print_keeps_step|intros _].
    apply (steady_bind keeps_step); [apply add_message_keeps_step|intros _].
    destruct (attached_file l); [|apply (steady_ret keeps_step)].
    apply (steady_bind keeps_step); [|intros _].
    + apply (steady_modify keeps_step). intros l0 Hr. auto.
    + apply (steady_bind keeps_step);
        [apply print_keeps_step|intros _; apply (steady_ret keeps_step)].
  - intros [|msg].
    + apply (steady_bind keeps_step);
        [apply print_keeps_step|intros _; apply (steady_ret keeps_step)].
    + apply (steady_bind keeps_step); [apply print_keeps_step|intros _].
      apply (steady_bind keeps_step); [apply add_message_keeps_step|intros _].
      apply (steady_ret keeps_step).
Qed.

End WriteThrough.

(** Write-through: on a working disk, after a plain message was handled
    the session's file holds exactly the transcript in memory, whether the
    model replied, the call failed or it was interrupted. *)
Theorem send_leaves_disk_in_step
    (E : Env) (l : Loop) (line : string) (rest : list InputEvent) :
  (forall n path, disk_write E n path = Written) ->
  history_dir_exists (world l) = true ->
  stdin (world l) = Line line :: rest ->
  plain_message line = true ->
  exists l',
    round E l = (Ok Continue, l')
    /\ history_dir (world l') !! ChatHistory.session_file (history l')
       = Some (Json (ChatHistory.record_json (history l'))).
Proof.
  intros Hdisk Hready Hin Hplain.
  destruct (round_plain E l line rest Hin Hplain) as (l' & Hrun & _).
  exists l'. split; [exact Hrun|].
  pose proof (round_on_plain_message E Hdisk l line rest Hin Hplain) as Hstep.
  rewrite Hrun in Hstep. apply Hstep. exact Hready.
Qed.

Lemma send_leaves_disk_in_step_witness :
  exists l',
    round offline (midway offline None ["hello"]%string) = (Ok Continue, l')
    /\ history_dir (world l') !! ChatHistory.session_file (history l')
       = Some (Json (ChatHistory.record_json (history l'))).
Proof.
  exact (send_leaves_disk_in_step offline (midway offline None ["hello"]%string) "hello" []
           (fun _ _ => eq_refl) eq_refl eq_refl eq_refl).
Defined.

(** * Further properties of the export *)

Lemma newlines_app (a b : string) : newlines (a ++ b)%string = newlines a + newlines b.
Proof.
  induction a as [|c a IH]; [reflexivity|].
  rewrite string_app_cons. cbn [newlines]. rewrite IH. lia.
Qed.

Lemma file_text_app (a b : list string) :
  file_text (a ++ b) = (file_text a ++ file_text b)%string.
Proof.
  induction a as [|x a IH]; [reflexivity|].
  cbn [app file_text fold_right]. fold (file_text (a ++ b)). fold (file_text a).
  rewrite IH. symmetry. apply string_app_assoc.
Qed.

Lemma string_app_nil_r (s : string) : (s ++ "")%string = s.
Proof. induction s as [|c s IH]; [reflexivity|]. rewrite string_app_cons, IH. reflexivity. Qed.

Lemma newlines_newline : newlines newline = 1.
Proof. reflexivity. Qed.

(** Pieces of at least three lines each make at least three lines each. *)
Lemma newlines_flat_map {A} (pieces : A -> list string) (l : list A) :
  (forall a, 3 <= newlines (file_text (pieces a))) ->
  3 * length l <= newlines (file_text (flat_map pieces l)).
Proof.
  intros Hall. induction l as [|a l IH]; [cbn; lia|].
  cbn [flat_map length]. rewrite file_text_app, newlines_app.
  specialize (Hall a). lia.
Qed.

(** [export_history] never raises and touches neither the history
    directory nor the keyboard or the requests: a failed write only prints
    an error. *)
Theorem export_leaves_history_alone (E : Env) (h : ChatHistory.t) (w : World) :
  exists w',
    export_history E h w = (Ok tt, w')
    /\ history_dir w' = history_dir w
    /\ stdin w' = stdin w
    /\ sent w' = sent w.
Proof.
  unfold export_history, except_Exception, try_except, bind, write_export, print.
  destruct (disk_write E (tick w) _) as [|msg|msg partial];
    eexists; (split; [reflexivity|]); cbn; auto.
Qed.

(** When the write goes through, the export file holds the transcript in
    full and in order: after the nine lines of the heading, every message
    has its block, made of the heading line (time to the second and
    upper-cased role), the whole content and an empty line.  The file has
    at least nine lines and three more for every message, and the block
    of message [i] comes after at least [9 + 3 * i] lines. *)
Theorem export_holds_whole_transcript (E : Env) (h : ChatHistory.t) (w : World) :
  disk_write E (tick w) ("export_" ++ ChatHistory.session_id h ++ ".txt")%string = Written ->
  exists w' text,
    export_history E h w = (Ok tt, w')
    /\ exports w' !! ("export_" ++ ChatHistory.session_id h ++ ".txt")%string = Some text
    /\ 9 + 3 * length (ChatHistory.messages h) <= newlines text
    /\ forall i msg,
         ChatHistory.messages h !! i = Some msg ->
         exists before after,
           text = (before
                   ++ (export_heading msg ++ newline
                       ++ ChatHistory.content msg ++ newline ++ newline)
                   ++ after)%string
           /\ 9 + 3 * i <= newlines before.
Proof.
  intros Hw.
  unfold export_history, except_Exception, try_except, bind, write_export, print.
  rewrite Hw. eexists _, (file_text (export_writes h)). split; [reflexivity|].
  split; [cbn; apply lookup_insert_eq|].
  unfold export_writes. rewrite file_text_app.
  set (head := file_text _).
  assert (Hhead : 9 <= newlines head).
  { unfold head. cbn [file_text fold_right]. rewrite !newlines_app.
    rewrite !newlines_newline. lia. }
  set (block := fun msg : ChatHistory.Message => _).
  assert (Hblocks : forall l, 3 * length l <= newlines (file_text (flat_map block l))).
  { intros l. apply newlines_flat_map. intros msg. unfold block.
    cbn [file_text fold_right]. rewrite !newlines_app, !newlines_newline. lia. }
  split.
  - rewrite newlines_app. specialize (Hblocks (ChatHistory.messages h)). lia.
  - intros i msg Hi.
    exists (head ++ file_text (flat_map block (take i (ChatHistory.messages h))))%string,
           (file_text (flat_map block (drop (S i) (ChatHistory.messages h)))).
    split.
    + rewrite <- (take_drop_middle _ _ _ Hi) at 1.
      rewrite flat_map_app. cbn [flat_map]. rewrite !file_text_app.
      replace (file_text (block msg))
        with (export_heading msg +:+ newline
              +:+ ChatHistory.content msg +:+ newline +:+ newline)%string.
      * rewrite !string_app_assoc. reflexivity.
      * unfold block, export_heading. cbn [file_text fold_right].
        rewrite string_app_nil_r, !string_app_assoc. reflexivity.
    + rewrite newlines_app. specialize (Hblocks (take i (ChatHistory.messages h))).
      rewrite length_take in Hblocks. apply lookup_lt_Some in Hi. lia.
Qed.

Lemma export_holds_whole_transcript_witness :
  exists w' text,
    export_history calm
      (grown (first_session calm "gemini-2.5-pro" 0)
             (new_message (at_second 3) "user" "hello" false))
      (fresh []) = (Ok tt, w')
    /\ exports w' !! "export_20250309_143000.txt"%string = Some text
    /\ 12 <= newlines text.
Proof.
  destruct (export_holds_whole_transcript calm
              (grown (first_session calm "gemini-2.5-pro" 0)
                     (new_message (at_second 3) "user" "hello" false))
              (fresh []) eq_refl)
    as (w' & text & Hrun & Hf & Hlen & _).
  exists w', text. auto.
Defined.

(** The export of a chat of one message, as it is on disk. *)
Example export_of_one_message :
  exists w',
    export_history calm
      (grown (first_session calm "gemini-2.5-pro" 0)
             (new_message (at_second 3) "user" "hello" false))
      (fresh []) = (Ok tt, w')
    /\ exports w' !! "export_20250309_143000.txt"%string
       = Some ("Origami Thought Protocol - Chat Export" ++ newline
               ++ "========================================" ++ newline
               ++ newline
               ++ "Session: 20250309_143000" ++ newline
               ++ "Model: gemini-2.5-pro" ++ newline
               ++ "Created: 2025-03-09T14:30:01" ++ newline
               ++ newline
               ++ "----------------------------------------" ++ newline
               ++ newline
               ++ "[2025-03-09 14:30:03] USER:" ++ newline
               ++ "hello" ++ newline
               ++ newline)%string.
Proof.
  eexists. split; [vm_compute; reflexivity|]. vm_compute. reflexivity.
Qed.

(** * Further properties of the history browser *)

(** [view_history] up to its menu: with sessions to list, it lists them,
    reads one line and goes on as that line says. *)
Lemma view_history_to_menu (E : Env) (w : World) (sessions : list string) line rest :
  ChatHistory.list_sessions w = (Ok sessions, w) ->
  sessions <> [] ->
  Forall (listable (history_dir w)) (firstn 10 sessions) ->
  stdin w = Line line :: rest ->
  exists w1,
    view_history E w = after_choice E sessions line w1
    /\ stdin w1 = rest
    /\ same_disk w w1.
Proof.
  intros Hls Hne Hall Hin.
  unfold view_history, print_header.
  erewrite bind_ok; [|reflexivity].
  erewrite bind_ok; [|apply (list_sessions_elsewhere w _ sessions Hls); reflexivity].
  destruct sessions as [|s0 sessions']; [congruence|].
  erewrite bind_ok; [|reflexivity].
  match goal with |- context [bind (for_each list_entry ?es) _ ?w0] =>
    destruct (listing_loop_spec es w0) as (lines & Hloop & Hlines);
      [apply Forall_enumerate; exact Hall|] end.
  erewrite bind_ok; [|exact Hloop].
  repeat (erewrite bind_ok; [|reflexivity]).
  erewrite bind_ok; [|apply input_line; exact Hin].
  eexists. split; [reflexivity|]. unfold same_disk. cbn. auto.
Qed.

(** With nothing to list, [view_history] says so and returns without
    reading a line or touching anything. *)
Theorem empty_history_reads_no_input (E : Env) (w : World) :
  (forall name, is_Some (history_dir w !! name) -> ChatHistory.glob_chat name = false) ->
  view_history E w
  = (Ok tt, printed [ Print "[ CHAT HISTORY ]"; Print "----------------------------------------";
                      Print "No saved conversations found." ] w).
Proof.
  intros Hnone.
  assert (Hls : ChatHistory.list_sessions w = (Ok [], w)).
  { unfold ChatHistory.list_sessions.
    destruct (negb (history_dir_exists w)); [reflexivity|].
    assert (Hf : filter (fun n => ChatHistory.glob_chat n = true)
                        (map_to_list (history_dir w)).*1 = []).
    { apply elem_of_nil_inv. intros name Hin.
      apply list_elem_of_filter in Hin as [Hg Hin].
      apply list_elem_of_fmap in Hin as ([k v] & -> & Hin).
      apply elem_of_map_to_list in Hin.
      cbn [fst] in Hg. rewrite (Hnone k) in Hg; [discriminate|eauto]. }
    cbv zeta. rewrite Hf. reflexivity. }
  unfold view_history, print_header.
  erewrite bind_ok; [|reflexivity].
  erewrite bind_ok; [|apply (list_sessions_elsewhere w _ [] Hls); reflexivity].
  unfold print, printed, emit. cbn. rewrite <- !app_assoc. reflexivity.
Qed.

Lemma empty_history_reads_no_input_witness :
  stdin (snd (view_history calm (fresh ["hello"]%string))) = [Line "hello"].
Proof.
  rewrite (empty_history_reads_no_input calm (fresh ["hello"]%string)).
  - reflexivity.
  - intros name [f Hf]. unfold fresh in Hf. cbn [history_dir] in Hf.
    rewrite lookup_empty in Hf. discriminate.
Defined.

Lemma delete_session_run (E : Env) (path : string) (w : World) :
  (is_Some (history_dir w !! path) /\ disk_unlink E (tick w) path = None
   /\ ChatHistory.delete_session E path w
      = (Ok true, bump (with_history_dir (delete path) w)))
  \/ ((history_dir w !! path = None \/ exists msg, disk_unlink E (tick w) path = Some msg)
      /\ exists msg,
           ChatHistory.delete_session E path w
           = (Ok false, emit (Print ("Error deleting session: " ++ msg)%string) (bump w))).
Proof.
  unfold ChatHistory.delete_session, except_Exception, try_except, bind, unlink, print, ret.
  destruct (history_dir w !! path) as [f|] eqn:Hf.
  - destruct (disk_unlink E (tick w) path) as [msg|] eqn:Hu.
    + right. split; [right; eauto|]. eexists. reflexivity.
    + left. split; [eauto|]. split; reflexivity.
  - right. split; [left; reflexivity|]. eexists. reflexivity.
Qed.

(** Deleting the files [names] one after the other, when no removal is
    refused: afterwards none of them is there and all others are as before. *)
Lemma delete_all_spec (E : Env) (names : list string) :
  (forall n path, disk_unlink E n path = None) ->
  forall w,
  exists w',
    for_each (fun session => ChatHistory.delete_session E session ;; ret tt)%py names w
    = (Ok tt, w')
    /\ stdin w' = stdin w
    /\ history_dir_exists w' = history_dir_exists w
    /\ forall name,
         history_dir w' !! name
         = if decide (name ∈ names) then None else history_dir w !! name.
Proof.
  intros Hunlink. induction names as [|path names IH]; intros w.
  - exists w. split; [reflexivity|]. split; [reflexivity|]. split; [reflexivity|].
    intros name. destruct (decide (name ∈ [])) as [Hin|]; [|reflexivity].
    apply not_elem_of_nil in Hin. contradiction.
  - assert (Hone : exists w1,
               ChatHistory.delete_session E path w = (Ok (bool_decide (is_Some (history_dir w !! path))), w1)
               /\ stdin w1 = stdin w
               /\ history_dir_exists w1 = history_dir_exists w
               /\ history_dir w1 = delete path (history_dir w)).
    { destruct (delete_session_run E path w) as [(Hsome & _ & Hrun)|([Hnone|[msg Hmsg]] & msg' & Hrun)].
      - eexists. rewrite Hrun. rewrite bool_decide_eq_true_2 by exact Hsome.
        split; [reflexivity|]. cbn. auto.
      - eexists. rewrite Hrun, Hnone.
        split; [reflexivity|]. cbn. repeat (split; [reflexivity|]).
        symmetry. apply delete_id. exact Hnone.
      - rewrite Hunlink in Hmsg. discriminate. }
    destruct Hone as (w1 & Hrun1 & Hin1 & Hex1 & Hdir1).
    destruct (IH w1) as (w' & Hrest & Hin' & Hex' & Hdir').
    exists w'. split.
    + cbn [for_each]. erewrite bind_ok; [exact Hrest|].
      erewrite bind_ok; [reflexivity|exact Hrun1].
    + split; [congruence|]. split; [congruence|].
      intros name. rewrite Hdir', Hdir1.
      destruct (decide (name ∈ names)) as [Hn|Hn].
      * rewrite decide_True by (right; exact Hn). reflexivity.
      * destruct (decide (name = path)) as [->|Hne].
        -- rewrite decide_True by left. apply lookup_delete_eq.
        -- rewrite decide_False by (intros Hc; apply elem_of_cons in Hc as [?|?]; contradiction).
           apply lookup_delete_ne. congruence.
Qed.

(** Clearing all history: with at least one session listed, the user
    enters [c] and confirms with [y].  When no removal is refused, every
    session file is deleted, the files that are no sessions are untouched,
    and a listing afterwards is empty. *)
Theorem clear_all_empties_the_listing
    (E : Env) (w : World) (choice confirm some_session : string) (rest : list InputEvent) :
  (forall n path, disk_unlink E n path = None) ->
  history_dir_exists w = true ->
  only_sessions_parse (history_dir w) ->
  is_Some (history_dir w !! some_session) ->
  ChatHistory.glob_chat some_session = true ->
  stdin w = Line choice :: Line confirm :: rest ->
  Py.lower (Py.strip choice) = "c"%string ->
  Py.lower (Py.strip confirm) = "y"%string ->
  exists w',
    view_history E w = (Ok tt, w')
    /\ ChatHistory.list_sessions w' = (Ok [], w')
    /\ stdin w' = rest
    /\ (forall name, ChatHistory.glob_chat name = true -> history_dir w' !! name = None)
    /\ (forall name, ChatHistory.glob_chat name = false ->
                     history_dir w' !! name = history_dir w !! name).
Proof.
  intros Hunlink Hd Hparse Hsome Hglob0 Hin Hc Hy.
  destruct (list_sessions_spec w Hd) as (sessions & Hls & Hmem & _ & _).
  assert (Hne : sessions <> []).
  { intros ->. assert (Hin0 : some_session ∈ @nil string) by (apply Hmem; auto).
    apply not_elem_of_nil in Hin0. exact Hin0. }
  assert (Hall : Forall (listable (history_dir w)) (firstn 10 sessions)).
  { apply Forall_forall. intros path _. apply only_sessions_parse_listable, Hparse. }
  destruct (view_history_to_menu E w sessions choice (Line confirm :: rest) Hls Hne Hall Hin)
    as (w1 & Hview & Hin1 & Hdir1 & Hex1 & _).
  rewrite Hview. unfold after_choice. cbv zeta. rewrite Hc.
  cbn [String.eqb Ascii.eqb Bool.eqb orb].
  erewrite bind_ok; [|apply input_line; exact Hin1].
  rewrite Hy. cbn [String.eqb Ascii.eqb Bool.eqb].
  match goal with |- context [bind (for_each _ sessions) _ ?w2] =>
    destruct (delete_all_spec E sessions Hunlink w2) as (w3 & Hdel & Hin3 & Hex3 & Hdir3) end.
  erewrite bind_ok; [|exact Hdel].
  eexists. split; [reflexivity|].
  cbn [print emit with_stdin history_dir history_dir_exists stdin] in *.
  assert (Hglob : forall name, ChatHistory.glob_chat name = true -> history_dir w3 !! name = None).
  { intros name Hg. rewrite Hdir3, Hdir1.
    destruct (decide (name ∈ sessions)) as [|Hn]; [reflexivity|].
    destruct (history_dir w !! name) eqn:Hf; [|reflexivity].
    exfalso. apply Hn, Hmem. eauto. }
  split; [|split; [exact Hin3|split; [exact Hglob|]]].
  - apply (list_sessions_elsewhere w3); [|reflexivity..].
    assert (Hd3 : history_dir_exists w3 = true) by congruence.
    destruct (list_sessions_spec w3 Hd3) as (sessions' & Hls' & Hmem' & _).
    rewrite Hls'. f_equal. f_equal. apply elem_of_nil_inv. intros name Hn.
    apply Hmem' in Hn as [[f Hf] Hg]. rewrite (Hglob name Hg) in Hf. discriminate.
  - intros name Hg. rewrite Hdir3, Hdir1.
    destruct (decide (name ∈ sessions)) as [Hn|]; [|reflexivity].
    apply Hmem in Hn as [_ Hg']. congruence.
Qed.

Lemma shelf_parses : only_sessions_parse (history_dir shelf).
Proof.
  unfold only_sessions_parse, shelf, history_dir.
  repeat apply map_Forall_insert_2; try apply map_Forall_empty;
    intros data [= <-]. eexists. reflexivity.
Qed.

Lemma clear_all_empties_the_listing_witness :
  exists w',
    view_history calm (with_stdin [Line " C"; Line "Y "; Line "hello"] shelf) = (Ok tt, w')
    /\ ChatHistory.list_sessions w' = (Ok [], w')
    /\ stdin w' = [Line "hello"].
Proof.
  destruct (clear_all_empties_the_listing calm
              (with_stdin [Line " C"; Line "Y "; Line "hello"] shelf)
              " C" "Y " "chat_20250101_090000.json" [Line "hello"]
              (fun _ _ => eq_refl) eq_refl shelf_parses
              (ex_intro _ (Garbage "{") eq_refl) eq_refl eq_refl eq_refl eq_refl)
    as (w' & Hrun & Hls & Hin & _).
  exists w'. auto.
Defined.

(** Clearing all history without an explicit [y]: nothing is deleted. *)
Theorem unconfirmed_clear_deletes_nothing
    (E : Env) (w : World) (choice confirm some_session : string) (rest : list InputEvent) :
  history_dir_exists w = true ->
  only_sessions_parse (history_dir w) ->
  is_Some (history_dir w !! some_session) ->
  ChatHistory.glob_chat some_session = true ->
  stdin w = Line choice :: Line confirm :: rest ->
  Py.lower (Py.strip choice) = "c"%string ->
  Py.lower (Py.strip confirm) <> "y"%string ->
  exists w',
    view_history E w = (Ok tt, w')
    /\ history_dir w' = history_dir w
    /\ stdin w' = rest.
Proof.
  intros Hd Hparse Hsome Hglob0 Hin Hc Hy.
  destruct (list_sessions_spec w Hd) as (sessions & Hls & Hmem & _ & _).
  assert (Hne : sessions <> []).
  { intros ->. assert (Hin0 : some_session ∈ @nil string) by (apply Hmem; auto).
    apply not_elem_of_nil in Hin0. exact Hin0. }
  assert (Hall : Forall (listable (history_dir w)) (firstn 10 sessions)).
  { apply Forall_forall. intros path _. apply only_sessions_parse_listable, Hparse. }
  destruct (view_history_to_menu E w sessions choice (Line confirm :: rest) Hls Hne Hall Hin)
    as (w1 & Hview & Hin1 & Hdir1 & _).
  rewrite Hview. unfold after_choice. cbv zeta. rewrite Hc.
  cbn [String.eqb Ascii.eqb Bool.eqb orb].
  erewrite bind_ok; [|apply input_line; exact Hin1].
  apply String.eqb_neq in Hy. rewrite Hy.
  eexists. split; [reflexivity|]. cbn. auto.
Qed.

Lemma unconfirmed_clear_deletes_nothing_witness :
  exists w',
    view_history calm (with_stdin [Line "c"; Line "yes"; Line "hello"] shelf) = (Ok tt, w')
    /\ history_dir w' = history_dir shelf
    /\ stdin w' = [Line "hello"].
Proof.
  assert (Hno : Py.lower (Py.strip "yes") <> "y"%string) by discriminate.
  exact (unconfirmed_clear_deletes_nothing calm
           (with_stdin [Line "c"; Line "yes"; Line "hello"] shelf)
           "c" "yes" "chat_20250101_090000.json" [Line "hello"]
           eq_refl shelf_parses (ex_intro _ (Garbage "{") eq_refl) eq_refl eq_refl eq_refl Hno).
Defined.

(** Deleting by number: the user enters [d], the number of a listed
    session and [y].  When the removal is not refused, exactly that
    session's file is deleted. *)
Theorem delete_by_number_removes_that_session
    (E : Env) (w : World) (sessions : list string)
    (choice number confirm target : string) (n : Z) (rest : list InputEvent) :
  history_dir_exists w = true ->
  only_sessions_parse (history_dir w) ->
  ChatHistory.list_sessions w = (Ok sessions, w) ->
  stdin w = Line choice :: Line number :: Line confirm :: rest ->
  Py.lower (Py.strip choice) = "d"%string ->
  Py.int (Py.strip number) = Some n ->
  (1 <= n)%Z ->
  sessions !! Z.to_nat (n - 1) = Some target ->
  Py.lower (Py.strip confirm) = "y"%string ->
  disk_unlink E (tick w) target = None ->
  exists w',
    view_history E w = (Ok tt, w')
    /\ history_dir w' = delete target (history_dir w)
    /\ stdin w' = rest
    /\ last (stdout w') = Some (Print "[OK] Session deleted").
Proof.
  intros Hd Hparse Hls Hin Hc Hnum Hpos Htarget Hy Hunlink.
  destruct (list_sessions_spec w Hd) as (sessions0 & Hls0 & Hmem & _ & _).
  rewrite Hls in Hls0. injection Hls0 as <-.
  assert (Hne : sessions <> []).
  { intros ->. rewrite lookup_nil in Htarget. discriminate. }
  assert (Hall : Forall (listable (history_dir w)) (firstn 10 sessions)).
  { apply Forall_forall. intros path _. apply only_sessions_parse_listable, Hparse. }
  destruct (view_history_to_menu E w sessions choice
              (Line number :: Line confirm :: rest) Hls Hne Hall Hin)
    as (w1 & Hview & Hin1 & Hdir1 & Hex1 & Htick1 & _).
  rewrite Hview. unfold after_choice. cbv zeta. rewrite Hc.
  cbn [String.eqb Ascii.eqb Bool.eqb orb].
  erewrite bind_ok; [|apply input_line; exact Hin1].
  cbv zeta. rewrite Hnum.
  assert (Hitem : item_at sessions (n - 1) = Some target).
  { unfold item_at. pose proof (lookup_lt_Some _ _ _ Htarget) as Hlt.
    replace ((0 <=? n - 1)%Z) with true by (symmetry; apply Z.leb_le; lia).
    replace ((n - 1 <? Z.of_nat (length sessions))%Z) with true
      by (symmetry; apply Z.ltb_lt; lia).
    exact Htarget. }
  rewrite Hitem.
  erewrite bind_ok; [|apply input_line; reflexivity].
  rewrite Hy. cbn [String.eqb Ascii.eqb Bool.eqb].
  assert (Hthere : is_Some (history_dir w !! target)).
  { apply (Hmem target). apply list_elem_of_lookup. eauto. }
  match goal with |- context [bind (ChatHistory.delete_session E target) _ ?w2] =>
    destruct (delete_session_run E target w2)
      as [(_ & _ & Hrun)|([Hnone|[msg Hmsg]] & _)] end.
  - erewrite bind_ok; [|exact Hrun].
    eexists. split; [reflexivity|].
    cbn [print emit bump with_history_dir with_stdin history_dir stdin stdout].
    rewrite Hdir1, last_snoc. auto.
  - exfalso. cbn [emit with_stdin history_dir] in Hnone. rewrite Hdir1 in Hnone.
    destruct Hthere as [f Hf]. congruence.
  - exfalso. cbn [emit with_stdin tick] in Hmsg. rewrite Htick1 in Hmsg. congruence.
Qed.

Lemma delete_by_number_removes_that_session_witness :
  exists w',
    view_history calm (with_stdin [Line "d"; Line "2"; Line "y"] shelf) = (Ok tt, w')
    /\ history_dir w' = delete "chat_20250101_090000.json"%string (history_dir shelf)
    /\ stdin w' = [].
Proof.
  destruct (delete_by_number_removes_that_session calm
              (with_stdin [Line "d"; Line "2"; Line "y"] shelf)
              [ "chat_20250309_143000.json"; "chat_20250101_090000.json";
                "chat_20241224_180000.json" ]%string
              "d" "2" "y" "chat_20250101_090000.json" 2 []
              eq_refl shelf_parses)
    as (w' & Hrun & Hdir & Hin & _);
    [vm_compute; reflexivity|reflexivity|reflexivity|reflexivity|lia|reflexivity
    |reflexivity|reflexivity|].
  exists w'. auto.
Defined.

(** ** The creation time in the listing *)

Lemma digit_is_no_T (k : nat) : k < 10 -> Ascii.eqb (Py.digit k) "T" = false.
Proof.
  intros Hk. do 10 (destruct k as [|k]; [reflexivity|]). lia.
Qed.

(** The listing shows a session's creation time to the minute: of the
    [isoformat] text stored as [created] it keeps the date and the hour and
    minute, with a space in place of the [T]. *)
Theorem listing_shows_creation_minute (d : datetime) :
  plausible d ->
  Py.replace "T" " " (Py.take 16 (isoformat d))
  = (Py.pad4 (year d) ++ "-" ++ Py.pad2 (month d) ++ "-" ++ Py.pad2 (day d) ++ " "
     ++ Py.pad2 (hour d) ++ ":" ++ Py.pad2 (minute d))%string.
Proof.
  intros (Hy & Hm & Hd & Hh & Hn & Hs).
  assert (Hq : year d / 100 < 100) by (apply Nat.Div0.div_lt_upper_bound; lia).
  assert (Hr : year d mod 100 < 100) by (apply Nat.mod_upper_bound; lia).
  assert (Hdiv : forall n, n < 100 -> n / 10 < 10)
    by (intros n Hlt; apply Nat.Div0.div_lt_upper_bound; lia).
  assert (Hmod : forall n, n mod 10 < 10) by (intros n; apply Nat.mod_upper_bound; lia).
  cbv [isoformat Py.pad4 Py.pad2 String.append Py.take Py.replace Py.map_chars].
  rewrite !digit_is_no_T by auto.
  reflexivity.
Qed.

Lemma listing_shows_creation_minute_witness :
  Py.replace "T" " " (Py.take 16 (isoformat (at_second 7))) = "2025-03-09 14:30"%string.
Proof.
  rewrite (listing_shows_creation_minute (at_second 7)).
  - reflexivity.
  - unfold plausible. simpl. lia.
Defined.

(** * The API key *)

Lemma assoc_set_same (key : string) (v : json) (kv : list (string * json)) :
  assoc key (assoc_set key v kv) = Some v.
Proof.
  induction kv as [|[k x] kv IH]; cbn [assoc_set assoc].
  - rewrite String.eqb_refl. reflexivity.
  - destruct (String.eqb key k) eqn:Hk; cbn [assoc]; rewrite Hk; [reflexivity|exact IH].
Qed.

Lemma assoc_set_other (key other : string) (v : json) (kv : list (string * json)) :
  other <> key -> assoc other (assoc_set key v kv) = assoc other kv.
Proof.
  intros Hne. induction kv as [|[k x] kv IH]; cbn [assoc_set assoc].
  - apply String.eqb_neq in Hne. rewrite Hne. reflexivity.
  - destruct (String.eqb key k) eqn:Hk; cbn [assoc].
    + apply String.eqb_eq in Hk. subst k.
      apply String.eqb_neq in Hne. rewrite Hne. reflexivity.
    + destruct (String.eqb other k); [reflexivity|exact IH].
Qed.

Lemma load_config_fields (h : Host) (fields : list (string * json)) :
  config_fields h = Some fields -> load_config h = (Ok (JObj fields), h).
Proof.
  unfold config_fields, load_config.
  destruct (config_file h) as [[v|text|]|]; try (intros [= <-]; reflexivity).
  destruct v; try discriminate. intros [= <-]. reflexivity.
Qed.

(** A key in the environment wins: it is returned without looking at the
    configuration file and without reading a line. *)
Theorem environment_key_wins (E : Env) (h : Host) (k : string) :
  environ_key h = Some k ->
  k <> ""%string ->
  exists h',
    get_api_key E h = (Ok (Returned (JStr k)), h')
    /\ config_file h' = config_file h
    /\ stdin (terminal h') = stdin (terminal h)
    /\ tick (terminal h') = tick (terminal h).
Proof.
  intros Henv Hne. unfold get_api_key.
  rewrite (bind_ok get _ h h h eq_refl). rewrite Henv.
  destruct k as [|c k]; [contradiction|].
  eexists. split; [reflexivity|]. cbn. auto.
Qed.

Lemma saved_key_run
    (E : Env) (h : Host) (fields : list (string * json)) (v : json) :
  no_env_key h ->
  config_file h = Some (Json (JObj fields)) ->
  assoc "api_key" fields = Some v ->
  truthy v = true ->
  exists h',
    get_api_key E h = (Ok (Returned v), h')
    /\ config_file h' = config_file h
    /\ stdin (terminal h') = stdin (terminal h).
Proof.
  intros Henv Hcfg Hkey Htrue. unfold get_api_key.
  rewrite (bind_ok get _ h h h eq_refl).
  assert (Hload : load_config h = (Ok (JObj fields), h))
    by (apply load_config_fields; unfold config_fields; rewrite Hcfg; reflexivity).
  destruct Henv as [-> | ->];
    (erewrite bind_ok; [|exact Hload]);
    (erewrite bind_ok; [|cbn [dict_get]; rewrite Hkey; reflexivity]);
    cbn [default from_option id]; rewrite Htrue;
    eexists; (split; [reflexivity|]); cbn; auto.
Qed.

(** Without a key in the environment, a key saved in the configuration
    file is returned without reading a line. *)
Theorem saved_key_needs_no_prompt
    (E : Env) (h : Host) (fields : list (string * json)) (v : json) :
  no_env_key h ->
  config_file h = Some (Json (JObj fields)) ->
  assoc "api_key" fields = Some v ->
  truthy v = true ->
  exists h',
    get_api_key E h = (Ok (Returned v), h')
    /\ config_file h' = config_file h
    /\ stdin (terminal h') = stdin (terminal h).
Proof.
  apply saved_key_run.
Qed.

Lemma environment_key_wins_witness :
  exists h',
    get_api_key calm (host (Some "env-key"%string)
                           (Some (Json (JObj [("api_key"%string, JStr "file-key")])))
                           ["typed-key"%string])
    = (Ok (Returned (JStr "env-key")), h')
    /\ stdin (terminal h') = [Line "typed-key"].
Proof.
  assert (Hne : "env-key"%string <> ""%string) by discriminate.
  destruct (environment_key_wins calm
              (host (Some "env-key"%string)
                    (Some (Json (JObj [("api_key"%string, JStr "file-key")])))
                    ["typed-key"%string])
              "env-key" eq_refl Hne)
    as (h' & Hrun & _ & Hin & _).
  exists h'. auto.
Defined.

Lemma saved_key_needs_no_prompt_witness :
  exists h',
    get_api_key calm (host (Some ""%string)
                           (Some (Json (JObj [("api_key"%string, JStr "file-key")])))
                           ["typed-key"%string])
    = (Ok (Returned (JStr "file-key")), h')
    /\ stdin (terminal h') = [Line "typed-key"].
Proof.
  destruct (saved_key_needs_no_prompt calm
              (host (Some ""%string)
                    (Some (Json (JObj [("api_key"%string, JStr "file-key")])))
                    ["typed-key"%string])
              [("api_key"%string, JStr "file-key")] (JStr "file-key")
              (or_intror eq_refl) eq_refl eq_refl eq_refl)
    as (h' & Hrun & _ & Hin).
  exists h'. auto.
Defined.

(** The part of [get_api_key] that asks for the key. *)
Lemma get_api_key_asks (E : Env) (h : Host) (fields : list (string * json)) line rest :
  no_env_key h ->
  config_fields h = Some fields ->
  no_saved_key fields ->
  stdin (terminal h) = Line line :: rest ->
  exists h1,
    get_api_key E h
    = (let api_key := Py.strip line in
       if Py.is_empty api_key then
         on_terminal (print "[ERROR] API key is required") ;;
         ret (SysExit 1)
       else
         answer <- on_terminal (input "Save API key for future sessions? [Y/n]: ") ;;
         let save_choice := Py.lower (Py.strip answer) in
         (if negb (save_choice =? "n")%string then
            config' <- dict_set (JObj fields) "api_key" (JStr api_key) ;;
            save_config E config' ;;
            on_terminal (print "[OK] API key saved")
          else ret tt) ;;
         ret (Returned (JStr api_key)))%py h1
    /\ config_file h1 = config_file h
    /\ environ_key h1 = environ_key h
    /\ stdin (terminal h1) = rest
    /\ tick (terminal h1) = tick (terminal h).
Proof.
  intros Henv Hcfg Hnone Hin. unfold get_api_key.
  rewrite (bind_ok get _ h h h eq_refl).
  pose proof (load_config_fields h fields Hcfg) as Hload.
  unfold no_saved_key in Hnone.
  destruct Henv as [He | He]; rewrite He;
    (erewrite bind_ok; [|exact Hload]);
    (erewrite bind_ok; [|reflexivity]);
    rewrite Hnone;
    do 3 (erewrite bind_ok; [|reflexivity]);
    (erewrite bind_ok;
       [|unfold on_terminal; erewrite input_line; [reflexivity|exact Hin]]);
    eexists; (split; [reflexivity|]); cbn; auto.
Qed.

(** Asked for a key, a blank answer ends the program with exit status 1;
    the configuration file is not touched. *)
Theorem blank_key_exits (E : Env) (h : Host) (fields : list (string * json)) line rest :
  no_env_key h ->
  config_fields h = Some fields ->
  no_saved_key fields ->
  stdin (terminal h) = Line line :: rest ->
  Py.is_empty (Py.strip line) = true ->
  exists h',
    get_api_key E h = (Ok (SysExit 1), h')
    /\ config_file h' = config_file h
    /\ tick (terminal h') = tick (terminal h).
Proof.
  intros Henv Hcfg Hnone Hin Hblank.
  destruct (get_api_key_asks E h fields line rest Henv Hcfg Hnone Hin)
    as (h1 & -> & Hc1 & _ & _ & Ht1).
  cbv zeta. rewrite Hblank.
  eexists. split; [reflexivity|]. cbn. auto.
Qed.

Lemma blank_key_exits_witness :
  exists h',
    get_api_key calm (host None None ["   "%string]) = (Ok (SysExit 1), h')
    /\ config_file h' = None.
Proof.
  destruct (blank_key_exits calm (host None None ["   "%string]) [] "   " []
              (or_introl eq_refl) eq_refl eq_refl eq_refl eq_refl)
    as (h' & Hrun & Hc & _).
  exists h'. auto.
Defined.

(** A typed key is saved unless the user answers [n]: when the write goes
    through, the configuration file holds the key (trimmed) under
    [api_key] with every other setting as it was, and the next call
    without an environment key returns it without asking. *)
Theorem typed_key_is_saved_and_found_again
    (E : Env) (h : Host) (fields : list (string * json)) line answer rest :
  no_env_key h ->
  config_fields h = Some fields ->
  no_saved_key fields ->
  stdin (terminal h) = Line line :: Line answer :: rest ->
  Py.is_empty (Py.strip line) = false ->
  Py.lower (Py.strip answer) <> "n"%string ->
  disk_write E (tick (terminal h)) "config.json" = Written ->
  exists h' fields' h'',
    get_api_key E h = (Ok (Returned (JStr (Py.strip line))), h')
    /\ config_file h' = Some (Json (JObj fields'))
    /\ assoc "api_key" fields' = Some (JStr (Py.strip line))
    /\ (forall other, other <> "api_key"%string -> assoc other fields' = assoc other fields)
    /\ stdin (terminal h') = rest
    /\ get_api_key E h' = (Ok (Returned (JStr (Py.strip line))), h'')
    /\ stdin (terminal h'') = rest.
Proof.
  intros Henv Hcfg Hnone Hin Hkey Hans Hw.
  set (fields' := assoc_set "api_key" (JStr (Py.strip line)) fields).
  assert (Hfirst : exists h',
             get_api_key E h = (Ok (Returned (JStr (Py.strip line))), h')
             /\ config_file h' = Some (Json (JObj fields'))
             /\ environ_key h' = environ_key h
             /\ stdin (terminal h') = rest).
  { destruct (get_api_key_asks E h fields line (Line answer :: rest) Henv Hcfg Hnone Hin)
      as (h1 & -> & Hc1 & He1 & Hin1 & Ht1).
    cbv zeta. rewrite Hkey.
    erewrite bind_ok;
      [|unfold on_terminal; erewrite input_line; [reflexivity|exact Hin1]].
    apply String.eqb_neq in Hans. rewrite Hans. cbn [negb].
    erewrite bind_ok;
      [|erewrite bind_ok; [|reflexivity];
        erewrite bind_ok;
          [|unfold save_config; cbn [terminal with_terminal tick emit with_stdin];
            rewrite Ht1, Hw; reflexivity];
        reflexivity].
    eexists. split; [reflexivity|]. cbn. auto. }
  destruct Hfirst as (h' & Hrun & Hc & He & Hrest).
  assert (Htrue : truthy (JStr (Py.strip line)) = true)
    by (cbn [truthy]; rewrite Hkey; reflexivity).
  destruct (saved_key_run E h' fields' (JStr (Py.strip line)))
    as (h'' & Hagain & _ & Hin'').
  - unfold no_env_key. rewrite He. exact Henv.
  - exact Hc.
  - apply assoc_set_same.
  - exact Htrue.
  - exists h', fields', h''. split; [exact Hrun|]. split; [exact Hc|].
    split; [apply assoc_set_same|]. split; [intros other Hne; apply assoc_set_other, Hne|].
    split; [exact Hrest|]. split; [exact Hagain|]. rewrite Hin''. exact Hrest.
Qed.

Lemma typed_key_is_saved_and_found_again_witness :
  exists h' h'',
    get_api_key calm (host None (Some (Json (JObj [("theme"%string, JStr "dark")])))
                           [" my-key "; ""; "hello"]%string)
    = (Ok (Returned (JStr "my-key")), h')
    /\ config_file h'
       = Some (Json (JObj [("theme"%string, JStr "dark"); ("api_key"%string, JStr "my-key")]))
    /\ get_api_key calm h' = (Ok (Returned (JStr "my-key")), h'')
    /\ stdin (terminal h'') = [Line "hello"].
Proof.
  assert (Hans : Py.lower (Py.strip "") <> "n"%string) by discriminate.
  destruct (typed_key_is_saved_and_found_again calm
              (host None (Some (Json (JObj [("theme"%string, JStr "dark")])))
                    [" my-key "; ""; "hello"]%string)
              [("theme"%string, JStr "dark")] " my-key " "" [Line "hello"]
              (or_introl eq_refl) eq_refl eq_refl eq_refl eq_refl Hans eq_refl)
    as (h' & fields' & h'' & Hrun & Hc & _ & _ & _ & Hagain & Hin'').
  exists h', h''. split; [exact Hrun|]. split; [|split; [exact Hagain|exact Hin'']].
  revert Hrun. vm_compute. intros [= <-]. reflexivity.
Defined.

(** Answering [n] (in any letter case, with white space around) to the
    offer to save keeps the key for this run only: the configuration file
    is not written. *)
Theorem declined_save_writes_nothing
    (E : Env) (h : Host) (fields : list (string * json)) line answer rest :
  no_env_key h ->
  config_fields h = Some fields ->
  no_saved_key fields ->
  stdin (terminal h) = Line line :: Line answer :: rest ->
  Py.is_empty (Py.strip line) = false ->
  Py.lower (Py.strip answer) = "n"%string ->
  exists h',
    get_api_key E h = (Ok (Returned (JStr (Py.strip line))), h')
    /\ config_file h' = config_file h
    /\ tick (terminal h') = tick (terminal h)
    /\ stdin (terminal h') = rest.
Proof.
  intros Henv Hcfg Hnone Hin Hkey Hans.
  destruct (get_api_key_asks E h fields line (Line answer :: rest) Henv Hcfg Hnone Hin)
    as (h1 & -> & Hc1 & He1 & Hin1 & Ht1).
  cbv zeta. rewrite Hkey.
  erewrite bind_ok;
    [|unfold on_terminal; erewrite input_line; [reflexivity|exact Hin1]].
  rewrite Hans. cbn [String.eqb Ascii.eqb Bool.eqb negb].
  eexists. split; [reflexivity|]. cbn. auto.
Qed.

Lemma declined_save_writes_nothing_witness :
  exists h',
    get_api_key calm (host None None ["my-key"; " N "]%string)
    = (Ok (Returned (JStr "my-key")), h')
    /\ config_file h' = None.
Proof.
  destruct (declined_save_writes_nothing calm (host None None ["my-key"; " N "]%string)
              [] "my-key" " N " [] (or_introl eq_refl) eq_refl eq_refl eq_refl eq_refl eq_refl)
    as (h' & Hrun & Hc & _).
  exists h'. auto.
Defined.
